(** * lablog-backend: the blog store, its persistence manager and the
      comment endpoints, embedded and verified.

    The development follows the Python sources:
    - [data_models.py]: the pydantic records ([PostMetadata], [CommentData],
      [DisplayCommentData], [BlogData], the request envelopes);
    - [lablog.py]: [PostFilter] and the [Lablog] store;
    - [database.py]: [LablogDatabaseManager];
    - [main.py]: the rate limiter, the spam filter, [lifespan] and the
      handlers of the routes.

    Modelling conventions.
    - A Python [dict] keeps insertion order, and both [get_posts] (through a
      stable sort) and the JSON dump observe it, so a dict is an association
      list whose keys are kept distinct by the operations ([PyDict]).
    - A Python [float] is a finite value, an infinity or NaN ([float]).  The
      finite values are rationals; comparisons follow IEEE 754, so NaN
      compares false with everything, and [int(x)] truncates a finite value
      toward zero and raises on the others.  Float addition rounds, and is a
      function of the interpreter ([float_add]).
    - [list.sort] is the stable sort where its keys are totally ordered.
      With a NaN among float keys Python promises a permutation and no more:
      the order is then left to the interpreter ([sort_unordered]).
    - [datetime] and [timedelta] values of the rate limiter are integers
      counting microseconds.
    - Methods that mutate the store or raise are computations in a state and
      exception monad: an exception leaves the state as it was when raised.
    - A file holds bytes; [open] can fail for a path, for reading or for
      writing, with the error the disk holds for it.
    - [uuid.uuid4()], [time.time()] and [datetime.now()] are inputs of the
      operation that calls them.
    - A route is modelled by its handler function: what the handler returns
      or raises, before the framework renders a response. *)

From Stdlib Require Import ZArith QArith String Ascii List Permutation Sorted.
From stdpp Require Import base tactics option list strings gmap.

Local Open Scope string_scope.
Local Open Scope Z_scope.

(** ** Python dictionaries with insertion order *)

Module PyDict.
Section dict.
Context {V : Type}.

(** [d[k]] for a key that is present; [None] stands for [KeyError]. *)
Fixpoint get (k : string) (d : list (string * V)) : option V :=
  match d with
  | [] => None
  | (k', v) :: d' => if decide (k = k') then Some v else get k d'
  end.

(** [k in d] *)
Definition contains (k : string) (d : list (string * V)) : bool :=
  match get k d with Some _ => true | None => false end.

(** [d[k] = v]: an existing key keeps its position, a new key goes last. *)
Fixpoint set (k : string) (v : V) (d : list (string * V)) : list (string * V) :=
  match d with
  | [] => [(k, v)]
  | (k', v') :: d' =>
      if decide (k = k') then (k, v) :: d' else (k', v') :: set k v d'
  end.

(** [del d[k]] (only called on a key that is present). *)
Fixpoint del (k : string) (d : list (string * V)) : list (string * V) :=
  match d with
  | [] => []
  | (k', v') :: d' => if decide (k = k') then d' else (k', v') :: del k d'
  end.

(** [d.keys()] and [d.values()] *)
Definition keys (d : list (string * V)) : list string := d.*1.
Definition values (d : list (string * V)) : list V := d.*2.

(** What every Python dict satisfies: no key occurs twice. *)
Definition wf (d : list (string * V)) : Prop := NoDup (keys d).
End dict.
End PyDict.

(** ** Python floats

    Every finite binary64 value is a rational, and the comparisons and
    [int()] of finite floats are those of the rationals.  The two zeros are
    one value here, as they are for every comparison and for [int()]. *)

Inductive float : Type :=
  | Finite (q : Q)
  | PosInf
  | NegInf
  | NaN.

(** An integer literal used as a float, as in [t + 3600]. *)
Definition float_of_Z (n : Z) : float := Finite (inject_Z n).
Coercion float_of_Z : Z >-> float.

Definition is_nan (a : float) : bool :=
  match a with NaN => true | _ => false end.

Definition is_finite (a : float) : bool :=
  match a with Finite _ => true | _ => false end.

(** [a <= b], [a < b] and [a == b]: false as soon as one side is NaN. *)
Definition float_le (a b : float) : bool :=
  match a, b with
  | NaN, _ | _, NaN => false
  | NegInf, _ => true
  | _, PosInf => true
  | Finite x, Finite y => Qle_bool x y
  | _, _ => false
  end.

Definition float_lt (a b : float) : bool :=
  match a, b with
  | NaN, _ | _, NaN => false
  | _, _ => negb (float_le b a)
  end.

Definition float_eqb (a b : float) : bool := float_le a b && float_le b a.

(** ** data_models.py *)

Module PostMetadata.
Record t := mk {
  title : string;
  abstract : string;
  link : string;
  created_timestamp : float;
  catagory : string;
  tags : list string;
  comments : list string;
  post_id : string
}.

Definition set_title (v : string) (p : t) : t :=
  mk v (abstract p) (link p) (created_timestamp p) (catagory p) (tags p) (comments p) (post_id p).
Definition set_abstract (v : string) (p : t) : t :=
  mk (title p) v (link p) (created_timestamp p) (catagory p) (tags p) (comments p) (post_id p).
Definition set_link (v : string) (p : t) : t :=
  mk (title p) (abstract p) v (created_timestamp p) (catagory p) (tags p) (comments p) (post_id p).
Definition set_created_timestamp (v : float) (p : t) : t :=
  mk (title p) (abstract p) (link p) v (catagory p) (tags p) (comments p) (post_id p).
Definition set_catagory (v : string) (p : t) : t :=
  mk (title p) (abstract p) (link p) (created_timestamp p) v (tags p) (comments p) (post_id p).
Definition set_tags (v : list string) (p : t) : t :=
  mk (title p) (abstract p) (link p) (created_timestamp p) (catagory p) v (comments p) (post_id p).
Definition set_comments (v : list string) (p : t) : t :=
  mk (title p) (abstract p) (link p) (created_timestamp p) (catagory p) (tags p) v (post_id p).
End PostMetadata.

Module CommentData.
Record t := mk {
  name : string;
  content : string;
  contact_address : string;
  created_timestamp : float;
  ip_address : string;
  comment_id : string;
  post_id : string;
  display : bool
}.

Definition set_name (v : string) (c : t) : t :=
  mk v (content c) (contact_address c) (created_timestamp c) (ip_address c) (comment_id c) (post_id c) (display c).
Definition set_content (v : string) (c : t) : t :=
  mk (name c) v (contact_address c) (created_timestamp c) (ip_address c) (comment_id c) (post_id c) (display c).
Definition set_contact_address (v : string) (c : t) : t :=
  mk (name c) (content c) v (created_timestamp c) (ip_address c) (comment_id c) (post_id c) (display c).
Definition set_created_timestamp (v : float) (c : t) : t :=
  mk (name c) (content c) (contact_address c) v (ip_address c) (comment_id c) (post_id c) (display c).
Definition set_ip_address (v : string) (c : t) : t :=
  mk (name c) (content c) (contact_address c) (created_timestamp c) v (comment_id c) (post_id c) (display c).
Definition set_post_id (v : string) (c : t) : t :=
  mk (name c) (content c) (contact_address c) (created_timestamp c) (ip_address c) (comment_id c) v (display c).
Definition set_display (v : bool) (c : t) : t :=
  mk (name c) (content c) (contact_address c) (created_timestamp c) (ip_address c) (comment_id c) (post_id c) v.
End CommentData.

Module BlogData.
Record t := mk {
  posts : list (string * PostMetadata.t);
  comments : list (string * CommentData.t)
}.
End BlogData.

Module DisplayCommentData.
Record t := mk {
  name : string;
  content : string;
  created_timestamp : Z
}.
End DisplayCommentData.

Module AddCommentData.
Record t := mk {
  name : string;
  content : string;
  contact_address : string
}.
End AddCommentData.

Module AddOrUpdateCommentData.
Record t := mk {
  comment_id : option string;
  name : option string;
  content : option string;
  contact_address : option string;
  created_timestamp : option float;
  ip_address : option string;
  post_id : option string;
  display : option bool
}.
End AddOrUpdateCommentData.

Module AddOrUpdateCommentResult.
Record t := mk { result : string; comment_id : string }.
End AddOrUpdateCommentResult.

(** ** Exceptions and the state-and-exception monad *)

Inductive exn : Type :=
  | KeyError                       (* a missing dict key: the spec's NotFound *)
  | ValueError                     (* the spec's InvalidInput; int() of NaN *)
  | OverflowError                  (* int() of an infinity *)
  | TypeError                      (* unpacking a value that is no mapping *)
  | ValidationError                (* pydantic rejects a field value *)
  | JSONDecodeError
  | UnicodeDecodeError
  | FileNotFoundError
  | OSError                        (* any other failure of [open] *)
  | AccessLevelException
  | HTTPException (status_code : Z).

Inductive outcome (A : Type) : Type :=
  | Ret (a : A)
  | Raise (e : exn).
Arguments Ret {A} a.
Arguments Raise {A} e.

Definition M (S A : Type) : Type := S → outcome A * S.

Definition ret {S A} (a : A) : M S A := λ s, (Ret a, s).
Definition bind {S A B} (m : M S A) (f : A → M S B) : M S B :=
  λ s, match m s with
       | (Ret a, s') => f a s'
       | (Raise e, s') => (Raise e, s')
       end.
Definition raise {S A} (e : exn) : M S A := λ s, (Raise e, s).
Definition get_state {S} : M S S := λ s, (Ret s, s).
Definition put_state {S} (s : S) : M S unit := λ _, (Ret (), s).

#[global] Instance M_ret {S} : MRet (M S) := λ A, ret.
#[global] Instance M_bind {S} : MBind (M S) := λ A B f m, bind m f.

(** A call that does not touch the state: it returns or raises. *)
Definition and_then {A B} (o : outcome A) (f : A → outcome B) : outcome B :=
  match o with
  | Ret a => f a
  | Raise e => Raise e
  end.

Definition returning {S A} (o : outcome A) : M S A := λ s, (o, s).

(** [if v is not None: body(v)] *)
Definition if_not_None {S A} (o : option A) (body : A → M S unit) : M S unit :=
  match o with
  | Some v => body v
  | None => ret ()
  end.

(** [o if o is not None else d] *)
Definition or_else {A} (o : option A) (d : A) : A :=
  match o with Some v => v | None => d end.

(** ** list.sort(key=..., reverse=...)

    Python's sort is stable, also with [reverse=True]: elements with equal
    keys keep their relative order.  On keys that are totally ordered a
    stable sort has one possible result, which insertion from the right
    computes. *)

Fixpoint insert_by {A} (precedes : A → A → bool) (x : A) (l : list A) : list A :=
  match l with
  | [] => [x]
  | y :: l' => if precedes x y then x :: y :: l' else y :: insert_by precedes x l'
  end.

Definition list_sort {A K} (le : K → K → bool) (key : A → K) (reverse : bool)
    (l : list A) : list A :=
  foldr (insert_by (λ x y, if reverse then le (key y) (key x) else le (key x) (key y))) [] l.

(** [l.remove(x)] deletes the first occurrence of [x]; [None] stands for the
    ValueError raised when there is none. *)
Fixpoint list_remove (x : string) (l : list string) : option (list string) :=
  match l with
  | [] => None
  | y :: l' =>
      if decide (x = y) then Some l'
      else match list_remove x l' with
           | Some r => Some (y :: r)
           | None => None
           end
  end.

(** [int(a)]: truncation toward zero; OverflowError for an infinity and
    ValueError for NaN. *)
Definition int_of_float (a : float) : outcome Z :=
  match a with
  | Finite q => Ret (Z.quot (Qnum q) (Z.pos (Qden q)))
  | PosInf | NegInf => Raise OverflowError
  | NaN => Raise ValueError
  end.

(** ** JSON documents, the library functions and the disk *)

(** What [json.loads] returns and what pydantic renders: a JSON object keeps
    the order of its members, like the dicts it comes from; a number is an
    [int] or a [float], as [json.loads] tells them apart. *)
#[warnings="-register-all"]
Inductive json : Type :=
  | JNull
  | JBool (b : bool)
  | JInt (n : Z)
  | JFloat (x : float)
  | JString (s : string)
  | JArray (items : list json)
  | JObject (members : list (string * json)).

(** The content of a file. *)
Definition bytes : Type := string.

(** Functions of the interpreter and of the libraries, which the sources
    call and do not define.
    - [str_lower] is [str.lower];
    - [str_encode] is [s.encode("utf-8")], [bytes_decode] is
      [b.decode("utf-8")], [None] for a UnicodeDecodeError;
    - [sha256_hexdigest b] is [hashlib.sha256(b).hexdigest()];
    - [json_render] is the text pydantic writes for a document with
      [indent=2];
    - [json_loads] is [json.loads]: the value, or the exception it raises
      (JSONDecodeError for a text that is no JSON document);
    - [lax_float] and [lax_bool] are what pydantic makes, in its default lax
      mode, of a value that is no float, or no bool, for a field declared
      [float], or [bool]: an int, a bool or a numeric string may be
      converted; [None] for a ValidationError;
    - [float_add] is [+] on floats, which rounds;
    - [sort_unordered key reverse l] is what [l.sort(key=..., reverse=...)]
      leaves when a key is NaN: the elements of [l] in some order. *)
Class Runtime := {
  str_lower : string → string;
  str_encode : string → bytes;
  bytes_decode : bytes → option string;
  sha256_hexdigest : bytes → string;
  json_render : json → string;
  json_loads : string → outcome json;
  lax_float : json → option float;
  lax_bool : json → option bool;
  float_add : float → float → float;
  sort_unordered : ∀ A : Type, (A → float) → bool → list A → list A;
  sort_unordered_perm :
    ∀ (A : Type) (key : A → float) (reverse : bool) (l : list A),
      sort_unordered A key reverse l ≡ₚ l
}.
Arguments sort_unordered {_ A} key reverse l.

(** [l.sort(key=key, reverse=reverse)] for a key that is a float. *)
Definition sort_by_float `{Runtime} {A} (key : A → float) (reverse : bool) (l : list A)
    : list A :=
  if forallb (λ x, negb (is_nan (key x))) l then list_sort float_le key reverse l
  else sort_unordered key reverse l.

(** [model_dump_json]: every field in declaration order.  No field of these
    models is optional, so [exclude_none=True] leaves nothing out.  A float
    that is infinite or NaN is written as [null]. *)
Definition dump_str_list (l : list string) : json := JArray (JString <$> l).

Definition dump_float (x : float) : json :=
  if is_finite x then JFloat x else JNull.

Definition dump_PostMetadata (p : PostMetadata.t) : json :=
  JObject [
    ("title", JString (PostMetadata.title p));
    ("abstract", JString (PostMetadata.abstract p));
    ("link", JString (PostMetadata.link p));
    ("created_timestamp", dump_float (PostMetadata.created_timestamp p));
    ("catagory", JString (PostMetadata.catagory p));
    ("tags", dump_str_list (PostMetadata.tags p));
    ("comments", dump_str_list (PostMetadata.comments p));
    ("post_id", JString (PostMetadata.post_id p)) ].

Definition dump_CommentData (c : CommentData.t) : json :=
  JObject [
    ("name", JString (CommentData.name c));
    ("content", JString (CommentData.content c));
    ("contact_address", JString (CommentData.contact_address c));
    ("created_timestamp", dump_float (CommentData.created_timestamp c));
    ("ip_address", JString (CommentData.ip_address c));
    ("comment_id", JString (CommentData.comment_id c));
    ("post_id", JString (CommentData.post_id c));
    ("display", JBool (CommentData.display c)) ].

Definition dump_dict {V} (dump : V → json) (d : list (string * V)) : json :=
  JObject (prod_map id dump <$> d).

Definition dump_BlogData (data : BlogData.t) : json :=
  JObject [
    ("posts", dump_dict dump_PostMetadata (BlogData.posts data));
    ("comments", dump_dict dump_CommentData (BlogData.comments data)) ].

(** Validation when a model is built from the value [json.loads] returned;
    [None] stands for pydantic's ValidationError.  A missing field is
    refused, members that are no field are ignored.  A value of the declared
    type is taken as it is, also a float that is infinite or NaN; for any
    other value a [float] or [bool] field asks the lax conversion, and a
    [str], list or dict field refuses it. *)
Definition validate_str (j : json) : option string :=
  match j with JString s => Some s | _ => None end.

Definition validate_float `{Runtime} (j : json) : option float :=
  match j with JFloat x => Some x | _ => lax_float j end.

Definition validate_bool `{Runtime} (j : json) : option bool :=
  match j with JBool b => Some b | _ => lax_bool j end.

Definition validate_str_list (j : json) : option (list string) :=
  match j with JArray items => mapM validate_str items | _ => None end.

Definition field {A} (k : string) (validate : json → option A)
    (members : list (string * json)) : option A :=
  PyDict.get k members ≫= validate.

Definition validate_PostMetadata `{Runtime} (j : json) : option PostMetadata.t :=
  match j with
  | JObject m =>
      title ← field "title" validate_str m;
      abstract ← field "abstract" validate_str m;
      link ← field "link" validate_str m;
      created_timestamp ← field "created_timestamp" validate_float m;
      catagory ← field "catagory" validate_str m;
      tags ← field "tags" validate_str_list m;
      comments ← field "comments" validate_str_list m;
      post_id ← field "post_id" validate_str m;
      Some (PostMetadata.mk title abstract link created_timestamp catagory tags
              comments post_id)
  | _ => None
  end.

Definition validate_CommentData `{Runtime} (j : json) : option CommentData.t :=
  match j with
  | JObject m =>
      name ← field "name" validate_str m;
      content ← field "content" validate_str m;
      contact_address ← field "contact_address" validate_str m;
      created_timestamp ← field "created_timestamp" validate_float m;
      ip_address ← field "ip_address" validate_str m;
      comment_id ← field "comment_id" validate_str m;
      post_id ← field "post_id" validate_str m;
      display ← field "display" validate_bool m;
      Some (CommentData.mk name content contact_address created_timestamp ip_address
              comment_id post_id display)
  | _ => None
  end.

Definition validate_dict {V} (validate : json → option V) (j : json)
    : option (list (string * V)) :=
  match j with
  | JObject m => mapM (λ kv, v ← validate kv.2; Some (kv.1, v)) m
  | _ => None
  end.

(** [BlogData] built from a dict [r] that is unpacked into keyword
    arguments; the dict is given by its items. *)
Definition validate_BlogData `{Runtime} (kwargs : list (string * json)) : option BlogData.t :=
  posts ← field "posts" (validate_dict validate_PostMetadata) kwargs;
  comments ← field "comments" (validate_dict validate_CommentData) kwargs;
  Some (BlogData.mk posts comments).

(** The local disk: the files by path, the error [open] raises for a path
    it cannot open, for reading and for writing, and how many times a file
    has been written since the process started. *)
Module Disk.
Record t := mk {
  files : gmap string bytes;
  read_error : gmap string exn;
  write_error : gmap string exn;
  writes : nat
}.

Definition empty : t := mk ∅ ∅ ∅ 0.

(** [os.path.exists(path)] *)
Definition exists_ (path : string) (d : t) : bool :=
  bool_decide (is_Some (files d !! path)).

(** [open(path, 'wb')] followed by [f.write(content)] *)
Definition write (path : string) (content : bytes) : M t unit :=
  λ d, match write_error d !! path with
       | Some e => (Raise e, d)
       | None =>
           (Ret (), mk (<[path := content]> (files d)) (read_error d) (write_error d)
                      (S (writes d)))
       end.

(** [open(path, 'rb')] followed by [f.read()] *)
Definition read (path : string) : M t bytes :=
  λ d, match read_error d !! path with
       | Some e => (Raise e, d)
       | None =>
           match files d !! path with
           | Some content => (Ret content, d)
           | None => (Raise FileNotFoundError, d)
           end
       end.
End Disk.
(** ** lablog.py: PostFilter *)

Module PostFilter.
Record t := mk { filters : list (PostMetadata.t → bool) }.

Definition init : t := mk [].

Definition add_filter (filter : PostMetadata.t → bool) (pf : t) : t :=
  mk (filters pf ++ [filter]).

(** The loop of [apply_filters]: the first failing filter returns False. *)
Fixpoint apply_loop (fs : list (PostMetadata.t → bool)) (data : PostMetadata.t) : bool :=
  match fs with
  | [] => true
  | f :: fs' => if negb (f data) then false else apply_loop fs' data
  end.

Definition apply_filters (pf : t) (data : PostMetadata.t) : bool :=
  apply_loop (filters pf) data.

Definition generate_post_id_filter (post_id : string) : PostMetadata.t → bool :=
  λ data, bool_decide (PostMetadata.post_id data = post_id).

Definition generate_post_id_list_filter (post_id_list : list string) : PostMetadata.t → bool :=
  λ data, bool_decide (PostMetadata.post_id data ∈ post_id_list).

Definition generate_catagory_filter (catagory : string) : PostMetadata.t → bool :=
  λ data, bool_decide (PostMetadata.catagory data = catagory).

Definition generate_tag_filter (tag : string) : PostMetadata.t → bool :=
  λ data, bool_decide (tag ∈ PostMetadata.tags data).

(** [r = True; for tag in tags: if tag not in data.tags: r = False; break] *)
Fixpoint tags_loop (tags : list string) (data : PostMetadata.t) : bool :=
  match tags with
  | [] => true
  | tag :: tags' =>
      if negb (bool_decide (tag ∈ PostMetadata.tags data)) then false
      else tags_loop tags' data
  end.

Definition generate_tags_filter (tags : list string) : PostMetadata.t → bool :=
  λ data, tags_loop tags data.

Definition generate_after_timestamp_filter (timestamp : float) : PostMetadata.t → bool :=
  λ data, float_lt timestamp (PostMetadata.created_timestamp data).

Definition generate_before_timestamp_filter (timestamp : float) : PostMetadata.t → bool :=
  λ data, float_lt (PostMetadata.created_timestamp data) timestamp.
End PostFilter.

(** ** lablog.py: Lablog *)

Module Lablog.
Record t := mk {
  posts : list (string * PostMetadata.t);
  comments : list (string * CommentData.t)
}.

(** [__init__] *)
Definition init : t := mk [] [].

Definition set_posts (v : list (string * PostMetadata.t)) (s : t) : t := mk v (comments s).
Definition set_comments (v : list (string * CommentData.t)) (s : t) : t := mk (posts s) v.

(** [self.posts[post_id]]: the post object, or KeyError. *)
Definition posts_getitem (post_id : string) : M t PostMetadata.t :=
  λ s, match PyDict.get post_id (posts s) with
       | Some p => (Ret p, s)
       | None => (Raise KeyError, s)
       end.

(** [self.comments[comment_id]]: the comment object, or KeyError. *)
Definition comments_getitem (comment_id : string) : M t CommentData.t :=
  λ s, match PyDict.get comment_id (comments s) with
       | Some c => (Ret c, s)
       | None => (Raise KeyError, s)
       end.

(** [self.posts[post_id].attr = v]: look the object up, then mutate it in
    place (it stays where it is in the dict). *)
Definition posts_setattr (post_id : string) (setter : PostMetadata.t → PostMetadata.t)
    : M t unit :=
  p ← posts_getitem post_id;
  s ← get_state;
  put_state (set_posts (PyDict.set post_id (setter p) (posts s)) s).

Definition comments_setattr (comment_id : string) (setter : CommentData.t → CommentData.t)
    : M t unit :=
  c ← comments_getitem comment_id;
  s ← get_state;
  put_state (set_comments (PyDict.set comment_id (setter c) (comments s)) s).

(** [uuid4] is the string of the id drawn by [uuid.uuid4()], [time_time]
    the clock reading used when no timestamp is given. *)
Definition add_post (uuid4 : string) (time_time : float)
    (title abstract link : string) (created_timestamp : option float)
    (catagory : option string) (tags : option (list string)) : M t string :=
  let post_id := uuid4 in
  let post := PostMetadata.mk title abstract link
                (or_else created_timestamp time_time)
                (or_else catagory "Miscellaneous")
                (or_else tags [])
                []
                post_id in
  s ← get_state;
  put_state (set_posts (PyDict.set post_id post (posts s)) s);;
  ret post_id.

Definition modify_post (post_id : string)
    (title abstract link : option string) (created_timestamp : option float)
    (catagory : option string) (tags : option (list string)) : M t unit :=
  if_not_None title (λ v, posts_setattr post_id (PostMetadata.set_title v));;
  if_not_None abstract (λ v, posts_setattr post_id (PostMetadata.set_abstract v));;
  if_not_None link (λ v, posts_setattr post_id (PostMetadata.set_link v));;
  if_not_None created_timestamp
    (λ v, posts_setattr post_id (PostMetadata.set_created_timestamp v));;
  if_not_None catagory (λ v, posts_setattr post_id (PostMetadata.set_catagory v));;
  if_not_None tags (λ v, posts_setattr post_id (PostMetadata.set_tags v)).

Definition get_management_data (s : t) : BlogData.t :=
  BlogData.mk (posts s) (comments s).

(** [if v is not None: pf.add_filter(gen(v))] *)
Definition add_if_given {A} (o : option A) (gen : A → PostMetadata.t → bool)
    (pf : PostFilter.t) : PostFilter.t :=
  match o with
  | Some v => PostFilter.add_filter (gen v) pf
  | None => pf
  end.

(** [if l is not None and len(l) > 0: pf.add_filter(gen(l))] *)
Definition add_if_nonempty {A} (o : option (list A)) (gen : list A → PostMetadata.t → bool)
    (pf : PostFilter.t) : PostFilter.t :=
  match o with
  | Some l => if bool_decide (0 < length l)%nat then PostFilter.add_filter (gen l) pf else pf
  | None => pf
  end.

Definition build_filter (post_id : option string) (post_id_list : option (list string))
    (catagory tag : option string) (tags : option (list string))
    (timestamp_start timestamp_stop : option float) : PostFilter.t :=
  let pf := PostFilter.init in
  let pf := add_if_given post_id PostFilter.generate_post_id_filter pf in
  let pf := add_if_nonempty post_id_list PostFilter.generate_post_id_list_filter pf in
  let pf := add_if_given catagory PostFilter.generate_catagory_filter pf in
  let pf := add_if_given tag PostFilter.generate_tag_filter pf in
  let pf := add_if_nonempty tags PostFilter.generate_tags_filter pf in
  let pf := add_if_given timestamp_start PostFilter.generate_after_timestamp_filter pf in
  let pf := add_if_given timestamp_stop PostFilter.generate_before_timestamp_filter pf in
  pf.

(** The result is the [posts] list of the returned PostsCollection. *)
Definition get_posts `{Runtime} (s : t) (post_id : option string)
    (post_id_list : option (list string))
    (catagory tag : option string) (tags : option (list string))
    (timestamp_start timestamp_stop : option float) : list PostMetadata.t :=
  let pf := build_filter post_id post_id_list catagory tag tags
              timestamp_start timestamp_stop in
  let c := List.filter (PostFilter.apply_filters pf) (PyDict.values (posts s)) in
  sort_by_float PostMetadata.created_timestamp true c.

Definition add_comment (uuid4 : string) (time_time : float)
    (name content contact_address post_id : string)
    (created_timestamp : option float) (ip_address : option string) (display : bool)
    : M t string :=
  s ← get_state;
  if negb (PyDict.contains post_id (posts s)) then raise ValueError
  else
    let comment_id := uuid4 in
    let comment := CommentData.mk name content contact_address
                     (or_else created_timestamp time_time)
                     (or_else ip_address "No IP info")
                     comment_id post_id display in
    put_state (set_comments (PyDict.set comment_id comment (comments s)) s);;
    p ← posts_getitem post_id;
    posts_setattr post_id (PostMetadata.set_comments (PostMetadata.comments p ++ [comment_id]));;
    ret comment_id.

Definition modify_comment (comment_id : string)
    (name content contact_address : option string) (created_timestamp : option float)
    (ip_address post_id : option string) (display : option bool) : M t unit :=
  if_not_None name (λ v, comments_setattr comment_id (CommentData.set_name v));;
  if_not_None content (λ v, comments_setattr comment_id (CommentData.set_content v));;
  if_not_None contact_address
    (λ v, comments_setattr comment_id (CommentData.set_contact_address v));;
  if_not_None created_timestamp
    (λ v, comments_setattr comment_id (CommentData.set_created_timestamp v));;
  if_not_None ip_address (λ v, comments_setattr comment_id (CommentData.set_ip_address v));;
  if_not_None post_id (λ v, comments_setattr comment_id (CommentData.set_post_id v));;
  if_not_None display (λ v, comments_setattr comment_id (CommentData.set_display v)).

(** The comments found for the ids, in the order of the id list. *)
Fixpoint lookup_comments (cs : list (string * CommentData.t)) (comment_id_list : list string)
    : list CommentData.t :=
  match comment_id_list with
  | [] => []
  | comment_id :: rest =>
      match PyDict.get comment_id cs with
      | Some c => c :: lookup_comments cs rest
      | None => lookup_comments cs rest
      end
  end.

Definition get_comments `{Runtime} (s : t) (comment_id_list : list string)
    : list CommentData.t :=
  let c := lookup_comments (comments s) comment_id_list in
  sort_by_float CommentData.created_timestamp false c.

(** [DisplayCommentData(name=..., content=..., created_timestamp=int(...))]:
    [int] raises for a timestamp that is infinite or NaN. *)
Definition to_display (c : CommentData.t) : outcome DisplayCommentData.t :=
  and_then (int_of_float (CommentData.created_timestamp c))
    (λ seconds,
       Ret (DisplayCommentData.mk (CommentData.name c) (CommentData.content c) seconds)).

(** The loop of [get_comments_for_display]: the first entry that cannot be
    built ends it with the error. *)
Fixpoint display_loop (cs : list (string * CommentData.t)) (comment_id_list : list string)
    : outcome (list DisplayCommentData.t) :=
  match comment_id_list with
  | [] => Ret []
  | comment_id :: rest =>
      match PyDict.get comment_id cs with
      | Some c =>
          if CommentData.display c then
            and_then (to_display c)
              (λ comment, and_then (display_loop cs rest) (λ l, Ret (comment :: l)))
          else display_loop cs rest
      | None => display_loop cs rest
      end
  end.

(** The keys of the last sort are integers, which are totally ordered. *)
Definition get_comments_for_display (s : t) (comment_id_list : list string)
    : outcome (list DisplayCommentData.t) :=
  and_then (display_loop (comments s) comment_id_list)
    (λ c, Ret (list_sort Z.leb DisplayCommentData.created_timestamp false c)).

(** [l.remove(x)] raises ValueError when [x] is not in [l]. *)
Definition list_remove_or_raise (x : string) (l : list string) : M t (list string) :=
  match list_remove x l with
  | Some l' => ret l'
  | None => raise ValueError
  end.

Definition delete_comment (comment_id : string) : M t unit :=
  s ← get_state;
  if PyDict.contains comment_id (comments s) then
    c ← comments_getitem comment_id;
    let post_id := CommentData.post_id c in
    p ← posts_getitem post_id;
    l ← list_remove_or_raise comment_id (PostMetadata.comments p);
    posts_setattr post_id (PostMetadata.set_comments l);;
    s' ← get_state;
    put_state (set_comments (PyDict.del comment_id (comments s')) s')
  else ret ().

Definition serialize `{Runtime} (s : t) : string :=
  let data_obj := BlogData.mk (posts s) (comments s) in
  json_render (dump_BlogData data_obj).

(** Reads the store [s], writes the disk. *)
Definition serialize_to_file `{Runtime} (s : t) (path : string) : M Disk.t unit :=
  Disk.write path (str_encode (serialize s)).

Definition load (data : BlogData.t) : M t unit :=
  put_state (mk (BlogData.posts data) (BlogData.comments data)).

(** Reads the disk [d], replaces the store.  Unpacking [r] into keyword
    arguments raises TypeError when [r] is no dict. *)
Definition load_from_file `{Runtime} (d : Disk.t) (path : string) : M t unit :=
  match Disk.read path d with
  | (Raise e, _) => raise e
  | (Ret content, _) =>
      match bytes_decode content with
      | None => raise UnicodeDecodeError
      | Some r =>
          match json_loads r with
          | Raise e => raise e
          | Ret (JObject r) =>
              match validate_BlogData r with
              | None => raise ValidationError
              | Some data => load data
              end
          | Ret _ => raise TypeError
          end
      end
  end.

Definition get_data_hash `{Runtime} (s : t) : string :=
  let f_content := str_encode (serialize s) in
  sha256_hexdigest f_content.
End Lablog.

(** ** The process state

    [main.py] creates one [Lablog], hands the same object to the database
    manager, and keeps the rate-limit ledger and the spam keywords in module
    globals.  The store is therefore one field, shared by the routes and by
    the manager. *)

Module App.
Record t := mk {
  lablog : Lablog.t;
  root_path : string;                       (* db_mgr.cfg.root_path *)
  data_hash : string;                       (* db_mgr.data_hash *)
  disk : Disk.t;
  rate_limit_data : gmap string (list Z);
  spam_keywords : list string
}.

Definition set_lablog (v : Lablog.t) (a : t) : t :=
  mk v (root_path a) (data_hash a) (disk a) (rate_limit_data a) (spam_keywords a).
Definition set_data_hash (v : string) (a : t) : t :=
  mk (lablog a) (root_path a) v (disk a) (rate_limit_data a) (spam_keywords a).
Definition set_disk (v : Disk.t) (a : t) : t :=
  mk (lablog a) (root_path a) (data_hash a) v (rate_limit_data a) (spam_keywords a).
Definition set_rate_limit_data (v : gmap string (list Z)) (a : t) : t :=
  mk (lablog a) (root_path a) (data_hash a) (disk a) v (spam_keywords a).

(** A freshly started process: empty store, [data_hash = ""]. *)
Definition start (root_path : string) (disk : Disk.t) (spam_keywords : list string) : t :=
  mk Lablog.init root_path "" disk ∅ spam_keywords.

(** Run a computation of a component on its field of the process state. *)
Definition on_lablog {A} (m : M Lablog.t A) : M t A :=
  λ a, let '(r, s) := m (lablog a) in (r, set_lablog s a).
Definition on_disk {A} (m : M Disk.t A) : M t A :=
  λ a, let '(r, d) := m (disk a) in (r, set_disk d a).
Definition on_rate_limit_data {A} (m : M (gmap string (list Z)) A) : M t A :=
  λ a, let '(r, l) := m (rate_limit_data a) in (r, set_rate_limit_data l a).
End App.

(** ** database.py: LablogDatabaseManager.save_database *)

Definition save_database `{Runtime} (check_hash : bool) : M App.t unit :=
  a ← get_state;
  let skip :=
    if check_hash then
      let new_hash := Lablog.get_data_hash (App.lablog a) in
      bool_decide (new_hash = App.data_hash a)
    else false in
  if skip then ret ()
  else
    let db_path := App.root_path a ++ "blogdata.json" in
    App.on_disk (Lablog.serialize_to_file (App.lablog a) db_path);;
    a' ← get_state;
    put_state (App.set_data_hash (Lablog.get_data_hash (App.lablog a')) a').

(** ** main.py *)

(** [timedelta(minutes=n)] in microseconds. *)
Definition minutes (n : Z) : Z := n * 60 * 1000000.

(** [rate_limit_data] is a [defaultdict(list)]: a host never seen reads as
    the empty list.  [now] is [datetime.now()]. *)
Definition is_rate_limited (now : Z) (client_host : string) (limit : Z) (period : Z)
    : M (gmap string (list Z)) bool :=
  data ← get_state;
  let kept := List.filter (λ timestamp, bool_decide (now - timestamp < period))
                (default [] (data !! client_host)) in
  put_state (<[client_host := kept]> data);;
  if bool_decide (limit ≤ Z.of_nat (length kept)) then ret true
  else
    data' ← get_state;
    put_state (<[client_host := (default [] (data' !! client_host) ++ [now])%list]> data');;
    ret false.

(** The defaults of the signature: [limit=5], [period=timedelta(minutes=30)]. *)
Definition default_limit : Z := 5.
Definition default_period : Z := minutes 30.

(** [needle in haystack] on strings. *)
Fixpoint str_contains (needle haystack : string) : bool :=
  if String.prefix needle haystack then true
  else match haystack with
       | EmptyString => false
       | String _ rest => str_contains needle rest
       end.

Definition is_spam `{Runtime} (spam_keywords : list string) (content : string) : bool :=
  existsb (λ keyword, str_contains keyword (str_lower content)) spam_keywords.

(** GET /comments/{post_id} *)
Definition get_comments_for_post (post_id : string) : M App.t (list DisplayCommentData.t) :=
  a ← get_state;
  if negb (PyDict.contains post_id (Lablog.posts (App.lablog a))) then
    raise (HTTPException 404)
  else
    p ← App.on_lablog (Lablog.posts_getitem post_id);
    let comment_id_list := PostMetadata.comments p in
    returning (Lablog.get_comments_for_display (App.lablog a) comment_id_list).

(** [background_tasks.add_task(f)]: [f] runs once the handler has returned
    and the response is on its way, so what [f] raises does not reach the
    client. *)
Definition in_background {S A} (m : M S A) : M S unit :=
  λ s, (Ret (), (m s).2).

(** POST /comments/{post_id}.  [now] is [datetime.now()], [uuid4] and
    [time_time] are what [add_comment] draws. *)
Definition add_comment_for_post `{Runtime} (now : Z) (uuid4 : string) (time_time : float)
    (post_id : string) (comment_data : AddCommentData.t) (client_host : string)
    : M App.t AddOrUpdateCommentResult.t :=
  limited ← App.on_rate_limit_data
              (is_rate_limited now client_host default_limit default_period);
  if (limited : bool) then raise (HTTPException 429)
  else
    a ← get_state;
    if is_spam (App.spam_keywords a) (AddCommentData.content comment_data) then
      raise (HTTPException 400)
    else
      comment_id ← App.on_lablog
        (Lablog.add_comment uuid4 time_time
           (AddCommentData.name comment_data)
           (AddCommentData.content comment_data)
           (AddCommentData.contact_address comment_data)
           post_id None (Some client_host) false);
      in_background (save_database false);;
      ret (AddOrUpdateCommentResult.mk "success" comment_id).

(** Modelled from the spec: [UserAccessLevel] and [check_access_level] of the
    auth module, which is not among the sources.  Access levels are an
    ordered enumeration, given here by their rank; the check fails with
    AccessLevelException when the token's level is below the required one. *)
Definition standard : Z := 1.

Definition check_access_level {S} (access_level required : Z) : M S unit :=
  if bool_decide (required ≤ access_level) then ret () else raise AccessLevelException.

(** The create branch of POST /comments hands the optional fields of the
    request to [add_comment], whose parameters are declared [str] and
    [bool].  A missing [post_id] is a key of no dict; for a [post_id] that
    exists, pydantic refuses [None] for [name], [content],
    [contact_address] and [display] when [CommentData] is built, which is
    before anything is stored. *)
Definition add_comment_from_request (uuid4 : string) (time_time : float)
    (comment_data : AddOrUpdateCommentData.t) : M Lablog.t string :=
  match AddOrUpdateCommentData.post_id comment_data with
  | None => raise ValueError
  | Some post_id =>
      match AddOrUpdateCommentData.name comment_data,
            AddOrUpdateCommentData.content comment_data,
            AddOrUpdateCommentData.contact_address comment_data,
            AddOrUpdateCommentData.display comment_data with
      | Some name, Some content, Some contact_address, Some display =>
          Lablog.add_comment uuid4 time_time name content contact_address post_id
            (AddOrUpdateCommentData.created_timestamp comment_data)
            (AddOrUpdateCommentData.ip_address comment_data) display
      | _, _, _, _ =>
          s ← get_state;
          if negb (PyDict.contains post_id (Lablog.posts s)) then raise ValueError
          else raise ValidationError
      end
  end.

(** POST /comments, for a request whose token has been validated and
    carries [access_level]. *)
Definition add_or_modify_comment `{Runtime} (uuid4 : string) (time_time : float)
    (comment_data : AddOrUpdateCommentData.t) (access_level : Z)
    : M App.t AddOrUpdateCommentResult.t :=
  check_access_level access_level standard;;
  a ← get_state;
  comment_id ←
    match AddOrUpdateCommentData.comment_id comment_data with
    | Some comment_id =>
        if PyDict.contains comment_id (Lablog.comments (App.lablog a)) then
          App.on_lablog
            (Lablog.modify_comment comment_id
               (AddOrUpdateCommentData.name comment_data)
               (AddOrUpdateCommentData.content comment_data)
               (AddOrUpdateCommentData.contact_address comment_data)
               (AddOrUpdateCommentData.created_timestamp comment_data)
               (AddOrUpdateCommentData.ip_address comment_data)
               (AddOrUpdateCommentData.post_id comment_data)
               (AddOrUpdateCommentData.display comment_data));;
          ret comment_id
        else App.on_lablog (add_comment_from_request uuid4 time_time comment_data)
    | None => App.on_lablog (add_comment_from_request uuid4 time_time comment_data)
    end;
  save_database false;;
  ret (AddOrUpdateCommentResult.mk "success" comment_id).
(** ** A reference runtime

    A small, executable instance of [Runtime], used to run the model on
    concrete stores: ASCII lower-casing, text that is its own encoding, a
    JSON writer with two-space indentation and floats printed with six
    decimals, a JSON reader, a stand-in digest that tags the bytes it is
    given, strict validation, exact addition, and a sort that leaves a list
    with a NaN key as it is. *)

Module Reference.
Definition lower_ascii (c : ascii) : ascii :=
  let n := nat_of_ascii c in
  if bool_decide (65 ≤ n ≤ 90)%nat then ascii_of_nat (n + 32) else c.

Fixpoint lower (s : string) : string :=
  match s with
  | EmptyString => EmptyString
  | String c r => String (lower_ascii c) (lower r)
  end.

Definition digest (s : string) : string := "sha256:" ++ s.

Definition quote : ascii := ascii_of_nat 34.
Definition backslash : ascii := ascii_of_nat 92.
Definition newline : ascii := ascii_of_nat 10.

Fixpoint escape (s : string) : string :=
  match s with
  | EmptyString => EmptyString
  | String c r =>
      if bool_decide (c = quote) then String backslash (String quote (escape r))
      else if bool_decide (c = backslash) then String backslash (String backslash (escape r))
      else if bool_decide (c = newline) then String backslash (String "n" (escape r))
      else String c (escape r)
  end.

Definition render_string (s : string) : string :=
  String quote (escape s ++ String quote EmptyString).

Fixpoint digit_string (fuel : nat) (n : Z) (acc : string) : string :=
  match fuel with
  | O => acc
  | S fuel' =>
      let acc' := String (ascii_of_nat (48 + Z.to_nat (n mod 10))) acc in
      if bool_decide (n < 10) then acc' else digit_string fuel' (n / 10) acc'
  end.

Definition render_nat (n : Z) : string :=
  digit_string (S (Z.to_nat (Z.log2 n))) n EmptyString.

Fixpoint zero_pad (width : nat) (s : string) : string :=
  match width with
  | O => s
  | S w => if bool_decide (String.length s < width)%nat then zero_pad w (String "0" s) else s
  end.

Definition render_int (n : Z) : string :=
  (if bool_decide (n < 0) then "-" else "") ++ render_nat (Z.abs n).

Definition render_number (q : Q) : string :=
  let n := (Qnum q * 1000000) / Z.pos (Qden q) in
  let a := Z.abs n in
  (if bool_decide (n < 0) then "-" else "")
    ++ render_nat (a / 1000000) ++ "." ++ zero_pad 6 (render_nat (a mod 1000000)).

Definition render_float (x : float) : string :=
  match x with
  | Finite q => render_number q
  | PosInf => "Infinity"
  | NegInf => "-Infinity"
  | NaN => "NaN"
  end.

Fixpoint pad (n : nat) : string :=
  match n with O => EmptyString | S n' => String " " (pad n') end.

Fixpoint join_lines (l : list string) : string :=
  match l with
  | [] => EmptyString
  | [x] => x
  | x :: l' => x ++ String "," (String newline (join_lines l'))
  end.

Definition block (opening closing : string) (ind : nat) (lines : list string) : string :=
  match lines with
  | [] => opening ++ closing
  | _ => opening ++ String newline (join_lines lines)
           ++ String newline (pad ind ++ closing)
  end.

Fixpoint render (ind : nat) (j : json) : string :=
  match j with
  | JNull => "null"
  | JBool b => if b then "true" else "false"
  | JInt n => render_int n
  | JFloat x => render_float x
  | JString s => render_string s
  | JArray items =>
      block "[" "]" ind (List.map (λ v, pad (ind + 2) ++ render (ind + 2) v) items)
  | JObject members =>
      block "{" "}" ind
        (List.map (λ kv, match kv with
                         | (k, v) => pad (ind + 2) ++ render_string k ++ ": "
                                       ++ render (ind + 2) v
                         end) members)
  end.

Definition is_space (c : ascii) : bool :=
  bool_decide (c = " "%char) || bool_decide (c = newline).

Fixpoint skip_ws (s : string) : string :=
  match s with
  | EmptyString => EmptyString
  | String c r => if is_space c then skip_ws r else s
  end.

(** The text after an opening quote, up to the closing one. *)
Fixpoint read_string (s : string) : option (string * string) :=
  match s with
  | EmptyString => None
  | String c r =>
      if bool_decide (c = quote) then Some (EmptyString, r)
      else if bool_decide (c = backslash) then
        match r with
        | EmptyString => None
        | String e r' =>
            let e' := if bool_decide (e = "n"%char) then newline else e in
            match read_string r' with
            | Some (str, rest) => Some (String e' str, rest)
            | None => None
            end
        end
      else
        match read_string r with
        | Some (str, rest) => Some (String c str, rest)
        | None => None
        end
  end.

Definition is_digit (c : ascii) : bool :=
  bool_decide (48 ≤ nat_of_ascii c ≤ 57)%nat.

(** Digits read so far as a number, and how many there were. *)
Fixpoint read_digits (s : string) (acc : Z) (count : nat) : Z * nat * string :=
  match s with
  | String c r =>
      if is_digit c then read_digits r (acc * 10 + Z.of_nat (nat_of_ascii c - 48)) (S count)
      else (acc, count, s)
  | EmptyString => (acc, count, s)
  end.

(** Digits alone are an int, digits with a decimal point a float. *)
Definition read_number (s : string) : option (json * string) :=
  let '(negative, s) :=
    match s with
    | String c r => if bool_decide (c = "-"%char) then (true, r) else (false, s)
    | EmptyString => (false, s)
    end in
  let signed (n : Z) := if (negative : bool) then - n else n in
  let '(int_part, n, s) := read_digits s 0 0 in
  if bool_decide (n = 0%nat) then None
  else
    match s with
    | String c r =>
        if bool_decide (c = "."%char) then
          let '(mantissa, scale, r') := read_digits r int_part 0 in
          Some (JFloat (Finite (Qred (signed mantissa # Pos.of_nat (10 ^ scale)))), r')
        else Some (JInt (signed int_part), s)
    | EmptyString => Some (JInt (signed int_part), s)
    end.

Definition strip_prefix (p s : string) : option string :=
  if String.prefix p s then
    Some (String.substring (String.length p) (String.length s - String.length p) s)
  else None.

Fixpoint read_value (fuel : nat) (s : string) : option (json * string) :=
  match fuel with
  | O => None
  | S fuel' =>
      match skip_ws s with
      | EmptyString => None
      | String c r as s' =>
          if bool_decide (c = "{"%char) then
            match skip_ws r with
            | String c' r' =>
                if bool_decide (c' = "}"%char) then Some (JObject [], r')
                else match read_members fuel' (skip_ws r) with
                     | Some (ms, rest) => Some (JObject ms, rest)
                     | None => None
                     end
            | EmptyString => None
            end
          else if bool_decide (c = "["%char) then
            match skip_ws r with
            | String c' r' =>
                if bool_decide (c' = "]"%char) then Some (JArray [], r')
                else match read_items fuel' (skip_ws r) with
                     | Some (vs, rest) => Some (JArray vs, rest)
                     | None => None
                     end
            | EmptyString => None
            end
          else if bool_decide (c = quote) then
            match read_string r with
            | Some (str, rest) => Some (JString str, rest)
            | None => None
            end
          else match strip_prefix "null" s', strip_prefix "true" s',
                     strip_prefix "false" s' with
               | Some rest, _, _ => Some (JNull, rest)
               | _, Some rest, _ => Some (JBool true, rest)
               | _, _, Some rest => Some (JBool false, rest)
               | None, None, None =>
                   read_number s'
               end
      end
  end
with read_items (fuel : nat) (s : string) : option (list json * string) :=
  match fuel with
  | O => None
  | S fuel' =>
      match read_value fuel' s with
      | Some (v, rest) =>
          match skip_ws rest with
          | String c r =>
              if bool_decide (c = ","%char) then
                match read_items fuel' r with
                | Some (vs, rest') => Some (v :: vs, rest')
                | None => None
                end
              else if bool_decide (c = "]"%char) then Some ([v], r)
              else None
          | EmptyString => None
          end
      | None => None
      end
  end
with read_members (fuel : nat) (s : string) : option (list (string * json) * string) :=
  match fuel with
  | O => None
  | S fuel' =>
      match skip_ws s with
      | String c r =>
          if bool_decide (c = quote) then
            match read_string r with
            | Some (k, rest) =>
                match skip_ws rest with
                | String c' r' =>
                    if bool_decide (c' = ":"%char) then
                      match read_value fuel' r' with
                      | Some (v, rest') =>
                          match skip_ws rest' with
                          | String c'' r'' =>
                              if bool_decide (c'' = ","%char) then
                                match read_members fuel' r'' with
                                | Some (ms, rest'') => Some ((k, v) :: ms, rest'')
                                | None => None
                                end
                              else if bool_decide (c'' = "}"%char) then Some ([(k, v)], r'')
                              else None
                          | EmptyString => None
                          end
                      | None => None
                      end
                    else None
                | EmptyString => None
                end
            | None => None
            end
          else None
      | EmptyString => None
      end
  end.

(** The whole text is one document, up to trailing white space. *)
Definition loads (s : string) : outcome json :=
  match read_value (String.length s) s with
  | Some (j, rest) =>
      match skip_ws rest with
      | EmptyString => Ret j
      | String _ _ => Raise JSONDecodeError
      end
  | None => Raise JSONDecodeError
  end.

(** Addition of finite values is exact here; the infinities absorb, and
    opposite infinities give NaN. *)
Definition add (a b : float) : float :=
  match a, b with
  | NaN, _ | _, NaN => NaN
  | Finite x, Finite y => Finite (Qred (x + y))
  | PosInf, NegInf | NegInf, PosInf => NaN
  | PosInf, _ | _, PosInf => PosInf
  | NegInf, _ | _, NegInf => NegInf
  end.

Definition runtime : Runtime :=
  {| str_lower := lower;
     str_encode := λ s, s;
     bytes_decode := λ b, Some b;
     sha256_hexdigest := digest;
     json_render := render 0;
     json_loads := loads;
     lax_float := λ _, None;
     lax_bool := λ _, None;
     float_add := add;
     sort_unordered := λ A key reverse l, l;
     sort_unordered_perm := λ A key reverse l, Permutation_refl l |}.
End Reference.
(** ** Calls, traces and the properties the statements speak of *)

(** The mutating operations of the store, as data: a history of the store
    is a list of calls run from the empty store. *)
Inductive call : Type :=
  | AddPost (uuid4 : string) (time_time : float) (title abstract link : string)
      (created_timestamp : option float) (catagory : option string)
      (tags : option (list string))
  | ModifyPost (post_id : string) (title abstract link : option string)
      (created_timestamp : option float) (catagory : option string)
      (tags : option (list string))
  | AddComment (uuid4 : string) (time_time : float)
      (name content contact_address post_id : string)
      (created_timestamp : option float) (ip_address : option string) (display : bool)
  | ModifyComment (comment_id : string) (name content contact_address : option string)
      (created_timestamp : option float) (ip_address post_id : option string)
      (display : option bool)
  | DeleteComment (comment_id : string).

(** The store a call leaves behind, whether it returns or raises. *)
Definition run_call (c : call) (s : Lablog.t) : Lablog.t :=
  match c with
  | AddPost u t title abstract link ts cat tags =>
      (Lablog.add_post u t title abstract link ts cat tags s).2
  | ModifyPost post_id title abstract link ts cat tags =>
      (Lablog.modify_post post_id title abstract link ts cat tags s).2
  | AddComment u t name content contact post_id ts ip display =>
      (Lablog.add_comment u t name content contact post_id ts ip display s).2
  | ModifyComment comment_id name content contact ts ip post_id display =>
      (Lablog.modify_comment comment_id name content contact ts ip post_id display s).2
  | DeleteComment comment_id =>
      (Lablog.delete_comment comment_id s).2
  end.

Definition run_calls (cs : list call) (s : Lablog.t) : Lablog.t :=
  foldl (λ s c, run_call c s) s cs.

(** A uuid4 draw is taken to be an id not in use. *)
Definition fresh_draw (c : call) (s : Lablog.t) : Prop :=
  match c with
  | AddPost u _ _ _ _ _ _ _ => PyDict.get u (Lablog.posts s) = None
  | AddComment u _ _ _ _ _ _ _ _ => PyDict.get u (Lablog.comments s) = None
  | _ => True
  end.

(** A [modify_comment] that is handed a [post_id]. *)
Definition rewrites_post_id (c : call) : Prop :=
  match c with
  | ModifyComment _ _ _ _ _ _ (Some _) _ => True
  | _ => False
  end.

(** Every id in a post's [comments] list is a key of the comment map, and
    that comment's [post_id] is the post's id. *)
Definition referential_integrity (s : Lablog.t) : Prop :=
  ∀ k p comment_id,
    PyDict.get k (Lablog.posts s) = Some p →
    comment_id ∈ PostMetadata.comments p →
    ∃ c, PyDict.get comment_id (Lablog.comments s) = Some c
         ∧ CommentData.post_id c = PostMetadata.post_id p.

(** What the operations maintain besides: a post is stored under its own
    id, and no post lists a comment twice. *)
Definition posts_consistent (s : Lablog.t) : Prop :=
  ∀ k p, PyDict.get k (Lablog.posts s) = Some p →
    PostMetadata.post_id p = k ∧ NoDup (PostMetadata.comments p).

Definition store_wf (s : Lablog.t) : Prop :=
  PyDict.wf (Lablog.posts s) ∧ PyDict.wf (Lablog.comments s).

(** A criterion that was not supplied constrains nothing. *)
Definition meets {A} (criterion : option A) (test : A → bool) : bool :=
  match criterion with
  | None => true
  | Some v => test v
  end.

(** The conjunction of the supplied criteria, read off the description of
    [get_posts]: every supplied criterion is a constraint. *)
Definition satisfies_supplied (post_id : option string) (post_id_list : option (list string))
    (catagory tag : option string) (tags : option (list string))
    (timestamp_start timestamp_stop : option float) (p : PostMetadata.t) : bool :=
  meets post_id (λ v, bool_decide (PostMetadata.post_id p = v))
  && meets post_id_list (λ l, bool_decide (PostMetadata.post_id p ∈ l))
  && meets catagory (λ v, bool_decide (PostMetadata.catagory p = v))
  && meets tag (λ v, bool_decide (v ∈ PostMetadata.tags p))
  && meets tags (λ l, forallb (λ v, bool_decide (v ∈ PostMetadata.tags p)) l)
  && meets timestamp_start (λ t, float_lt t (PostMetadata.created_timestamp p))
  && meets timestamp_stop (λ t, float_lt (PostMetadata.created_timestamp p) t).

(** An empty list counts as not supplied. *)
Definition nonempty {A} (criterion : option (list A)) : option (list A) :=
  match criterion with
  | Some [] => None
  | other => other
  end.

(** The same conjunction, with an empty [post_id_list] or [tags] taken as
    omitted. *)
Definition satisfies_effective (post_id : option string) (post_id_list : option (list string))
    (catagory tag : option string) (tags : option (list string))
    (timestamp_start timestamp_stop : option float) (p : PostMetadata.t) : bool :=
  satisfies_supplied post_id (nonempty post_id_list) catagory tag (nonempty tags)
    timestamp_start timestamp_stop p.

(** Newest first: no post is followed by one with a greater timestamp, and
    every two timestamps compare. *)
Definition newest_first (l : list PostMetadata.t) : Prop :=
  StronglySorted
    (λ a b, float_le (PostMetadata.created_timestamp b) (PostMetadata.created_timestamp a)
            = true) l.

(** The rate limiter as described: timestamps older than the period are
    discarded, so one whose age is exactly the period stays. *)
Definition is_rate_limited_described (now : Z) (client_host : string) (limit : Z) (period : Z)
    : M (gmap string (list Z)) bool :=
  data ← get_state;
  let kept := List.filter (λ timestamp, bool_decide (now - timestamp ≤ period))
                (default [] (data !! client_host)) in
  if bool_decide (limit ≤ Z.of_nat (length kept)) then
    put_state (<[client_host := kept]> data);; ret true
  else
    put_state (<[client_host := (kept ++ [now])%list]> data);; ret false.

(** Two saves with the hash check, one after the other. *)
Definition save_twice `{Runtime} : M App.t unit :=
  save_database true;; save_database true.

(** The writes a computation performs on the disk. *)
Definition writes_during {A} (m : M App.t A) (a : App.t) : nat :=
  (Disk.writes (App.disk (m a).2) - Disk.writes (App.disk a))%nat.

(** Whether an optional argument was given, and whether a [modify_post]
    call gives any field at all. *)
Definition given {A} (o : option A) : bool :=
  match o with Some _ => true | None => false end.

Definition supplies_a_field (title abstract link : option string)
    (created_timestamp : option float) (catagory : option string)
    (tags : option (list string)) : bool :=
  given title || given abstract || given link || given created_timestamp
  || given catagory || given tags.

(** The comment [add_comment] builds. *)
Definition new_comment (uuid4 : string) (time_time : float)
    (name content contact_address post_id : string)
    (created_timestamp : option float) (ip_address : option string) (display : bool)
    : CommentData.t :=
  CommentData.mk name content contact_address
    (or_else created_timestamp time_time) (or_else ip_address "No IP info")
    uuid4 post_id display.

(** What the mutating operations keep true together. *)
Definition store_inv (s : Lablog.t) : Prop :=
  referential_integrity s ∧ posts_consistent s ∧ store_wf s.

(** A history in which every uuid4 draw is fresh and no [modify_comment] is
    handed a [post_id]. *)
Fixpoint well_behaved (cs : list call) (s : Lablog.t) : Prop :=
  match cs with
  | [] => True
  | c :: cs' => fresh_draw c s ∧ ¬ rewrites_post_id c ∧ well_behaved cs' (run_call c s)
  end.

(** A computation keeps a property of the state, whether it returns or
    raises. *)
Definition preserves {S A} (P : S → Prop) (m : M S A) : Prop :=
  ∀ s, P s → P (m s).2.

(** A small blog: two posts, one comment on the first. *)
Definition example_calls : list call :=
  [ AddPost "p1" 100 "Hello" "first post" "http://blog/1" None None None;
    AddPost "p2" 200 "Again" "second post" "http://blog/2" None (Some "tech") None;
    AddComment "c1" 150 "ann" "nice" "ann@example.org" "p1" None None true ].

Definition example_store : Lablog.t := run_calls example_calls Lablog.init.

(** The comment of the example handed to the other post, and to a post that
    does not exist. *)
Definition moved_store : Lablog.t :=
  run_call (ModifyComment "c1" None None None None None (Some "p2") None) example_store.

Definition dangling_store : Lablog.t :=
  run_call (ModifyComment "c1" None None None None None (Some "p0") None) example_store.

(** Successive checks for one host at the given times: what each check
    reported, and the ledger left behind. *)
Fixpoint run_checks (client_host : string) (times : list Z) (data : gmap string (list Z))
    : list (outcome bool) * gmap string (list Z) :=
  match times with
  | [] => ([], data)
  | now :: times' =>
      let '(r, data') := is_rate_limited now client_host default_limit default_period data in
      let '(rs, data'') := run_checks client_host times' data' in
      (r :: rs, data'')
  end.

(** A save with the hash check, any change of the store to [s'], and a
    second save with the hash check. *)
Definition save_change_save `{Runtime} (s' : Lablog.t) : M App.t unit :=
  save_database true;;
  (a ← get_state; put_state (App.set_lablog s' a));;
  save_database true.

(** The process state a write of the store that goes through leaves: the
    file holds the dump of the store, one more write is counted, and the
    hash of the store is recorded. *)
Definition after_write `{Runtime} (a : App.t) : App.t :=
  let s := App.lablog a in
  let d := App.disk a in
  App.set_data_hash (Lablog.get_data_hash s)
    (App.set_disk
       (Disk.mk
          (<[App.root_path a ++ "blogdata.json" := str_encode (Lablog.serialize s)]>
             (Disk.files d))
          (Disk.read_error d) (Disk.write_error d) (S (Disk.writes d)))
       a).

(** A process that has saved once without the hash check, as the routes do
    after every change. *)
Definition saved_app : App.t :=
  (@save_database Reference.runtime false
     (App.mk example_store "data/" "" Disk.empty ∅ [])).2.

(** A ledger in which a host made five requests, one a minute, the first
    of them exactly thirty minutes before [minutes 30]. *)
Definition boundary_ledger : gmap string (list Z) :=
  {[ "10.0.0.1" := [0; minutes 1; minutes 2; minutes 3; minutes 4] ]}.

(** [setter v x] when [v] is given, [x] otherwise. *)
Definition opt_set {A B} (o : option A) (setter : A → B → B) (x : B) : B :=
  match o with
  | Some v => setter v x
  | None => x
  end.

(** The comment after [modify_comment] has assigned the fields it was
    given, in the order of the method body. *)
Definition updated_comment (name content contact_address : option string)
    (created_timestamp : option float) (ip_address post_id : option string)
    (display : option bool) (c : CommentData.t) : CommentData.t :=
  opt_set display CommentData.set_display
    (opt_set post_id CommentData.set_post_id
       (opt_set ip_address CommentData.set_ip_address
          (opt_set created_timestamp CommentData.set_created_timestamp
             (opt_set contact_address CommentData.set_contact_address
                (opt_set content CommentData.set_content
                   (opt_set name CommentData.set_name c)))))).

(** The store with the object of one comment replaced. *)
Definition with_comment (comment_id : string) (c : CommentData.t) (s : Lablog.t) : Lablog.t :=
  Lablog.set_comments (PyDict.set comment_id c (Lablog.comments s)) s.

(** A running process with the example store, a visitor's submission to
    the first post, and the approval of that comment by a privileged user. *)
Definition visitor_app : App.t :=
  App.mk example_store "data/" "" Disk.empty ∅ ["casino"; "lottery"].

Definition visitor_comment : AddCommentData.t :=
  AddCommentData.mk "bob" "hello there" "bob@example.org".




(** Three posts created with timestamps 100, 300, 200, in this order. *)
Definition three_posts : Lablog.t :=
  run_calls
    [ AddPost "a" 0 "A" "" "http://blog/a" (Some (100 : float)) (Some "tech") (Some ["x"]);
      AddPost "b" 0 "B" "" "http://blog/b" (Some (300 : float)) (Some "tech") (Some ["y"]);
      AddPost "c" 0 "C" "" "http://blog/c" (Some (200 : float)) (Some "life") (Some ["x"]) ]
    Lablog.init.

(** One post with comments created at 50, 10 and 30, the last one hidden. *)
Definition three_comments : Lablog.t :=
  run_calls
    [ AddPost "a" 0 "A" "" "http://blog/a" (Some (100 : float)) None None;
      AddComment "k1" 0 "n1" "first" "n1@example.org" "a" (Some (50 : float)) None true;
      AddComment "k2" 0 "n2" "second" "n2@example.org" "a" (Some (Finite (21 # 2))) None true;
      AddComment "k3" 0 "n3" "third" "n3@example.org" "a" (Some (30 : float)) None false ]
    Lablog.init.

(** ** The remaining code of database.py and main.py *)

Module AddOrUpdatePostData.
Record t := mk {
  post_id : option string;
  title : option string;
  abstract : option string;
  link : option string;
  created_timestamp : option float;
  catagory : option string;
  tags : option (list string)
}.
End AddOrUpdatePostData.

Module AddOrUpdatePostResult.
Record t := mk { result : string; post_id : string }.
End AddOrUpdatePostResult.

Module DeleteCommentResult.
Record t := mk { result : string; comment_id : string }.
End DeleteCommentResult.

(** [LablogDatabaseManager.load_database]: [os.path.exists(db_path)] is
    whether the disk holds a file at that path. *)
Definition load_database `{Runtime} : M App.t unit :=
  a ← get_state;
  let db_path := App.root_path a ++ "blogdata.json" in
  if Disk.exists_ db_path (App.disk a) then
    App.on_lablog (Lablog.load_from_file (App.disk a) db_path)
  else save_database false.




(** The process state together with the flag of the scheduler. *)
Module Server.
Record t := mk {
  app : App.t;
  manager_running : bool
}.

Definition on_app {A} (m : M App.t A) : M t A :=
  λ sv, let '(r, a) := m (app sv) in (r, mk a (manager_running sv)).
End Server.

(** [start_scheduler] sets the flag and hands [periodic_check] to the event
    loop; [stop_scheduler] clears the flag. *)
Definition start_scheduler : M Server.t unit :=
  sv ← get_state; put_state (Server.mk (Server.app sv) true).

Definition stop_scheduler : M Server.t unit :=
  sv ← get_state; put_state (Server.mk (Server.app sv) false).

(** [text.split("\n")]: the pieces between line feeds; a text with [n] line
    feeds has [n + 1] pieces, the last one empty when the text ends with a
    line feed. *)
Definition line_feed : ascii := ascii_of_nat 10.

Fixpoint split_lines (text : string) : list string :=
  match text with
  | EmptyString => [EmptyString]
  | String c rest =>
      if bool_decide (c = line_feed) then EmptyString :: split_lines rest
      else match split_lines rest with
           | piece :: pieces => String c piece :: pieces
           | [] => [String c EmptyString]
           end
  end.

Definition set_spam_keywords (v : list string) (a : App.t) : App.t :=
  App.mk (App.lablog a) (App.root_path a) (App.data_hash a) (App.disk a)
    (App.rate_limit_data a) v.

Module Main.
(** [b.decode("utf-8")] *)
Definition decode `{Runtime} {S} (b : bytes) : M S string :=
  match bytes_decode b with
  | Some text => ret text
  | None => raise UnicodeDecodeError
  end.

(** The part of [lifespan] before the [yield]. *)
Definition lifespan_startup `{Runtime} : M Server.t unit :=
  content ← Server.on_app (App.on_disk (Disk.read "./backend/spam_keywords.txt"));
  text ← decode content;
  Server.on_app (a ← get_state; put_state (set_spam_keywords (split_lines text) a));;
  Server.on_app load_database;;
  start_scheduler.

(** The part of [lifespan] after the [yield]. *)
Definition lifespan_shutdown `{Runtime} : M Server.t unit :=
  stop_scheduler;;
  Server.on_app (save_database false).

(** GET /posts and GET /posts/catagory/{catagory} *)
Definition get_posts `{Runtime} : M App.t (list PostMetadata.t) :=
  a ← get_state;
  ret (Lablog.get_posts (App.lablog a) None None None None None None None).

Definition get_posts_by_catagory `{Runtime} (catagory : string)
    : M App.t (list PostMetadata.t) :=
  a ← get_state;
  ret (Lablog.get_posts (App.lablog a) None None (Some catagory) None None None None).

(** The create branch of POST /posts hands the optional [title],
    [abstract] and [link] of the request to [add_post]; pydantic refuses
    [None] for them when [PostMetadata] is built, before the post is
    stored. *)
Definition add_post_from_request (uuid4 : string) (time_time : float)
    (post_data : AddOrUpdatePostData.t) : M Lablog.t string :=
  match AddOrUpdatePostData.title post_data,
        AddOrUpdatePostData.abstract post_data,
        AddOrUpdatePostData.link post_data with
  | Some title, Some abstract, Some link =>
      Lablog.add_post uuid4 time_time title abstract link
        (AddOrUpdatePostData.created_timestamp post_data)
        (AddOrUpdatePostData.catagory post_data)
        (AddOrUpdatePostData.tags post_data)
  | _, _, _ => raise ValidationError
  end.

(** POST /posts, for a request whose token has been validated and carries
    [access_level]. *)
Definition add_or_update_post `{Runtime} (uuid4 : string) (time_time : float)
    (post_data : AddOrUpdatePostData.t) (access_level : Z)
    : M App.t AddOrUpdatePostResult.t :=
  check_access_level access_level standard;;
  a ← get_state;
  post_id ←
    match AddOrUpdatePostData.post_id post_data with
    | Some post_id =>
        if PyDict.contains post_id (Lablog.posts (App.lablog a)) then
          App.on_lablog
            (Lablog.modify_post post_id
               (AddOrUpdatePostData.title post_data)
               (AddOrUpdatePostData.abstract post_data)
               (AddOrUpdatePostData.link post_data)
               (AddOrUpdatePostData.created_timestamp post_data)
               (AddOrUpdatePostData.catagory post_data)
               (AddOrUpdatePostData.tags post_data));;
          ret post_id
        else App.on_lablog (add_post_from_request uuid4 time_time post_data)
    | None => App.on_lablog (add_post_from_request uuid4 time_time post_data)
    end;
  save_database false;;
  ret (AddOrUpdatePostResult.mk "success" post_id).

(** DELETE /comments/{comment_id} *)
Definition delete_comment `{Runtime} (comment_id : string) (access_level : Z)
    : M App.t DeleteCommentResult.t :=
  check_access_level access_level standard;;
  a ← get_state;
  if negb (PyDict.contains comment_id (Lablog.comments (App.lablog a))) then
    raise (HTTPException 404)
  else
    App.on_lablog (Lablog.delete_comment comment_id);;
    save_database false;;
    ret (DeleteCommentResult.mk "success" comment_id).

(** GET /management/data *)
Definition get_management_data (access_level : Z) : M App.t BlogData.t :=
  check_access_level access_level standard;;
  a ← get_state;
  ret (Lablog.get_management_data (App.lablog a)).
End Main.

(** ** Further vocabulary *)

(** Every comment is listed by the post it names. *)
Definition comments_listed (s : Lablog.t) : Prop :=
  ∀ comment_id c,
    PyDict.get comment_id (Lablog.comments s) = Some c →
    ∃ p, PyDict.get (CommentData.post_id c) (Lablog.posts s) = Some p
         ∧ comment_id ∈ PostMetadata.comments p.

(** Posts and comments refer to each other consistently, in both
    directions. *)
Definition linked (s : Lablog.t) : Prop := store_inv s ∧ comments_listed s.

(** The post after [modify_post] has assigned the fields it was given, in
    the order of the method body. *)
Definition updated_post (title abstract link : option string)
    (created_timestamp : option float) (catagory : option string)
    (tags : option (list string)) (p : PostMetadata.t) : PostMetadata.t :=
  opt_set tags PostMetadata.set_tags
    (opt_set catagory PostMetadata.set_catagory
       (opt_set created_timestamp PostMetadata.set_created_timestamp
          (opt_set link PostMetadata.set_link
             (opt_set abstract PostMetadata.set_abstract
                (opt_set title PostMetadata.set_title p))))).

(** The store with the object of one post replaced. *)
Definition with_post (post_id : string) (p : PostMetadata.t) (s : Lablog.t) : Lablog.t :=
  Lablog.set_posts (PyDict.set post_id p (Lablog.posts s)) s.

(** Whether a [modify_comment] call gives any field at all. *)
Definition supplies_a_comment_field (name content contact_address : option string)
    (created_timestamp : option float) (ip_address post_id : option string)
    (display : option bool) : bool :=
  given name || given content || given contact_address || given created_timestamp
  || given ip_address || given post_id || given display.

(** Oldest first, by a key: no element is followed by one with a smaller
    key, and every two keys compare. *)
Definition oldest_first {A} (key : A → float) (l : list A) : Prop :=
  StronglySorted (λ a b, float_le (key a) (key b) = true) l.

(** The disk and the recorded hash are as they were. *)
Definition disk_untouched (a a' : App.t) : Prop :=
  App.disk a' = App.disk a ∧ App.data_hash a' = App.data_hash a.

(** The disk holds the current store: the database file is its dump and
    the recorded hash is its hash. *)
Definition in_sync `{Runtime} (a : App.t) : Prop :=
  Disk.files (App.disk a) !! (App.root_path a ++ "blogdata.json")
  = Some (str_encode (Lablog.serialize (App.lablog a)))
  ∧ App.data_hash a = Lablog.get_data_hash (App.lablog a).

(** A running server whose disk holds a keyword file of two lines. *)
Definition running_server : Server.t :=
  Server.mk
    (App.mk example_store "data/" ""
       (Disk.mk {[ "./backend/spam_keywords.txt" := "casino" ++ String line_feed "lottery" ]}
          ∅ ∅ 0)
       ∅ ["casino"; "lottery"])
    true.


(** The error the disk holds for writing the database file, if any. *)
Definition write_fault (a : App.t) : option exn :=
  Disk.write_error (App.disk a) !! (App.root_path a ++ "blogdata.json").



(** The comments the ids name that are to be displayed, in the order of the
    ids. *)
Definition displayed (s : Lablog.t) (comment_id_list : list string) : list CommentData.t :=
  filter (λ c, CommentData.display c = true)
    (omap (λ id, PyDict.get id (Lablog.comments s)) comment_id_list).

(** No key is NaN; every timestamp is finite. *)
Definition no_nan {A} (key : A → float) (l : list A) : Prop :=
  Forall (λ x, is_nan (key x) = false) l.

Definition all_finite {A} (key : A → float) (l : list A) : Prop :=
  Forall (λ x, is_finite (key x) = true) l.

Definition finite_timestamps (s : Lablog.t) : Prop :=
  all_finite PostMetadata.created_timestamp (PyDict.values (Lablog.posts s))
  ∧ all_finite CommentData.created_timestamp (PyDict.values (Lablog.comments s)).


Definition nan_store : Lablog.t :=
  run_call (AddPost "d" 0 "D" "" "http://blog/d" (Some NaN) None None) three_posts.



(** A process whose data directory does not exist: [open] for writing the
    database file raises FileNotFoundError. *)
Definition no_directory_app : App.t :=
  App.mk example_store "data/" ""
    (Disk.mk ∅ ∅ {[ "data/blogdata.json" := FileNotFoundError ]} 0) ∅ [].

(** The three posts and a fourth with the timestamp of the second. *)
Definition tied_posts : Lablog.t :=
  run_call (AddPost "d" 0 "D" "" "http://blog/d" (Some (300 : float)) None None) three_posts.

(** A request that creates a post. *)
Definition new_post_request : AddOrUpdatePostData.t :=
  AddOrUpdatePostData.mk None (Some "Third") (Some "third post") (Some "http://blog/3")
    None None None.
(** * Proofs *)

(** ** Dictionaries *)

Section dict_facts.
Context {V : Type}.
Implicit Types (d : list (string * V)) (k : string) (v : V).

Lemma get_set_eq d k v : PyDict.get k (PyDict.set k v d) = Some v.
Proof.
  induction d as [|[k' v'] d IH]; simpl; repeat case_decide; simpl;
    repeat case_decide; congruence.
Qed.

Lemma get_set_ne d k k' v : k ≠ k' → PyDict.get k' (PyDict.set k v d) = PyDict.get k' d.
Proof.
  intros Hne. induction d as [|[k0 v0] d IH]; simpl; repeat case_decide; simpl;
    repeat case_decide; congruence.
Qed.

Lemma get_None d k : PyDict.get k d = None ↔ k ∉ PyDict.keys d.
Proof.
  unfold PyDict.keys. induction d as [|[k' v'] d IH]; simpl.
  - split; [intros _; apply not_elem_of_nil | done].
  - rewrite not_elem_of_cons. case_decide as Hk.
    + split; [done | by intros [? _]].
    + rewrite IH. split; [done | by intros [_ ?]].
Qed.

Lemma get_Some_elem_of d k v : PyDict.get k d = Some v → (k, v) ∈ d.
Proof.
  induction d as [|[k' v'] d IH]; simpl; [done|].
  case_decide; intros; simplify_eq; [left | right; auto].
Qed.

Lemma get_del_ne d k k' : k ≠ k' → PyDict.get k' (PyDict.del k d) = PyDict.get k' d.
Proof.
  intros Hne. induction d as [|[k0 v0] d IH]; simpl; repeat case_decide; simpl;
    repeat case_decide; congruence.
Qed.

Lemma get_del_eq d k : PyDict.wf d → PyDict.get k (PyDict.del k d) = None.
Proof.
  unfold PyDict.wf, PyDict.keys. induction d as [|[k' v'] d IH]; simpl; [done|].
  intros [Hnotin Hnd]%NoDup_cons. case_decide; simpl.
  - subst. by apply get_None.
  - case_decide; [done | auto].
Qed.

Lemma set_same d k v : PyDict.get k d = Some v → PyDict.set k v d = d.
Proof.
  induction d as [|[k' v'] d IH]; simpl; [done|].
  case_decide; intros; simplify_eq; [done | f_equal; auto].
Qed.

Lemma keys_set_present d k v :
  is_Some (PyDict.get k d) → PyDict.keys (PyDict.set k v d) = PyDict.keys d.
Proof.
  unfold PyDict.keys. induction d as [|[k' v'] d IH]; simpl; [by intros [? ?]|].
  case_decide; simpl; intros; subst; f_equal; auto.
Qed.

Lemma keys_set_absent d k v :
  PyDict.get k d = None → PyDict.keys (PyDict.set k v d) = (PyDict.keys d ++ [k])%list.
Proof.
  unfold PyDict.keys. induction d as [|[k' v'] d IH]; simpl; [done|].
  case_decide; simpl; intros; simplify_eq; f_equal; auto.
Qed.

Lemma wf_set d k v : PyDict.wf d → PyDict.wf (PyDict.set k v d).
Proof.
  intros Hwf. unfold PyDict.wf. destruct (PyDict.get k d) eqn:Hg.
  - by rewrite keys_set_present.
  - rewrite keys_set_absent by done. apply NoDup_app. split_and!; [done | | apply NoDup_singleton].
    intros x Hx ->%list_elem_of_singleton. by apply get_None in Hg.
Qed.

Lemma keys_del_sublist d k : sublist (PyDict.keys (PyDict.del k d)) (PyDict.keys d).
Proof.
  unfold PyDict.keys. induction d as [|[k' v'] d IH]; simpl; [done|].
  case_decide; simpl; [by apply sublist_cons | by apply sublist_skip].
Qed.

Lemma wf_del d k : PyDict.wf d → PyDict.wf (PyDict.del k d).
Proof. unfold PyDict.wf. intros. eapply sublist_NoDup; [done | apply keys_del_sublist]. Qed.

Lemma contains_true d k : PyDict.contains k d = true ↔ is_Some (PyDict.get k d).
Proof. unfold PyDict.contains. destruct (PyDict.get k d); naive_solver. Qed.

Lemma contains_false d k : PyDict.contains k d = false ↔ PyDict.get k d = None.
Proof. unfold PyDict.contains. destruct (PyDict.get k d); naive_solver. Qed.
End dict_facts.

(** ** Running the monad *)

Ltac run :=
  repeat (progress (unfold mbind, M_bind, mret, M_ret, bind, ret, raise, get_state, put_state,
                      if_not_None; simpl)).

Section store_steps.
Implicit Types (s : Lablog.t).

Lemma posts_setattr_absent post_id f s :
  PyDict.get post_id (Lablog.posts s) = None →
  Lablog.posts_setattr post_id f s = (Raise KeyError, s).
Proof. intros Hg. unfold Lablog.posts_setattr, Lablog.posts_getitem. run. by rewrite Hg. Qed.

Lemma posts_setattr_present post_id f s p :
  PyDict.get post_id (Lablog.posts s) = Some p →
  Lablog.posts_setattr post_id f s
  = (Ret (), Lablog.set_posts (PyDict.set post_id (f p) (Lablog.posts s)) s).
Proof. intros Hg. unfold Lablog.posts_setattr, Lablog.posts_getitem. run. by rewrite Hg. Qed.

Lemma comments_setattr_absent comment_id f s :
  PyDict.get comment_id (Lablog.comments s) = None →
  Lablog.comments_setattr comment_id f s = (Raise KeyError, s).
Proof.
  intros Hg. unfold Lablog.comments_setattr, Lablog.comments_getitem. run. by rewrite Hg.
Qed.

Lemma comments_setattr_present comment_id f s c :
  PyDict.get comment_id (Lablog.comments s) = Some c →
  Lablog.comments_setattr comment_id f s
  = (Ret (), Lablog.set_comments (PyDict.set comment_id (f c) (Lablog.comments s)) s).
Proof.
  intros Hg. unfold Lablog.comments_setattr, Lablog.comments_getitem. run. by rewrite Hg.
Qed.
End store_steps.

(** ** add_comment *)

Lemma add_comment_absent s uuid4 time_time name content contact post_id ts ip display :
  PyDict.get post_id (Lablog.posts s) = None →
  Lablog.add_comment uuid4 time_time name content contact post_id ts ip display s
  = (Raise ValueError, s).
Proof.
  intros Hg. unfold Lablog.add_comment. run.
  by rewrite (proj2 (contains_false _ _) Hg).
Qed.

Lemma add_comment_present s uuid4 time_time name content contact post_id ts ip display p :
  PyDict.get post_id (Lablog.posts s) = Some p →
  Lablog.add_comment uuid4 time_time name content contact post_id ts ip display s
  = (Ret uuid4,
     Lablog.mk
       (PyDict.set post_id
          (PostMetadata.set_comments (PostMetadata.comments p ++ [uuid4]) p)
          (Lablog.posts s))
       (PyDict.set uuid4
          (new_comment uuid4 time_time name content contact post_id ts ip display)
          (Lablog.comments s))).
Proof.
  intros Hg. unfold Lablog.add_comment. run.
  rewrite (proj2 (contains_true _ _)) by (by rewrite Hg). simpl.
  unfold Lablog.posts_setattr, Lablog.posts_getitem. run. rewrite Hg. simpl.
  by rewrite Hg.
Qed.


(** ** modify_post *)

(** C4, as the code has it.  [modify_post] on a [post_id] that is no key of
    the posts map leaves the store unchanged; it raises KeyError (the spec's
    NotFound) when at least one optional field is supplied, and returns
    without an error when none is. *)
Theorem modify_post_absent s post_id title abstract link ts cat tags :
  PyDict.get post_id (Lablog.posts s) = None →
  Lablog.modify_post post_id title abstract link ts cat tags s
  = (if supplies_a_field title abstract link ts cat tags then Raise KeyError else Ret (),
     s).
Proof.
  intros Hg. unfold Lablog.modify_post.
  destruct title, abstract, link, ts, cat, tags; run;
    rewrite ?(posts_setattr_absent _ _ _ Hg); reflexivity.
Qed.

Lemma modify_post_absent_witness :
  Lablog.modify_post "p9" (Some "new title") None None None None None Lablog.init
  = (Raise KeyError, Lablog.init).
Proof. exact (modify_post_absent Lablog.init "p9" (Some "new title") None None None None None eq_refl). Defined.

(** C4 as stated fails: with no optional field, nothing is looked up and
    the call on an absent [post_id] returns normally. *)
Lemma modify_post_absent_no_field_returns :
  PyDict.get "p9" (Lablog.posts Lablog.init) = None
  ∧ (Lablog.modify_post "p9" None None None None None None Lablog.init).1 ≠ Raise KeyError.
Proof. split; [reflexivity | discriminate]. Qed.

(** ** list.remove *)

Lemma list_remove_None x l : list_remove x l = None ↔ x ∉ l.
Proof.
  induction l as [|y l IH]; simpl.
  - split; [intros _; apply not_elem_of_nil | done].
  - rewrite not_elem_of_cons. case_decide as Hxy.
    + split; [done | by intros [? _]].
    + destruct (list_remove x l) eqn:Hr.
      * split; [done|]. intros [_ Hnot]. by apply IH in Hnot.
      * split; [|done]. intros _. split; [done | by apply IH].
Qed.

Lemma list_remove_Some_elem x l : x ∈ l → is_Some (list_remove x l).
Proof.
  intros Hin. destruct (list_remove x l) eqn:Hr; [by eexists|].
  by apply list_remove_None in Hr.
Qed.

Lemma list_remove_other x y l r : list_remove x l = Some r → y ≠ x → (y ∈ r ↔ y ∈ l).
Proof.
  revert r. induction l as [|z l IH]; simpl; intros r Hr Hne; [done|].
  case_decide as Hxz.
  - simplify_eq. rewrite elem_of_cons. split; [by right | by intros [?|?]].
  - destruct (list_remove x l) as [r'|] eqn:Hr'; simplify_eq.
    rewrite !elem_of_cons, (IH r') by done. done.
Qed.

Lemma list_remove_sublist x l r : list_remove x l = Some r → sublist r l.
Proof.
  revert r. induction l as [|z l IH]; simpl; intros r Hr; [done|].
  case_decide.
  - simplify_eq. by apply sublist_cons.
  - destruct (list_remove x l) as [r'|]; simplify_eq. apply sublist_skip; auto.
Qed.

Lemma list_remove_NoDup x l r : list_remove x l = Some r → NoDup l → (x ∉ r) ∧ NoDup r.
Proof.
  revert r. induction l as [|z l IH]; simpl; intros r Hr Hnd; [done|].
  apply NoDup_cons in Hnd as [Hz Hnd]. case_decide as Hxz.
  - by simplify_eq.
  - destruct (list_remove x l) as [r'|] eqn:Hr'; simplify_eq.
    destruct (IH r' eq_refl Hnd) as [Hx Hr]. split.
    + rewrite not_elem_of_cons. done.
    + apply NoDup_cons. split; [|done].
      intros Hin. apply Hz. eapply elem_of_sublist; [done|]. by eapply list_remove_sublist.
Qed.

(** ** delete_comment *)

Section delete_comment_cases.
Implicit Types (s : Lablog.t).

Lemma delete_comment_absent s comment_id :
  PyDict.get comment_id (Lablog.comments s) = None →
  Lablog.delete_comment comment_id s = (Ret (), s).
Proof.
  intros Hg. unfold Lablog.delete_comment. run.
  by rewrite (proj2 (contains_false _ _) Hg).
Qed.

Lemma delete_comment_dangling s comment_id c :
  PyDict.get comment_id (Lablog.comments s) = Some c →
  PyDict.get (CommentData.post_id c) (Lablog.posts s) = None →
  Lablog.delete_comment comment_id s = (Raise KeyError, s).
Proof.
  intros Hc Hp. unfold Lablog.delete_comment. run.
  rewrite (proj2 (contains_true _ _)) by (by rewrite Hc). simpl.
  unfold Lablog.comments_getitem. rewrite Hc. simpl.
  unfold Lablog.posts_getitem. by rewrite Hp.
Qed.

Lemma delete_comment_unlisted s comment_id c p :
  PyDict.get comment_id (Lablog.comments s) = Some c →
  PyDict.get (CommentData.post_id c) (Lablog.posts s) = Some p →
  comment_id ∉ PostMetadata.comments p →
  Lablog.delete_comment comment_id s = (Raise ValueError, s).
Proof.
  intros Hc Hp Hl%list_remove_None. unfold Lablog.delete_comment. run.
  rewrite (proj2 (contains_true _ _)) by (by rewrite Hc). simpl.
  unfold Lablog.comments_getitem. rewrite Hc. simpl.
  unfold Lablog.posts_getitem. rewrite Hp. simpl.
  unfold Lablog.list_remove_or_raise. by rewrite Hl.
Qed.

Lemma delete_comment_listed s comment_id c p l :
  PyDict.get comment_id (Lablog.comments s) = Some c →
  PyDict.get (CommentData.post_id c) (Lablog.posts s) = Some p →
  list_remove comment_id (PostMetadata.comments p) = Some l →
  Lablog.delete_comment comment_id s
  = (Ret (),
     Lablog.mk
       (PyDict.set (CommentData.post_id c) (PostMetadata.set_comments l p) (Lablog.posts s))
       (PyDict.del comment_id (Lablog.comments s))).
Proof.
  intros Hc Hp Hl. unfold Lablog.delete_comment. run.
  rewrite (proj2 (contains_true _ _)) by (by rewrite Hc). simpl.
  unfold Lablog.comments_getitem. rewrite Hc. simpl.
  unfold Lablog.posts_getitem at 1. rewrite Hp. simpl.
  unfold Lablog.list_remove_or_raise. rewrite Hl. run.
  by rewrite (posts_setattr_present _ _ _ _ Hp).
Qed.
End delete_comment_cases.

(** C5, as the code has it.  [delete_comment] on an id that is no key of
    the comment map returns and leaves the store exactly as it was.  On an
    id that is a key, whose comment's [post_id] is a key of the posts map
    and which occurs in that post's comment list, it returns, the id is no
    longer a key of the comment map, its first occurrence is taken out of
    that post's list (so it is gone from the list when it was listed once),
    and every other comment and every other post is as before. *)
Theorem delete_comment_spec s comment_id :
  match PyDict.get comment_id (Lablog.comments s) with
  | None => Lablog.delete_comment comment_id s = (Ret (), s)
  | Some c =>
      ∀ p, PyDict.wf (Lablog.comments s) →
           PyDict.get (CommentData.post_id c) (Lablog.posts s) = Some p →
           comment_id ∈ PostMetadata.comments p →
      ∃ l s',
        Lablog.delete_comment comment_id s = (Ret (), s')
        ∧ list_remove comment_id (PostMetadata.comments p) = Some l
        ∧ PyDict.get comment_id (Lablog.comments s') = None
        ∧ (∀ k, k ≠ comment_id →
             PyDict.get k (Lablog.comments s') = PyDict.get k (Lablog.comments s))
        ∧ PyDict.get (CommentData.post_id c) (Lablog.posts s')
          = Some (PostMetadata.set_comments l p)
        ∧ (NoDup (PostMetadata.comments p) → comment_id ∉ l)
        ∧ (∀ x, x ≠ comment_id → (x ∈ l ↔ x ∈ PostMetadata.comments p))
        ∧ PyDict.keys (Lablog.posts s') = PyDict.keys (Lablog.posts s)
        ∧ (∀ k, k ≠ CommentData.post_id c →
             PyDict.get k (Lablog.posts s') = PyDict.get k (Lablog.posts s))
  end.
Proof.
  destruct (PyDict.get comment_id (Lablog.comments s)) as [c|] eqn:Hc.
  - intros p Hwf Hp Hin. destruct (list_remove_Some_elem _ _ Hin) as [l Hl].
    exists l. eexists. split; [by eapply delete_comment_listed|]. simpl.
    split_and!.
    + done.
    + by apply get_del_eq.
    + intros k Hk. by apply get_del_ne.
    + apply get_set_eq.
    + intros Hnd. by destruct (list_remove_NoDup _ _ _ Hl Hnd).
    + intros x Hx. by eapply list_remove_other.
    + apply keys_set_present. by rewrite Hp.
    + intros k Hk. by apply get_set_ne.
  - by apply delete_comment_absent.
Qed.

(** C10. For a [comment_id] that is a key of the comment map,
    [delete_comment] returns without an error exactly when the comment's
    [post_id] is a key of the posts map and the id occurs in that post's
    comment list.  With a dangling [post_id] it raises KeyError, with a post
    that does not list the id it raises ValueError, and in both cases
    nothing is deleted.  This is the state [modify_comment] produces when it
    is given a [post_id] that is no key of the posts map. *)
Theorem delete_comment_total_iff s comment_id c :
  PyDict.get comment_id (Lablog.comments s) = Some c →
  ((∃ s', Lablog.delete_comment comment_id s = (Ret (), s'))
   ↔ (∃ p, PyDict.get (CommentData.post_id c) (Lablog.posts s) = Some p
           ∧ comment_id ∈ PostMetadata.comments p))
  ∧ (PyDict.get (CommentData.post_id c) (Lablog.posts s) = None →
     Lablog.delete_comment comment_id s = (Raise KeyError, s))
  ∧ (∀ p, PyDict.get (CommentData.post_id c) (Lablog.posts s) = Some p →
          comment_id ∉ PostMetadata.comments p →
          Lablog.delete_comment comment_id s = (Raise ValueError, s))
  ∧ (∀ new_post_id,
       PyDict.get new_post_id (Lablog.posts s) = None →
       let s1 := (Lablog.modify_comment comment_id None None None None None
                    (Some new_post_id) None s).2 in
       PyDict.get comment_id (Lablog.comments s1)
       = Some (CommentData.set_post_id new_post_id c)
       ∧ Lablog.delete_comment comment_id s1 = (Raise KeyError, s1)).
Proof.
  intros Hc. split_and!.
  - split.
    + intros [s' Hdel].
      destruct (PyDict.get (CommentData.post_id c) (Lablog.posts s)) as [p|] eqn:Hp.
      * exists p. split; [done|].
        destruct (decide (comment_id ∈ PostMetadata.comments p)) as [|Hnot]; [done|].
        rewrite (delete_comment_unlisted _ _ _ _ Hc Hp Hnot) in Hdel. discriminate.
      * rewrite (delete_comment_dangling _ _ _ Hc Hp) in Hdel. discriminate.
    + intros (p & Hp & Hin). destruct (list_remove_Some_elem _ _ Hin) as [l Hl].
      eexists. by eapply delete_comment_listed.
  - intros Hp. by eapply delete_comment_dangling.
  - intros p Hp Hnot. by eapply delete_comment_unlisted.
  - intros new_post_id Hnew. unfold Lablog.modify_comment. run.
    rewrite (comments_setattr_present _ _ _ _ Hc). simpl.
    split; [apply get_set_eq|].
    eapply delete_comment_dangling; simpl; [apply get_set_eq | done].
Qed.

Ltac by_decide :=
  match goal with |- ?P => apply (bool_decide_unpack P); vm_compute; exact I end.

Lemma delete_comment_spec_witness :
  ∃ s', Lablog.delete_comment "c1" example_store = (Ret (), s')
        ∧ PyDict.get "c1" (Lablog.comments s') = None
        ∧ PostMetadata.comments <$> PyDict.get "p1" (Lablog.posts s') = Some [].
Proof.
  assert (PyDict.wf (Lablog.comments example_store)) as Hwf by by_decide.
  pose proof (delete_comment_spec example_store "c1") as H.
  change (PyDict.get "c1" (Lablog.comments example_store))
    with (Some (new_comment "c1" 150 "ann" "nice" "ann@example.org" "p1" None None true)) in H.
  simpl in H.
  destruct (H _ Hwf eq_refl) as (l & s' & Hdel & Hl & Hgone & _ & Hpost & _); [by_decide|].
  exists s'. split_and!; [done | done |].
  rewrite Hpost. simpl. f_equal. vm_compute in Hl. congruence.
Defined.

(** C5 as stated fails on a store in which a comment's [post_id] is not a
    key of the posts map: the call raises and the comment stays. *)
Lemma delete_comment_dangling_raises :
  PyDict.get "c1" (Lablog.comments dangling_store) ≠ None
  ∧ Lablog.delete_comment "c1" dangling_store = (Raise KeyError, dangling_store).
Proof. split; [discriminate | reflexivity]. Qed.

Lemma delete_comment_total_iff_witness :
  Lablog.delete_comment "c1" dangling_store = (Raise KeyError, dangling_store)
  ∧ Lablog.delete_comment "c1" moved_store = (Raise ValueError, moved_store).
Proof.
  split.
  - pose proof (delete_comment_total_iff example_store "c1" _ eq_refl) as (_ & _ & _ & H).
    destruct (H "p0" eq_refl) as [_ Hdel]. exact Hdel.
  - pose proof (delete_comment_total_iff moved_store "c1" _ eq_refl) as (_ & _ & H & _).
    apply (H _ eq_refl). by_decide.
Defined.

(** ** What the operations preserve *)

Section preserves_facts.
Context {S : Type} (P : S → Prop).

Lemma preserves_ret {A} (a : A) : preserves P (ret a : M S A).
Proof. by intros s Hs. Qed.

Lemma preserves_raise {A} (e : exn) : preserves P (raise e : M S A).
Proof. by intros s Hs. Qed.

Lemma preserves_bind {A B} (m : M S A) (f : A → M S B) :
  preserves P m → (∀ a, preserves P (f a)) → preserves P (m ≫= f).
Proof.
  intros Hm Hf s Hs. unfold mbind, M_bind, bind. specialize (Hm s Hs).
  destruct (m s) as [[a|e] s']; simpl in *; [by apply Hf | done].
Qed.

Lemma preserves_if_not_None {A} (o : option A) (body : A → M S unit) :
  (∀ v, preserves P (body v)) → preserves P (if_not_None o body).
Proof. intros Hbody. destruct o; simpl; [apply Hbody | apply preserves_ret]. Qed.
End preserves_facts.

Section store_invariant.
Implicit Types (s : Lablog.t).

Lemma posts_setattr_inv post_id f :
  (∀ p, PostMetadata.comments (f p) = PostMetadata.comments p) →
  (∀ p, PostMetadata.post_id (f p) = PostMetadata.post_id p) →
  preserves store_inv (Lablog.posts_setattr post_id f).
Proof.
  intros Hcomments Hid s Hinv. pose proof Hinv as (Hri & Hpc & Hwfp & Hwfc).
  destruct (PyDict.get post_id (Lablog.posts s)) as [p|] eqn:Hp.
  2: { rewrite posts_setattr_absent by done. exact Hinv. }
  rewrite (posts_setattr_present _ _ _ _ Hp). simpl.
  assert (∀ k q, PyDict.get k (PyDict.set post_id (f p) (Lablog.posts s)) = Some q →
            ∃ q0, PyDict.get k (Lablog.posts s) = Some q0
                  ∧ PostMetadata.comments q = PostMetadata.comments q0
                  ∧ PostMetadata.post_id q = PostMetadata.post_id q0) as Hold.
  { intros k q Hq. destruct (decide (post_id = k)) as [<-|Hne].
    - rewrite get_set_eq in Hq. simplify_eq. eauto.
    - rewrite get_set_ne in Hq by done. eauto. }
  unfold store_inv, store_wf; split_and!.
  - intros k q x Hq Hx. simpl in *. destruct (Hold _ _ Hq) as (q0 & Hq0 & Hc & Hi).
    rewrite Hc in Hx. rewrite Hi. eauto.
  - intros k q Hq. simpl in *. destruct (Hold _ _ Hq) as (q0 & Hq0 & Hc & Hi).
    rewrite Hc, Hi. eauto.
  - by apply wf_set.
  - done.
Qed.

Lemma comments_setattr_inv comment_id f :
  (∀ c, CommentData.post_id (f c) = CommentData.post_id c) →
  preserves store_inv (Lablog.comments_setattr comment_id f).
Proof.
  intros Hid s Hinv. pose proof Hinv as (Hri & Hpc & Hwfp & Hwfc).
  destruct (PyDict.get comment_id (Lablog.comments s)) as [c|] eqn:Hc.
  2: { rewrite comments_setattr_absent by done. exact Hinv. }
  rewrite (comments_setattr_present _ _ _ _ Hc). simpl. unfold store_inv, store_wf; split_and!.
  - intros k q x Hq Hx. simpl in *. destruct (Hri _ _ _ Hq Hx) as (c0 & Hc0 & Hpid).
    destruct (decide (comment_id = x)) as [<-|Hne].
    + exists (f c). rewrite get_set_eq. split; [done|]. rewrite Hid. congruence.
    + exists c0. by rewrite get_set_ne.
  - done.
  - done.
  - by apply wf_set.
Qed.

Lemma add_post_inv uuid4 time_time title abstract link ts cat tags :
  preserves store_inv (Lablog.add_post uuid4 time_time title abstract link ts cat tags).
Proof.
  intros s (Hri & Hpc & Hwfp & Hwfc). unfold Lablog.add_post. run. unfold store_inv, store_wf; split_and!.
  - intros k q x Hq Hx. simpl in *. destruct (decide (uuid4 = k)) as [<-|Hne].
    + rewrite get_set_eq in Hq. simplify_eq. simpl in Hx. by apply elem_of_nil in Hx.
    + rewrite get_set_ne in Hq by done. eauto.
  - intros k q Hq. simpl in *. destruct (decide (uuid4 = k)) as [<-|Hne].
    + rewrite get_set_eq in Hq. simplify_eq. simpl. split; [done | apply NoDup_nil_2].
    + rewrite get_set_ne in Hq by done. eauto.
  - by apply wf_set.
  - done.
Qed.

Lemma modify_post_inv post_id title abstract link ts cat tags :
  preserves store_inv (Lablog.modify_post post_id title abstract link ts cat tags).
Proof.
  unfold Lablog.modify_post.
  repeat (apply preserves_bind; [|intros _]);
    apply preserves_if_not_None; intros v; by apply posts_setattr_inv.
Qed.

Lemma modify_comment_inv comment_id name content contact ts ip display :
  preserves store_inv
    (Lablog.modify_comment comment_id name content contact ts ip None display).
Proof.
  unfold Lablog.modify_comment.
  repeat (apply preserves_bind; [|intros _]);
    first [ by apply preserves_if_not_None; intros v; apply comments_setattr_inv
          | exact (preserves_ret _ _) ].
Qed.

Lemma add_comment_inv uuid4 time_time name content contact post_id ts ip display s :
  PyDict.get uuid4 (Lablog.comments s) = None →
  store_inv s →
  store_inv (Lablog.add_comment uuid4 time_time name content contact post_id ts ip display s).2.
Proof.
  intros Hfresh Hinv. pose proof Hinv as (Hri & Hpc & Hwfp & Hwfc).
  destruct (PyDict.get post_id (Lablog.posts s)) as [p|] eqn:Hp.
  2: { rewrite add_comment_absent by done. exact Hinv. }
  rewrite (add_comment_present _ _ _ _ _ _ _ _ _ _ _ Hp). simpl.
  assert (∀ k q x, PyDict.get k (Lablog.posts s) = Some q → x ∈ PostMetadata.comments q →
            x ≠ uuid4) as Hother.
  { intros k q x Hq Hx ->. destruct (Hri _ _ _ Hq Hx) as (c0 & Hc0 & _). congruence. }
  unfold store_inv, store_wf; split_and!.
  - intros k q x Hq Hx. simpl in *. destruct (decide (post_id = k)) as [<-|Hne].
    + rewrite get_set_eq in Hq. simplify_eq. simpl in *.
      apply elem_of_app in Hx as [Hx | ->%list_elem_of_singleton].
      * destruct (Hri _ _ _ Hp Hx) as (c0 & Hc0 & Hpid). exists c0.
        rewrite get_set_ne by (intros <-; by eapply Hother). done.
      * eexists. rewrite get_set_eq. split; [done|]. simpl.
        by destruct (Hpc _ _ Hp) as [-> _].
    + rewrite get_set_ne in Hq by done.
      destruct (Hri _ _ _ Hq Hx) as (c0 & Hc0 & Hpid). exists c0.
      rewrite get_set_ne by (intros <-; by eapply Hother). done.
  - intros k q Hq. simpl in *. destruct (decide (post_id = k)) as [<-|Hne].
    + rewrite get_set_eq in Hq. simplify_eq. simpl.
      destruct (Hpc _ _ Hp) as [Hid Hnd]. split; [done|].
      apply NoDup_app. split_and!; [done | | apply NoDup_singleton].
      intros x Hx ->%list_elem_of_singleton. by eapply Hother.
    + rewrite get_set_ne in Hq by done. eauto.
  - by apply wf_set.
  - by apply wf_set.
Qed.

Lemma delete_comment_inv comment_id : preserves store_inv (Lablog.delete_comment comment_id).
Proof.
  intros s Hinv. pose proof Hinv as (Hri & Hpc & Hwfp & Hwfc).
  destruct (PyDict.get comment_id (Lablog.comments s)) as [c|] eqn:Hc.
  2: { rewrite delete_comment_absent by done. exact Hinv. }
  destruct (PyDict.get (CommentData.post_id c) (Lablog.posts s)) as [p|] eqn:Hp.
  2: { rewrite (delete_comment_dangling _ _ _ Hc Hp). exact Hinv. }
  destruct (list_remove comment_id (PostMetadata.comments p)) as [l|] eqn:Hl.
  2: { apply list_remove_None in Hl.
       rewrite (delete_comment_unlisted _ _ _ _ Hc Hp Hl). exact Hinv. }
  rewrite (delete_comment_listed _ _ _ _ _ Hc Hp Hl). simpl.
  destruct (Hpc _ _ Hp) as [Hid Hnd].
  destruct (list_remove_NoDup _ _ _ Hl Hnd) as [Hgone Hndl].
  unfold store_inv, store_wf; split_and!.
  - intros k q x Hq Hx. simpl in *.
    destruct (decide (CommentData.post_id c = k)) as [<-|Hne].
    + rewrite get_set_eq in Hq. simplify_eq. simpl in *.
      assert (x ≠ comment_id) as Hxne by (intros ->; done).
      apply (list_remove_other _ _ _ _ Hl Hxne) in Hx.
      destruct (Hri _ _ _ Hp Hx) as (c0 & Hc0 & Hpid). exists c0.
      by rewrite get_del_ne.
    + rewrite get_set_ne in Hq by done.
      destruct (Hri _ _ _ Hq Hx) as (c0 & Hc0 & Hpid). exists c0.
      rewrite get_del_ne; [done|]. intros <-. simplify_eq.
      destruct (Hpc _ _ Hq) as [Hk _]. congruence.
  - intros k q Hq. simpl in *.
    destruct (decide (CommentData.post_id c = k)) as [<-|Hne].
    + rewrite get_set_eq in Hq. by simplify_eq.
    + rewrite get_set_ne in Hq by done. eauto.
  - by apply wf_set.
  - by apply wf_del.
Qed.

Lemma run_call_inv c s :
  fresh_draw c s → ¬ rewrites_post_id c → store_inv s → store_inv (run_call c s).
Proof.
  intros Hfresh Hnot Hinv. destruct c; simpl in *.
  - by apply add_post_inv.
  - by apply modify_post_inv.
  - by apply add_comment_inv.
  - destruct post_id; [by destruct Hnot|]. by apply modify_comment_inv.
  - by apply delete_comment_inv.
Qed.

Lemma init_inv : store_inv Lablog.init.
Proof.
  unfold store_inv, store_wf; split_and!; [by intros k p x Hk | by intros k p Hk | apply NoDup_nil_2 | apply NoDup_nil_2].
Qed.

Lemma run_calls_inv cs s : well_behaved cs s → store_inv s → store_inv (run_calls cs s).
Proof.
  revert s. induction cs as [|c cs IH]; intros s Hwb Hinv; simpl in *; [done|].
  destruct Hwb as (Hfresh & Hnot & Hwb). apply IH; [done|]. by apply run_call_inv.
Qed.
End store_invariant.

(** C1, on the code.  The example store is reached by fresh draws alone and
    has referential integrity; one [modify_comment] that is given another
    [post_id] leaves the comment id in the first post's list while the
    comment now names the second post, so integrity is lost. *)
Theorem modify_comment_breaks_integrity :
  referential_integrity example_store
  ∧ PyDict.contains "p2" (Lablog.posts example_store) = true
  ∧ Lablog.modify_comment "c1" None None None None None (Some "p2") None example_store
    = (Ret (), moved_store)
  ∧ ¬ referential_integrity moved_store.
Proof.
  split_and!.
  - apply (run_calls_inv example_calls Lablog.init); [|apply init_inv].
    simpl. split_and!; try done; auto.
  - reflexivity.
  - reflexivity.
  - intros H. pose proof (H "p1" _ "c1" eq_refl) as H1.
    destruct H1 as (c & Hc & Hpid); [by_decide|].
    vm_compute in Hc. injection Hc as <-. vm_compute in Hpid. discriminate.
Qed.
(** ** list.sort *)

Section sort_facts.
Context {A : Type} (precedes : A → A → bool).

Lemma insert_by_Permutation x l : insert_by precedes x l ≡ₚ x :: l.
Proof.
  induction l as [|y l IH]; simpl; [done|].
  destruct (precedes x y); [done|]. rewrite IH. apply perm_swap.
Qed.

Lemma foldr_insert_by_Permutation l : foldr (insert_by precedes) [] l ≡ₚ l.
Proof.
  induction l as [|x l IH]; simpl; [done|].
  rewrite insert_by_Permutation. by rewrite IH.
Qed.

(** The elements that are sorted are comparable: [ok] holds of them. *)
Context (ok : A → Prop).
Hypothesis precedes_total :
  ∀ a b, ok a → ok b → precedes a b = false → precedes b a = true.
Hypothesis precedes_trans :
  ∀ a b c, precedes a b = true → precedes b c = true → precedes a c = true.

Lemma insert_by_sorted x l :
  ok x → Forall ok l →
  StronglySorted (λ a b, precedes a b = true) l →
  StronglySorted (λ a b, precedes a b = true) (insert_by precedes x l).
Proof.
  intros Hx Hl Hs. induction Hs as [|y l Hs IH Hy]; simpl.
  - repeat constructor.
  - apply Forall_cons in Hl as [Hoky Hl]. destruct (precedes x y) eqn:Hxy.
    + constructor; [by constructor|]. constructor; [done|].
      eapply Forall_impl; [exact Hy|]. intros z Hz. by eapply precedes_trans.
    + constructor; [by apply IH|].
      rewrite insert_by_Permutation. constructor; [by apply precedes_total | done].
Qed.

Lemma foldr_insert_by_sorted l :
  Forall ok l →
  StronglySorted (λ a b, precedes a b = true) (foldr (insert_by precedes) [] l).
Proof.
  induction 1 as [|x l Hx Hl IH]; simpl; [constructor|].
  apply insert_by_sorted; [done | by rewrite foldr_insert_by_Permutation | done].
Qed.
End sort_facts.


(** ** Comparing floats *)

Section float_facts.
Implicit Types (a b c : float).

Lemma float_le_total a b :
  is_nan a = false → is_nan b = false → float_le a b = false → float_le b a = true.
Proof.
  destruct a as [x| | |], b as [y| | |]; simpl; try done.
  intros _ _ Hab. apply Qle_bool_iff.
  destruct (Qlt_le_dec x y) as [Hlt|Hle]; [|done].
  apply Qlt_le_weak, Qle_bool_iff in Hlt. congruence.
Qed.

Lemma float_le_trans a b c : float_le a b = true → float_le b c = true → float_le a c = true.
Proof.
  destruct a as [x| | |], b as [y| | |], c as [z| | |]; simpl; try done.
  rewrite !Qle_bool_iff. apply Qle_trans.
Qed.

Lemma float_le_not_nan a b : float_le a b = true → is_nan a = false ∧ is_nan b = false.
Proof. by destruct a, b. Qed.

Lemma float_eqb_le a b : float_eqb a b = true → float_le a b = true ∧ float_le b a = true.
Proof. unfold float_eqb. by intros [? ?]%andb_prop. Qed.
End float_facts.

Section sort_by_float_facts.
Context `{Runtime} {A : Type} (key : A → float).
Implicit Types (l : list A).

Lemma forallb_no_nan l :
  forallb (λ x, negb (is_nan (key x))) l = true ↔ no_nan key l.
Proof.
  unfold no_nan. rewrite forallb_forall, Forall_forall.
  split; intros Hl x Hx.
  - apply list_elem_of_In, Hl in Hx. by destruct (is_nan (key x)).
  - apply list_elem_of_In, Hl in Hx. by rewrite Hx.
Qed.

Lemma sort_by_float_no_nan reverse l :
  no_nan key l → sort_by_float key reverse l = list_sort float_le key reverse l.
Proof. intros Hl%forallb_no_nan. unfold sort_by_float. by rewrite Hl. Qed.

Lemma sort_by_float_Permutation reverse l : sort_by_float key reverse l ≡ₚ l.
Proof.
  unfold sort_by_float. destruct (forallb _ l).
  - apply foldr_insert_by_Permutation.
  - apply sort_unordered_perm.
Qed.

Lemma list_sort_descending l :
  no_nan key l →
  StronglySorted (λ a b, float_le (key b) (key a) = true) (list_sort float_le key true l).
Proof.
  intros Hl. unfold list_sort.
  apply (foldr_insert_by_sorted _ (λ x, is_nan (key x) = false)); [| |exact Hl].
  - intros a b Ha Hb. by apply float_le_total.
  - intros a b c Hab Hbc. eapply float_le_trans; [exact Hbc | exact Hab].
Qed.

Lemma list_sort_ascending l :
  no_nan key l →
  StronglySorted (λ a b, float_le (key a) (key b) = true) (list_sort float_le key false l).
Proof.
  intros Hl. unfold list_sort.
  apply (foldr_insert_by_sorted _ (λ x, is_nan (key x) = false)); [| |exact Hl].
  - intros a b Ha Hb. by apply float_le_total.
  - intros a b c. apply float_le_trans.
Qed.

(** A list of two or more elements in which every two keys compare has no
    NaN key. *)
Lemma sorted_no_nan (R : float → float → bool) l :
  (∀ a b, R a b = true → is_nan a = false ∧ is_nan b = false) →
  StronglySorted (λ x y, R (key x) (key y) = true) l →
  (2 ≤ length l)%nat → no_nan key l.
Proof.
  intros HR Hs Hlen. destruct Hs as [|x l Hs Hx]; simpl in *; [lia|].
  destruct l as [|y l]; simpl in *; [lia|].
  apply Forall_cons. split.
  - apply Forall_cons in Hx as [Hxy _]. by destruct (HR _ _ Hxy).
  - eapply Forall_impl; [exact Hx|]. intros z Hz. by destruct (HR _ _ Hz).
Qed.
End sort_by_float_facts.

(** ** get_posts *)

Section get_posts_facts.
Context `{Runtime}.
Implicit Types (p : PostMetadata.t) (pf : PostFilter.t).

Lemma apply_loop_app fs f p :
  PostFilter.apply_loop (fs ++ [f]) p = PostFilter.apply_loop fs p && f p.
Proof.
  induction fs as [|g fs IH]; simpl.
  - by destruct (f p).
  - destruct (g p); simpl; [apply IH | done].
Qed.

Lemma apply_filters_add_if_given {B} (o : option B) gen pf p :
  PostFilter.apply_filters (Lablog.add_if_given o gen pf) p
  = PostFilter.apply_filters pf p && meets o (λ v, gen v p).
Proof.
  destruct o; simpl.
  - apply apply_loop_app.
  - by rewrite andb_true_r.
Qed.

Lemma add_if_nonempty_given {B} (o : option (list B)) gen pf :
  Lablog.add_if_nonempty o gen pf = Lablog.add_if_given (nonempty o) gen pf.
Proof. by destruct o as [[|x l]|]. Qed.

Lemma tags_loop_forallb tags p :
  PostFilter.tags_loop tags p = forallb (λ v, bool_decide (v ∈ PostMetadata.tags p)) tags.
Proof.
  induction tags as [|t tags IH]; simpl; [done|].
  destruct (bool_decide (t ∈ PostMetadata.tags p)); simpl; [apply IH | done].
Qed.

Lemma meets_ext {B} (o : option B) (f g : B → bool) :
  (∀ v, f v = g v) → meets o f = meets o g.
Proof. intros Hfg. destruct o; simpl; auto. Qed.

Lemma build_filter_effective post_id post_id_list catagory tag tags t0 t1 p :
  PostFilter.apply_filters
    (Lablog.build_filter post_id post_id_list catagory tag tags t0 t1) p
  = satisfies_effective post_id post_id_list catagory tag tags t0 t1 p.
Proof.
  unfold Lablog.build_filter. rewrite !add_if_nonempty_given.
  rewrite !apply_filters_add_if_given.
  unfold satisfies_effective, satisfies_supplied.
  rewrite (meets_ext (nonempty tags) (λ v, PostFilter.generate_tags_filter v p)
             (λ l, forallb (λ v, bool_decide (v ∈ PostMetadata.tags p)) l))
    by (intros; apply tags_loop_forallb).
  reflexivity.
Qed.

Lemma empty_tags_no_constraint post_id post_id_list catagory tag t0 t1 p :
  satisfies_supplied post_id post_id_list catagory tag (Some []) t0 t1 p
  = satisfies_supplied post_id post_id_list catagory tag None t0 t1 p.
Proof. reflexivity. Qed.

Lemma get_posts_eq s post_id post_id_list catagory tag tags t0 t1 :
  Lablog.get_posts s post_id post_id_list catagory tag tags t0 t1
  = sort_by_float PostMetadata.created_timestamp true
      (List.filter (satisfies_effective post_id post_id_list catagory tag tags t0 t1)
         (PyDict.values (Lablog.posts s))).
Proof.
  unfold Lablog.get_posts. f_equal.
  apply List.filter_ext. intros p. apply build_filter_effective.
Qed.

Lemma get_posts_sorted s post_id post_id_list catagory tag tags t0 t1 :
  no_nan PostMetadata.created_timestamp
    (List.filter (satisfies_effective post_id post_id_list catagory tag tags t0 t1)
       (PyDict.values (Lablog.posts s))) →
  newest_first (Lablog.get_posts s post_id post_id_list catagory tag tags t0 t1).
Proof.
  intros Hl. rewrite get_posts_eq, sort_by_float_no_nan by done.
  by apply list_sort_descending.
Qed.

Lemma get_posts_elem_of s post_id post_id_list catagory tag tags t0 t1 p :
  p ∈ Lablog.get_posts s post_id post_id_list catagory tag tags t0 t1
  ↔ p ∈ PyDict.values (Lablog.posts s)
    ∧ satisfies_effective post_id post_id_list catagory tag tags t0 t1 p = true.
Proof.
  rewrite get_posts_eq, sort_by_float_Permutation.
  by rewrite list_elem_of_In, filter_In, <- list_elem_of_In.
Qed.

Lemma get_posts_sorted_no_nan s post_id post_id_list catagory tag tags t0 t1 :
  let matching :=
    List.filter (satisfies_effective post_id post_id_list catagory tag tags t0 t1)
      (PyDict.values (Lablog.posts s)) in
  newest_first (Lablog.get_posts s post_id post_id_list catagory tag tags t0 t1) →
  (2 ≤ length matching)%nat →
  no_nan PostMetadata.created_timestamp matching.
Proof.
  intros matching Hs Hlen. subst matching.
  assert (no_nan PostMetadata.created_timestamp
            (Lablog.get_posts s post_id post_id_list catagory tag tags t0 t1)) as Hnn.
  { apply (sorted_no_nan _ (λ a b, float_le b a)).
    - intros a b Hab. by destruct (float_le_not_nan _ _ Hab).
    - exact Hs.
    - rewrite get_posts_eq, sort_by_float_Permutation. exact Hlen. }
  unfold no_nan in *. rewrite get_posts_eq, sort_by_float_Permutation in Hnn. exact Hnn.
Qed.

Lemma filter_all {B} (l : list B) : List.filter (λ _, true) l = l.
Proof. induction l as [|x l IH]; simpl; [done | by rewrite IH]. Qed.
End get_posts_facts.

(** C3, as the code has it.  For every store and every combination of
    criteria, [get_posts] returns exactly the stored posts that satisfy the
    conjunction of the supplied criteria, a [post_id_list] that is empty
    counting as omitted (as does an empty [tags], which constrains nothing
    anyway); with no criteria it returns all posts.  When no post that
    satisfies the criteria has NaN for its timestamp, the result is ordered
    by [created_timestamp] descending; a NaN compares with nothing, and a
    result of two or more posts that holds one is in no descending order. *)
Theorem get_posts_spec `{Runtime} s post_id post_id_list catagory tag tags t0 t1 :
  let matching :=
    List.filter (satisfies_effective post_id post_id_list catagory tag tags t0 t1)
      (PyDict.values (Lablog.posts s)) in
  let result := Lablog.get_posts s post_id post_id_list catagory tag tags t0 t1 in
  result ≡ₚ matching
  ∧ (no_nan PostMetadata.created_timestamp matching → newest_first result)
  ∧ (newest_first result → (2 ≤ length matching)%nat →
     no_nan PostMetadata.created_timestamp matching)
  ∧ Lablog.get_posts s None None None None None None None
      ≡ₚ PyDict.values (Lablog.posts s)
  ∧ satisfies_effective post_id post_id_list catagory tag tags t0 t1
    = satisfies_supplied post_id (nonempty post_id_list) catagory tag tags t0 t1.
Proof.
  intros matching result. subst matching result. split_and!.
  - rewrite get_posts_eq. apply sort_by_float_Permutation.
  - apply get_posts_sorted.
  - apply get_posts_sorted_no_nan.
  - rewrite get_posts_eq, sort_by_float_Permutation.
    unfold satisfies_effective, satisfies_supplied. simpl. by rewrite filter_all.
  - unfold satisfies_effective. by destruct tags as [[|t l]|].
Qed.

Lemma get_posts_spec_witness :
  newest_first
    (@Lablog.get_posts Reference.runtime three_posts None None (Some "tech") None None
       None None).
Proof.
  apply (@get_posts_spec Reference.runtime three_posts None None (Some "tech") None None
           None None).
  repeat constructor.
Defined.

(** C3 as stated fails for a [post_id_list] that is supplied and empty: no
    post has its id in the empty list, and [get_posts] returns every post. *)
Lemma get_posts_empty_post_id_list :
  PostMetadata.post_id
    <$> @Lablog.get_posts Reference.runtime example_store None (Some []) None None None
          None None
  = ["p2"; "p1"]
  ∧ List.filter (satisfies_supplied None (Some []) None None None None None)
      (PyDict.values (Lablog.posts example_store)) = [].
Proof. split; reflexivity. Qed.

(** With a post whose timestamp is NaN among four, what [get_posts] returns
    is in no descending order, whatever the interpreter's sort does with such
    keys. *)
Lemma get_posts_nan_not_newest_first `{Runtime} :
  ¬ newest_first (Lablog.get_posts nan_store None None None None None None None).
Proof.
  intros Hs.
  assert (no_nan PostMetadata.created_timestamp
            (List.filter (satisfies_effective None None None None None None None)
               (PyDict.values (Lablog.posts nan_store)))) as Hall
    by (apply (get_posts_sorted_no_nan _ _ _ _ _ _ _ _ Hs); vm_compute; lia).
  vm_compute in Hall. do 3 apply Forall_cons in Hall as [_ Hall].
  apply Forall_cons in Hall as [Hd _]. discriminate.
Qed.
(** ** The rate limiter *)

Section rate_limit_facts.
Implicit Types (data : gmap string (list Z)) (l : list Z).

Lemma is_rate_limited_eq now client_host limit period data :
  let kept := List.filter (λ timestamp, bool_decide (now - timestamp < period))
                (default [] (data !! client_host)) in
  is_rate_limited now client_host limit period data
  = if bool_decide (limit ≤ Z.of_nat (length kept))
    then (Ret true, <[client_host := kept]> data)
    else (Ret false, <[client_host := (kept ++ [now])%list]> data).
Proof.
  intros kept. unfold is_rate_limited. run. fold kept.
  case_bool_decide; simpl; [done|].
  by rewrite lookup_insert_eq, insert_insert_eq.
Qed.

Lemma filter_all_recent now period l :
  Forall (λ timestamp, now - timestamp < period) l →
  List.filter (λ timestamp, bool_decide (now - timestamp < period)) l = l.
Proof.
  induction 1 as [|t l Ht Hl IH]; simpl; [done|].
  rewrite bool_decide_eq_true_2 by done. by f_equal.
Qed.

Lemma is_rate_limited_recent now client_host data l :
  data !! client_host = Some l →
  Forall (λ timestamp, now - timestamp < default_period) l →
  (length l < 5)%nat →
  is_rate_limited now client_host default_limit default_period data
  = (Ret false, <[client_host := (l ++ [now])%list]> data).
Proof.
  intros Hl Hrecent Hlen. rewrite is_rate_limited_eq, Hl. simpl.
  rewrite filter_all_recent by done.
  rewrite bool_decide_eq_false_2; [done|]. unfold default_limit. lia.
Qed.

Lemma is_rate_limited_full now client_host data l :
  data !! client_host = Some l →
  Forall (λ timestamp, now - timestamp < default_period) l →
  (5 ≤ length l)%nat →
  is_rate_limited now client_host default_limit default_period data
  = (Ret true, <[client_host := l]> data).
Proof.
  intros Hl Hrecent Hlen. rewrite is_rate_limited_eq, Hl. simpl.
  rewrite filter_all_recent by done.
  rewrite bool_decide_eq_true_2; [done|]. unfold default_limit. lia.
Qed.

Lemma is_rate_limited_first now client_host data :
  data !! client_host = None →
  is_rate_limited now client_host default_limit default_period data
  = (Ret false, <[client_host := [now]]> data).
Proof. intros Hl. rewrite is_rate_limited_eq, Hl. reflexivity. Qed.
End rate_limit_facts.

Ltac all_recent :=
  repeat (apply Forall_cons_2; [unfold default_period, minutes in *; lia|]);
  apply Forall_nil_2.

(** C7, as the code has it.  A check for a host keeps the recorded
    timestamps whose age is strictly below 30 minutes and discards the
    others, also one that is exactly 30 minutes old.  If at least 5 remain it
    reports rate-limited and records nothing; otherwise it appends the
    current time and reports not-limited.  Hence, for a host with no entry,
    six checks at non-decreasing times less than 30 minutes apart give five
    passes and then a refusal. *)
Theorem is_rate_limited_spec now client_host data :
  (let kept := List.filter (λ timestamp, bool_decide (now - timestamp < minutes 30))
                 (default [] (data !! client_host)) in
   is_rate_limited now client_host 5 (minutes 30) data
   = if bool_decide (5 ≤ length kept)%nat
     then (Ret true, <[client_host := kept]> data)
     else (Ret false, <[client_host := (kept ++ [now])%list]> data))
  ∧ (∀ t1 t2 t3 t4 t5 t6,
       data !! client_host = None →
       t1 ≤ t2 ≤ t3 → t3 ≤ t4 ≤ t5 → t5 ≤ t6 → t6 - t1 < minutes 30 →
       (run_checks client_host [t1; t2; t3; t4; t5; t6] data).1
       = [Ret false; Ret false; Ret false; Ret false; Ret false; Ret true]).
Proof.
  split.
  - intros kept. rewrite is_rate_limited_eq. fold kept.
    destruct (decide (5 ≤ length kept)%nat) as [Hlen|Hlen].
    + rewrite !bool_decide_eq_true_2; [done | done | lia].
    + rewrite !bool_decide_eq_false_2; [done | done | lia].
  - intros t1 t2 t3 t4 t5 t6 Hnone H12 H34 H56 Hwin. unfold run_checks.
    rewrite is_rate_limited_first by done.
    rewrite (is_rate_limited_recent t2 _ _ [t1]);
      [| apply lookup_insert_eq | all_recent | simpl; lia].
    rewrite insert_insert_eq.
    rewrite (is_rate_limited_recent t3 _ _ [t1; t2]);
      [| apply lookup_insert_eq | all_recent | simpl; lia].
    rewrite insert_insert_eq.
    rewrite (is_rate_limited_recent t4 _ _ [t1; t2; t3]);
      [| apply lookup_insert_eq | all_recent | simpl; lia].
    rewrite insert_insert_eq.
    rewrite (is_rate_limited_recent t5 _ _ [t1; t2; t3; t4]);
      [| apply lookup_insert_eq | all_recent | simpl; lia].
    rewrite insert_insert_eq.
    rewrite (is_rate_limited_full t6 _ _ [t1; t2; t3; t4; t5]);
      [| apply lookup_insert_eq | all_recent | simpl; lia].
    reflexivity.
Qed.

Lemma is_rate_limited_spec_witness :
  (run_checks "10.0.0.1" [0; minutes 5; minutes 10; minutes 15; minutes 20; minutes 29] ∅).1
  = [Ret false; Ret false; Ret false; Ret false; Ret false; Ret true].
Proof.
  apply (proj2 (is_rate_limited_spec 0 "10.0.0.1" ∅)); [reflexivity | unfold minutes; lia ..].
Defined.

(** C7 as stated fails at the boundary: the first of five recorded requests
    is exactly 30 minutes old, so it is not older than 30 minutes; the
    description keeps it and refuses the sixth request, the code drops it and
    lets the request pass. *)
Lemma is_rate_limited_boundary :
  (is_rate_limited_described (minutes 30) "10.0.0.1" 5 (minutes 30) boundary_ledger).1
  = Ret true
  ∧ (is_rate_limited (minutes 30) "10.0.0.1" 5 (minutes 30) boundary_ledger).1 = Ret false.
Proof. split; reflexivity. Qed.

(** ** save_database *)

Section save_database_facts.
Context `{Runtime}.
Implicit Types (a : App.t).

Lemma after_write_lablog a : App.lablog (after_write a) = App.lablog a.
Proof. by destruct a. Qed.

Lemma after_write_writes a :
  Disk.writes (App.disk (after_write a)) = S (Disk.writes (App.disk a)).
Proof. by destruct a. Qed.

Lemma after_write_fault a : write_fault (after_write a) = write_fault a.
Proof. by destruct a. Qed.

Lemma after_write_hash a :
  App.data_hash (after_write a) = Lablog.get_data_hash (App.lablog a).
Proof. by destruct a. Qed.

Lemma after_write_in_sync a : in_sync (after_write a).
Proof. split; destruct a; simpl; [apply lookup_insert_eq | done]. Qed.

Lemma save_database_eq check_hash a :
  save_database check_hash a
  = if check_hash && bool_decide (Lablog.get_data_hash (App.lablog a) = App.data_hash a)
    then (Ret (), a)
    else match write_fault a with
         | Some e => (Raise e, a)
         | None => (Ret (), after_write a)
         end.
Proof.
  unfold save_database, write_fault.
  unfold mbind, M_bind, bind at 1. unfold get_state.
  destruct check_hash; simpl; [case_bool_decide; [done|]|];
    unfold bind at 1, App.on_disk, Lablog.serialize_to_file, Disk.write;
    destruct (Disk.write_error (App.disk a) !! _); by destruct a as [? ? ? [] ? ?].
Qed.

Lemma save_database_skip a :
  Lablog.get_data_hash (App.lablog a) = App.data_hash a →
  save_database true a = (Ret (), a).
Proof. intros Heq. rewrite save_database_eq. simpl. by rewrite bool_decide_eq_true_2. Qed.

Lemma save_database_forced a :
  write_fault a = None → save_database false a = (Ret (), after_write a).
Proof. intros Hw. rewrite save_database_eq. simpl. by rewrite Hw. Qed.

Lemma save_database_failed a e :
  write_fault a = Some e → save_database false a = (Raise e, a).
Proof. intros Hw. rewrite save_database_eq. simpl. by rewrite Hw. Qed.


Lemma save_database_records check_hash a a' :
  save_database check_hash a = (Ret (), a') →
  App.data_hash a' = Lablog.get_data_hash (App.lablog a').
Proof.
  rewrite save_database_eq. destruct check_hash; simpl.
  - case_bool_decide as Hh; [by intros [= <-]|].
    destruct (write_fault a); [done|]. intros [= <-].
    by rewrite after_write_hash, after_write_lablog.
  - destruct (write_fault a); [done|]. intros [= <-].
    by rewrite after_write_hash, after_write_lablog.
Qed.

Lemma save_database_writes check_hash a :
  Disk.writes (App.disk (save_database check_hash a).2)
  = (Disk.writes (App.disk a)
     + if check_hash && bool_decide (Lablog.get_data_hash (App.lablog a) = App.data_hash a)
       then 0
       else match write_fault a with Some _ => 0 | None => 1 end)%nat.
Proof.
  rewrite save_database_eq.
  destruct (check_hash && _); cbn [snd]; [lia|].
  destruct (write_fault a); cbn [snd]; [lia|]. rewrite after_write_writes. lia.
Qed.
End save_database_facts.

(** C8, as the code has it.  [save_database] with [check_hash] set leaves
    disk and manager untouched when the hash of the store equals the last
    saved hash; in every other case it writes the dump of the store to
    blogdata.json under the root path and records the hash of the store.
    Two such saves in a row therefore write once when the store's hash
    differs from the last saved hash before the first of them, and not at
    all when it is equal; the second never writes.  When the store changes
    between them, the second writes exactly when the hash of the new store
    differs from that of the old.  All this is for a database file that can
    be opened for writing; when [open] fails, a save that would write raises
    that error instead, and disk and recorded hash stay as they were. *)
Theorem save_database_spec `{Runtime} (a : App.t) (check_hash : bool) (s' : Lablog.t) :
  let saved := bool_decide (Lablog.get_data_hash (App.lablog a) = App.data_hash a) in
  match write_fault a with
  | None =>
      save_database check_hash a
      = (Ret (), if check_hash && saved then a else after_write a)
      ∧ Disk.files (App.disk (after_write a)) !! (App.root_path a ++ "blogdata.json")
        = Some (str_encode (Lablog.serialize (App.lablog a)))
      ∧ App.data_hash (after_write a) = Lablog.get_data_hash (App.lablog a)
      ∧ writes_during (save_database check_hash) a
        = (if check_hash && saved then 0 else 1)%nat
      ∧ writes_during save_twice a = (if saved then 0 else 1)%nat
      ∧ writes_during (save_change_save s') a
        = ((if saved then 0 else 1)
           + (if bool_decide (Lablog.get_data_hash s' = Lablog.get_data_hash (App.lablog a))
              then 0 else 1))%nat
  | Some e =>
      save_database check_hash a
      = (if check_hash && saved then Ret () else Raise e, a)
      ∧ writes_during (save_database check_hash) a = 0%nat
      ∧ writes_during save_twice a = 0%nat
      ∧ writes_during (save_change_save s') a = 0%nat
  end.
Proof.
  intros saved.
  assert (∀ s1 a1, write_fault (App.set_lablog s1 a1) = write_fault a1) as Hset
    by (intros s1 a1; by destruct a1).
  destruct (write_fault a) as [e|] eqn:Hw.
  - split_and!.
    + rewrite save_database_eq, Hw. fold saved. by destruct (check_hash && saved).
    + unfold writes_during. rewrite save_database_writes, Hw.
      destruct (check_hash && _); lia.
    + unfold writes_during, save_twice. unfold mbind, M_bind, bind.
      rewrite (save_database_eq true a), Hw. cbn [andb]. fold saved.
      destruct saved; cbn [snd]; [|lia].
      rewrite save_database_writes, Hw. destruct (true && _); lia.
    + unfold writes_during, save_change_save. unfold mbind, M_bind, bind.
      rewrite (save_database_eq true a), Hw. cbn [andb]. fold saved.
      destruct saved; cbn [snd]; [|lia]. unfold get_state, put_state.
      rewrite save_database_writes, Hset, Hw.
      replace (App.disk (App.set_lablog s' a)) with (App.disk a) by (by destruct a).
      destruct (true && _); lia.
  - split_and!.
    + rewrite save_database_eq, Hw. fold saved. by destruct (check_hash && saved).
    + destruct a; simpl. apply lookup_insert_eq.
    + apply after_write_hash.
    + unfold writes_during. rewrite save_database_writes, Hw. fold saved.
      destruct (check_hash && saved); lia.
    + unfold writes_during, save_twice. unfold mbind, M_bind, bind.
      rewrite (save_database_eq true a), Hw. cbn [andb]. fold saved.
      destruct saved eqn:Hsaved; cbn [snd].
      * rewrite save_database_writes. cbn [andb]. fold saved. rewrite Hsaved. lia.
      * rewrite save_database_writes. cbn [andb].
        rewrite after_write_hash, after_write_lablog, bool_decide_eq_true_2 by done.
        rewrite after_write_writes. lia.
    + unfold writes_during, save_change_save. unfold mbind, M_bind, bind.
      rewrite (save_database_eq true a), Hw. cbn [andb]. fold saved.
      unfold get_state, put_state.
      destruct saved eqn:Hsaved; cbn [snd].
      * apply bool_decide_eq_true_1 in Hsaved.
        rewrite save_database_writes, Hset, Hw. cbn [andb].
        replace (App.data_hash (App.set_lablog s' a)) with (App.data_hash a)
          by (by destruct a).
        replace (App.lablog (App.set_lablog s' a)) with s' by (by destruct a).
        replace (App.disk (App.set_lablog s' a)) with (App.disk a) by (by destruct a).
        rewrite Hsaved. case_bool_decide; lia.
      * rewrite save_database_writes, Hset, after_write_fault, Hw. cbn [andb].
        replace (App.data_hash (App.set_lablog s' (after_write a)))
          with (Lablog.get_data_hash (App.lablog a)) by (by destruct a).
        cbn [App.lablog App.disk App.set_lablog].
        rewrite after_write_writes. case_bool_decide; lia.
Qed.

(** C8 as stated fails for a process that has already saved its store, as
    it has after any route that changes it: two saves with the hash check
    then write nothing, not once. *)
Lemma save_twice_after_save_writes_nothing :
  writes_during (@save_twice Reference.runtime) saved_app = 0%nat
  ∧ writes_during (@save_twice Reference.runtime) saved_app ≠ 1%nat.
Proof. split; [vm_compute; reflexivity | vm_compute; discriminate]. Qed.

(** ** Dumping and validating *)

Section dump_validate.
Context `{Runtime}.
#[local] Arguments validate_str_list : simpl never.
#[local] Arguments validate_dict : simpl never.

Lemma validate_str_list_dump l : validate_str_list (dump_str_list l) = Some l.
Proof.
  unfold validate_str_list, dump_str_list.
  induction l as [|x l IH]; [done|]. rewrite fmap_cons. simpl. by rewrite IH.
Qed.

Lemma validate_float_dump x : is_finite x = true → validate_float (dump_float x) = Some x.
Proof. intros Hx. unfold dump_float. by rewrite Hx. Qed.

Lemma validate_PostMetadata_dump p :
  is_finite (PostMetadata.created_timestamp p) = true →
  validate_PostMetadata (dump_PostMetadata p) = Some p.
Proof.
  destruct p as [title abstract link ts cat tags comments post_id]. intros Hts.
  unfold validate_PostMetadata, dump_PostMetadata, field. simpl in *.
  by rewrite validate_float_dump, !validate_str_list_dump.
Qed.

Lemma validate_CommentData_dump c :
  is_finite (CommentData.created_timestamp c) = true →
  validate_CommentData (dump_CommentData c) = Some c.
Proof.
  destruct c. intros Hts. unfold validate_CommentData, dump_CommentData, field. simpl in *.
  by rewrite validate_float_dump.
Qed.

Lemma validate_dict_dump {V} (dump : V → json) (validate : json → option V) d :
  Forall (λ v, validate (dump v) = Some v) (PyDict.values d) →
  validate_dict validate (dump_dict dump d) = Some d.
Proof.
  unfold validate_dict, dump_dict, PyDict.values.
  induction d as [|[k v] d IH]; [done|]. rewrite !fmap_cons. simpl.
  intros [Hv Hd]%Forall_cons. rewrite Hv. simpl. by rewrite IH.
Qed.

Lemma validate_BlogData_dump posts comments :
  all_finite PostMetadata.created_timestamp (PyDict.values posts) →
  all_finite CommentData.created_timestamp (PyDict.values comments) →
  validate_BlogData
    [ ("posts", dump_dict dump_PostMetadata posts);
      ("comments", dump_dict dump_CommentData comments) ]
  = Some (BlogData.mk posts comments).
Proof.
  intros Hp Hc. unfold validate_BlogData, field. simpl.
  rewrite (validate_dict_dump dump_PostMetadata validate_PostMetadata posts).
  2: { eapply Forall_impl; [exact Hp|]. intros p. apply validate_PostMetadata_dump. }
  simpl. rewrite (validate_dict_dump dump_CommentData validate_CommentData comments).
  2: { eapply Forall_impl; [exact Hc|]. intros c. apply validate_CommentData_dump. }
  done.
Qed.

(** What [load_from_file] does with a file that holds the dump of a store
    with finite timestamps, when the libraries read back what they wrote. *)
Lemma load_from_file_dump (s s0 : Lablog.t) (path : string) (d : Disk.t) :
  let doc := dump_BlogData (BlogData.mk (Lablog.posts s) (Lablog.comments s)) in
  finite_timestamps s →
  bytes_decode (str_encode (json_render doc)) = Some (json_render doc) →
  json_loads (json_render doc) = Ret doc →
  Disk.read_error d !! path = None →
  Disk.files d !! path = Some (str_encode (Lablog.serialize s)) →
  Lablog.load_from_file d path s0 = (Ret (), s).
Proof.
  intros doc [Hp Hc] Hdecode Hloads Hread Hfile.
  unfold Lablog.load_from_file, Disk.read. rewrite Hread, Hfile.
  unfold Lablog.serialize. fold doc. rewrite Hdecode, Hloads.
  unfold doc, dump_BlogData. rewrite validate_BlogData_dump by done.
  unfold Lablog.load, put_state. by destruct s.
Qed.
End dump_validate.



(** ** modify_comment *)

Section modify_comment_facts.
Implicit Types (s : Lablog.t) (c : CommentData.t).

Lemma set_set {V} (d : list (string * V)) k v1 v2 :
  PyDict.set k v2 (PyDict.set k v1 d) = PyDict.set k v2 d.
Proof.
  induction d as [|[k' v'] d IH]; simpl; repeat (case_decide; simpl); try congruence.
Qed.

Lemma with_comment_twice comment_id c1 c2 s :
  with_comment comment_id c2 (with_comment comment_id c1 s) = with_comment comment_id c2 s.
Proof. unfold with_comment. simpl. by rewrite set_set. Qed.

Lemma with_comment_same comment_id c s :
  PyDict.get comment_id (Lablog.comments s) = Some c → with_comment comment_id c s = s.
Proof. intros Hc. unfold with_comment. rewrite set_same by done. by destruct s. Qed.

Lemma with_comment_get comment_id c s :
  PyDict.get comment_id (Lablog.comments (with_comment comment_id c s)) = Some c.
Proof. apply get_set_eq. Qed.

Lemma setattr_step {B} comment_id (o : option B) (f : B → CommentData.t → CommentData.t) s c :
  PyDict.get comment_id (Lablog.comments s) = Some c →
  if_not_None o (λ v, Lablog.comments_setattr comment_id (f v)) s
  = (Ret (), with_comment comment_id (opt_set o f c) s).
Proof.
  intros Hc. destruct o; simpl.
  - by apply comments_setattr_present.
  - by rewrite with_comment_same.
Qed.

Lemma modify_comment_present comment_id name content contact ts ip post_id display s c :
  PyDict.get comment_id (Lablog.comments s) = Some c →
  Lablog.modify_comment comment_id name content contact ts ip post_id display s
  = (Ret (),
     with_comment comment_id (updated_comment name content contact ts ip post_id display c) s).
Proof.
  intros Hc. unfold Lablog.modify_comment, updated_comment.
  unfold mbind, M_bind, bind.
  rewrite (setattr_step _ name _ _ _ Hc).
  rewrite (setattr_step _ content _ _ _ (with_comment_get _ _ _)), with_comment_twice.
  rewrite (setattr_step _ contact _ _ _ (with_comment_get _ _ _)), with_comment_twice.
  rewrite (setattr_step _ ts _ _ _ (with_comment_get _ _ _)), with_comment_twice.
  rewrite (setattr_step _ ip _ _ _ (with_comment_get _ _ _)), with_comment_twice.
  rewrite (setattr_step _ post_id _ _ _ (with_comment_get _ _ _)), with_comment_twice.
  rewrite (setattr_step _ display _ _ _ (with_comment_get _ _ _)), with_comment_twice.
  reflexivity.
Qed.


End modify_comment_facts.

(** ** int() and get_comments_for_display *)

Section truncation.


Lemma int_of_float_finite x : is_finite x = true ↔ ∃ z, int_of_float x = Ret z.
Proof.
  destruct x; simpl; split; try done; try (intros [z Hz]; discriminate).
  intros _. by eexists.
Qed.

Lemma int_of_float_raise x e :
  int_of_float x = Raise e → is_finite x = false ∧ (e = OverflowError ∨ e = ValueError).
Proof. destruct x; simpl; intros [= <-]; auto. Qed.


Lemma to_display_finite c :
  is_finite (CommentData.created_timestamp c) = true → ∃ entry, Lablog.to_display c = Ret entry.
Proof.
  intros [z Hz]%int_of_float_finite. unfold Lablog.to_display. rewrite Hz. by eexists.
Qed.

Lemma to_display_raise c e :
  Lablog.to_display c = Raise e →
  is_finite (CommentData.created_timestamp c) = false ∧ (e = OverflowError ∨ e = ValueError).
Proof.
  unfold Lablog.to_display.
  destruct (int_of_float (CommentData.created_timestamp c)) as [z|e'] eqn:Hz; simpl; [done|].
  intros [= <-]. by apply int_of_float_raise.
Qed.
End truncation.

Section display_facts.
Implicit Types (cs : list (string * CommentData.t)) (l : list string) (s : Lablog.t).




Lemma displayed_cons s id l :
  displayed s (id :: l)
  = match PyDict.get id (Lablog.comments s) with
    | Some c => if CommentData.display c then c :: displayed s l else displayed s l
    | None => displayed s l
    end.
Proof.
  unfold displayed. simpl. destruct (PyDict.get id (Lablog.comments s)) as [c|]; [|done].
  rewrite filter_cons. by destruct (CommentData.display c).
Qed.



Lemma display_loop_raises s l e :
  Lablog.display_loop (Lablog.comments s) l = Raise e →
  (e = OverflowError ∨ e = ValueError)
  ∧ ∃ c, c ∈ displayed s l ∧ is_finite (CommentData.created_timestamp c) = false.
Proof.
  induction l as [|id l IH]; simpl; [done|].
  rewrite displayed_cons. destruct (PyDict.get id (Lablog.comments s)) as [c|]; [|apply IH].
  destruct (CommentData.display c); [|apply IH].
  destruct (Lablog.to_display c) as [entry|e'] eqn:Hentry; simpl.
  - destruct (Lablog.display_loop (Lablog.comments s) l) as [rest|e']; simpl; [done|].
    intros [= ->]. destruct (IH eq_refl) as (He & c' & Hc' & Hfin).
    split; [done|]. exists c'. split; [by right | done].
  - intros [= ->]. destruct (to_display_raise _ _ Hentry) as [Hfin He].
    split; [done|]. exists c. split; [left | done].
Qed.


Lemma list_sort_elem_of {A K} (le : K → K → bool) (key : A → K) reverse (l : list A) x :
  x ∈ list_sort le key reverse l ↔ x ∈ l.
Proof. unfold list_sort. by rewrite foldr_insert_by_Permutation. Qed.



Lemma get_comments_for_display_raises s l e :
  Lablog.get_comments_for_display s l = Raise e →
  (e = OverflowError ∨ e = ValueError)
  ∧ ∃ c, c ∈ displayed s l ∧ is_finite (CommentData.created_timestamp c) = false.
Proof.
  unfold Lablog.get_comments_for_display.
  destruct (Lablog.display_loop (Lablog.comments s) l) as [entries|e'] eqn:Hloop; simpl; [done|].
  intros [= ->]. by apply display_loop_raises.
Qed.


End display_facts.

(** ** The comment routes *)

Section routes.
Context `{Runtime}.
Implicit Types (a : App.t).

Lemma get_comments_for_post_present post_id a p :
  PyDict.get post_id (Lablog.posts (App.lablog a)) = Some p →
  get_comments_for_post post_id a
  = (Lablog.get_comments_for_display (App.lablog a) (PostMetadata.comments p), a).
Proof.
  intros Hp. unfold get_comments_for_post. run.
  rewrite (proj2 (contains_true _ _)) by (by rewrite Hp). simpl.
  unfold App.on_lablog, Lablog.posts_getitem. rewrite Hp. unfold returning.
  by destruct a as [[] ?].
Qed.

Lemma get_comments_for_post_absent post_id a :
  PyDict.get post_id (Lablog.posts (App.lablog a)) = None →
  get_comments_for_post post_id a = (Raise (HTTPException 404), a).
Proof.
  intros Hp. unfold get_comments_for_post. run. by rewrite (proj2 (contains_false _ _) Hp).
Qed.

(** The public route, case by case: [kept] are the timestamps of the host
    that are still recent, [a0] is the process after the rate limiter has
    let the request pass. *)
Lemma add_comment_for_post_cases now uuid4 time_time post_id comment_data client_host a :
  let kept := List.filter (λ timestamp, bool_decide (now - timestamp < default_period))
                (default [] (App.rate_limit_data a !! client_host)) in
  let a0 := App.set_rate_limit_data
              (<[client_host := (kept ++ [now])%list]> (App.rate_limit_data a)) a in
  add_comment_for_post now uuid4 time_time post_id comment_data client_host a
  = if bool_decide (default_limit ≤ Z.of_nat (length kept)) then
      (Raise (HTTPException 429),
       App.set_rate_limit_data (<[client_host := kept]> (App.rate_limit_data a)) a)
    else if is_spam (App.spam_keywords a) (AddCommentData.content comment_data) then
      (Raise (HTTPException 400), a0)
    else
      match PyDict.get post_id (Lablog.posts (App.lablog a)) with
      | None => (Raise ValueError, a0)
      | Some p =>
          (Ret (AddOrUpdateCommentResult.mk "success" uuid4),
           (save_database false
              (App.set_lablog
                 (Lablog.mk
                    (PyDict.set post_id
                       (PostMetadata.set_comments (PostMetadata.comments p ++ [uuid4]) p)
                       (Lablog.posts (App.lablog a)))
                    (PyDict.set uuid4
                       (new_comment uuid4 time_time (AddCommentData.name comment_data)
                          (AddCommentData.content comment_data)
                          (AddCommentData.contact_address comment_data)
                          post_id None (Some client_host) false)
                       (Lablog.comments (App.lablog a))))
                 a0)).2)
      end.
Proof.
  intros kept a0. unfold add_comment_for_post. unfold mbind, M_bind, bind at 1.
  unfold App.on_rate_limit_data. rewrite is_rate_limited_eq. fold kept.
  case_bool_decide; simpl; [done|].
  unfold bind at 1, get_state. fold a0.
  replace (App.spam_keywords a0) with (App.spam_keywords a) by (by destruct a).
  destruct (is_spam _ _); [done|].
  unfold bind at 1, App.on_lablog.
  replace (App.lablog a0) with (App.lablog a) by (by destruct a).
  destruct (PyDict.get post_id (Lablog.posts (App.lablog a))) as [p|] eqn:Hp.
  - rewrite (add_comment_present _ _ _ _ _ _ _ _ _ _ _ Hp).
    unfold bind at 1, in_background, ret. done.
  - rewrite add_comment_absent by done. by destruct a as [[] ? ? ? ? ?].
Qed.


Lemma on_lablog_raise {A} (m : M Lablog.t A) a e :
  m (App.lablog a) = (Raise e, App.lablog a) → App.on_lablog m a = (Raise e, a).
Proof. intros Hm. unfold App.on_lablog. rewrite Hm. by destruct a. Qed.

Lemma on_lablog_ret {A} (m : M Lablog.t A) a x s :
  m (App.lablog a) = (Ret x, s) → App.on_lablog m a = (Ret x, App.set_lablog s a).
Proof. intros Hm. unfold App.on_lablog. by rewrite Hm. Qed.

(** A route that has changed the store saves it and answers: the answer is
    the error of the save when [open] fails. *)
Lemma save_and_answer {A} (answer : A) a :
  bind (save_database false) (λ _, ret answer) a
  = match write_fault a with
    | Some e => (Raise e, a)
    | None => (Ret answer, after_write a)
    end.
Proof.
  unfold bind. rewrite save_database_eq. cbn [andb].
  by destruct (write_fault a).
Qed.

End routes.




(** ** The model at work *)

Example get_posts_newest_first `{Runtime} :
  PostMetadata.post_id <$> Lablog.get_posts three_posts None None None None None None None
  = ["b"; "c"; "a"].
Proof. reflexivity. Qed.

Example get_posts_category_and_tag `{Runtime} :
  PostMetadata.post_id
    <$> Lablog.get_posts three_posts None None (Some "tech") (Some "x") None None None
  = ["a"].
Proof. reflexivity. Qed.

Example get_posts_bounds_exclusive `{Runtime} :
  PostMetadata.post_id
    <$> Lablog.get_posts three_posts None None None None None
          (Some (100 : float)) (Some (300 : float))
  = ["c"].
Proof. reflexivity. Qed.

Example get_posts_bound_nan `{Runtime} :
  Lablog.get_posts three_posts None None None None None (Some NaN) None = [].
Proof. reflexivity. Qed.

Example get_comments_oldest_first `{Runtime} :
  CommentData.comment_id <$> Lablog.get_comments three_comments ["k1"; "k2"; "k3"; "k9"]
  = ["k2"; "k3"; "k1"].
Proof. reflexivity. Qed.

Example get_comments_for_display_truncates :
  Lablog.get_comments_for_display three_comments ["k1"; "k2"; "k3"]
  = Ret [DisplayCommentData.mk "n2" "second" 10; DisplayCommentData.mk "n1" "first" 50].
Proof. reflexivity. Qed.

Example int_of_float_toward_zero :
  int_of_float (Finite (-7 # 2)) = Ret (-3)
  ∧ int_of_float (Finite (7 # 2)) = Ret 3
  ∧ int_of_float NegInf = Raise OverflowError
  ∧ int_of_float NaN = Raise ValueError.
Proof. by split_and!. Qed.

Example is_spam_substring :
  @is_spam Reference.runtime ["casino"; "lottery"] "Visit my CASINO today" = true
  ∧ @is_spam Reference.runtime ["casino"; "lottery"] "hello there" = false.
Proof. split; reflexivity. Qed.

Example reference_json_reads_back :
  @json_loads Reference.runtime (@Lablog.serialize Reference.runtime three_comments)
  = Ret (dump_BlogData (Lablog.get_management_data three_comments)).
Proof. vm_compute. reflexivity. Qed.

(** * Further properties of the code *)

(** ** add_post and modify_post *)

(** X1. [add_post] never raises.  It returns the drawn id and stores under
    it a post with the given title, abstract and link, the given timestamp
    or else the clock reading, the given category or else "Miscellaneous",
    the given tags or else none, and no comments.  Every other post and the
    whole comment map are as before; a fresh id becomes the last key, and an
    id already in use keeps its place and loses its former post. *)
Theorem add_post_spec s uuid4 time_time title abstract link ts cat tags :
  ∃ s',
    Lablog.add_post uuid4 time_time title abstract link ts cat tags s = (Ret uuid4, s')
    ∧ PyDict.get uuid4 (Lablog.posts s')
      = Some (PostMetadata.mk title abstract link (or_else ts time_time)
                (or_else cat "Miscellaneous") (or_else tags []) [] uuid4)
    ∧ (∀ k, k ≠ uuid4 → PyDict.get k (Lablog.posts s') = PyDict.get k (Lablog.posts s))
    ∧ Lablog.comments s' = Lablog.comments s
    ∧ PyDict.keys (Lablog.posts s')
      = match PyDict.get uuid4 (Lablog.posts s) with
        | None => (PyDict.keys (Lablog.posts s) ++ [uuid4])%list
        | Some _ => PyDict.keys (Lablog.posts s)
        end.
Proof.
  eexists. split; [reflexivity|]. simpl. split_and!.
  - apply get_set_eq.
  - intros k Hk. by apply get_set_ne.
  - done.
  - destruct (PyDict.get uuid4 (Lablog.posts s)) eqn:Hg.
    + apply keys_set_present. by rewrite Hg.
    + by apply keys_set_absent.
Qed.

Section modify_post_facts.
Implicit Types (s : Lablog.t) (p : PostMetadata.t).

Lemma with_post_twice post_id p1 p2 s :
  with_post post_id p2 (with_post post_id p1 s) = with_post post_id p2 s.
Proof. unfold with_post. simpl. by rewrite set_set. Qed.

Lemma with_post_same post_id p s :
  PyDict.get post_id (Lablog.posts s) = Some p → with_post post_id p s = s.
Proof. intros Hp. unfold with_post. rewrite set_same by done. by destruct s. Qed.

Lemma with_post_get post_id p s :
  PyDict.get post_id (Lablog.posts (with_post post_id p s)) = Some p.
Proof. apply get_set_eq. Qed.

Lemma post_setattr_step {B} post_id (o : option B) (f : B → PostMetadata.t → PostMetadata.t)
    s p :
  PyDict.get post_id (Lablog.posts s) = Some p →
  if_not_None o (λ v, Lablog.posts_setattr post_id (f v)) s
  = (Ret (), with_post post_id (opt_set o f p) s).
Proof.
  intros Hp. destruct o; simpl.
  - by apply posts_setattr_present.
  - by rewrite with_post_same.
Qed.

Lemma modify_post_present post_id title abstract link ts cat tags s p :
  PyDict.get post_id (Lablog.posts s) = Some p →
  Lablog.modify_post post_id title abstract link ts cat tags s
  = (Ret (), with_post post_id (updated_post title abstract link ts cat tags p) s).
Proof.
  intros Hp. unfold Lablog.modify_post, updated_post.
  unfold mbind, M_bind, bind.
  rewrite (post_setattr_step _ title _ _ _ Hp).
  rewrite (post_setattr_step _ abstract _ _ _ (with_post_get _ _ _)), with_post_twice.
  rewrite (post_setattr_step _ link _ _ _ (with_post_get _ _ _)), with_post_twice.
  rewrite (post_setattr_step _ ts _ _ _ (with_post_get _ _ _)), with_post_twice.
  rewrite (post_setattr_step _ cat _ _ _ (with_post_get _ _ _)), with_post_twice.
  rewrite (post_setattr_step _ tags _ _ _ (with_post_get _ _ _)), with_post_twice.
  reflexivity.
Qed.

Lemma updated_post_fields title abstract link ts cat tags p :
  let p' := updated_post title abstract link ts cat tags p in
  PostMetadata.title p' = or_else title (PostMetadata.title p)
  ∧ PostMetadata.abstract p' = or_else abstract (PostMetadata.abstract p)
  ∧ PostMetadata.link p' = or_else link (PostMetadata.link p)
  ∧ PostMetadata.created_timestamp p' = or_else ts (PostMetadata.created_timestamp p)
  ∧ PostMetadata.catagory p' = or_else cat (PostMetadata.catagory p)
  ∧ PostMetadata.tags p' = or_else tags (PostMetadata.tags p)
  ∧ PostMetadata.comments p' = PostMetadata.comments p
  ∧ PostMetadata.post_id p' = PostMetadata.post_id p.
Proof. by destruct title, abstract, link, ts, cat, tags. Qed.
End modify_post_facts.

(** X2. [modify_post] on a [post_id] that is a key of the posts map
    returns without an error.  Afterwards each field that was supplied has
    the supplied value and each field that was not has its old value; the
    post's comment list and its [post_id] are never changed, the post keeps
    its place among the keys, and every other post and the whole comment map
    are as before. *)
Theorem modify_post_existing s post_id title abstract link ts cat tags p :
  PyDict.get post_id (Lablog.posts s) = Some p →
  ∃ s' p',
    Lablog.modify_post post_id title abstract link ts cat tags s = (Ret (), s')
    ∧ PyDict.get post_id (Lablog.posts s') = Some p'
    ∧ PostMetadata.title p' = or_else title (PostMetadata.title p)
    ∧ PostMetadata.abstract p' = or_else abstract (PostMetadata.abstract p)
    ∧ PostMetadata.link p' = or_else link (PostMetadata.link p)
    ∧ PostMetadata.created_timestamp p' = or_else ts (PostMetadata.created_timestamp p)
    ∧ PostMetadata.catagory p' = or_else cat (PostMetadata.catagory p)
    ∧ PostMetadata.tags p' = or_else tags (PostMetadata.tags p)
    ∧ PostMetadata.comments p' = PostMetadata.comments p
    ∧ PostMetadata.post_id p' = PostMetadata.post_id p
    ∧ PyDict.keys (Lablog.posts s') = PyDict.keys (Lablog.posts s)
    ∧ (∀ k, k ≠ post_id → PyDict.get k (Lablog.posts s') = PyDict.get k (Lablog.posts s))
    ∧ Lablog.comments s' = Lablog.comments s.
Proof.
  intros Hp. eexists. exists (updated_post title abstract link ts cat tags p).
  split; [by apply modify_post_present|].
  destruct (updated_post_fields title abstract link ts cat tags p)
    as (? & ? & ? & ? & ? & ? & ? & ?).
  split_and!; try done.
  - apply with_post_get.
  - apply keys_set_present. by rewrite Hp.
  - intros k Hk. by apply get_set_ne.
Qed.

Lemma modify_post_existing_witness :
  ∃ s', Lablog.modify_post "p1" (Some "Hello again") None None None None (Some ["news"])
          example_store = (Ret (), s')
        ∧ PostMetadata.comments <$> PyDict.get "p1" (Lablog.posts s') = Some ["c1"].
Proof.
  destruct (modify_post_existing example_store "p1" (Some "Hello again") None None None None
              (Some ["news"]) _ eq_refl)
    as (s' & p' & Hrun & Hget & _ & _ & _ & _ & _ & _ & Hcomments & _).
  exists s'. split; [exact Hrun|]. rewrite Hget. simpl. by rewrite Hcomments.
Defined.

(** ** modify_comment *)

(** X3. [modify_comment] on a [comment_id] that is no key of the comment
    map leaves the store unchanged; it raises KeyError when at least one
    field is supplied and returns without an error when none is. *)
Theorem modify_comment_absent s comment_id name content contact ts ip post_id display :
  PyDict.get comment_id (Lablog.comments s) = None →
  Lablog.modify_comment comment_id name content contact ts ip post_id display s
  = (if supplies_a_comment_field name content contact ts ip post_id display
     then Raise KeyError else Ret (),
     s).
Proof.
  intros Hg. unfold Lablog.modify_comment.
  destruct name, content, contact, ts, ip, post_id, display; run;
    rewrite ?(comments_setattr_absent _ _ _ Hg); reflexivity.
Qed.

Lemma modify_comment_absent_witness :
  Lablog.modify_comment "c9" None None None None None None (Some true) example_store
  = (Raise KeyError, example_store).
Proof.
  exact (modify_comment_absent example_store "c9" None None None None None None (Some true)
           eq_refl).
Defined.

(** X4. [modify_comment] on a [comment_id] that is a key of the comment map
    returns without an error, whatever fields it is given.  It never touches
    the posts map (so no post's comment list changes, also when a [post_id]
    is given), the keys of the comment map, the comment's own [comment_id]
    or any other comment; [display] and [post_id] take the supplied value
    when one is supplied and keep the old one otherwise. *)
Theorem modify_comment_existing s comment_id name content contact ts ip post_id display c :
  PyDict.get comment_id (Lablog.comments s) = Some c →
  ∃ s' c',
    Lablog.modify_comment comment_id name content contact ts ip post_id display s
    = (Ret (), s')
    ∧ PyDict.get comment_id (Lablog.comments s') = Some c'
    ∧ Lablog.posts s' = Lablog.posts s
    ∧ PyDict.keys (Lablog.comments s') = PyDict.keys (Lablog.comments s)
    ∧ (∀ k, k ≠ comment_id →
         PyDict.get k (Lablog.comments s') = PyDict.get k (Lablog.comments s))
    ∧ CommentData.comment_id c' = CommentData.comment_id c
    ∧ CommentData.display c' = or_else display (CommentData.display c)
    ∧ CommentData.post_id c' = or_else post_id (CommentData.post_id c)
    ∧ CommentData.contact_address c' = or_else contact (CommentData.contact_address c)
    ∧ CommentData.ip_address c' = or_else ip (CommentData.ip_address c).
Proof.
  intros Hc. eexists. exists (updated_comment name content contact ts ip post_id display c).
  split; [by apply modify_comment_present|]. split_and!.
  - apply with_comment_get.
  - done.
  - apply keys_set_present. by rewrite Hc.
  - intros k Hk. by apply get_set_ne.
  - by destruct name, content, contact, ts, ip, post_id, display.
  - by destruct name, content, contact, ts, ip, post_id, display.
  - by destruct name, content, contact, ts, ip, post_id, display.
  - by destruct name, content, contact, ts, ip, post_id, display.
  - by destruct name, content, contact, ts, ip, post_id, display.
Qed.

Lemma modify_comment_existing_witness :
  ∃ s', Lablog.modify_comment "c1" None None None None None (Some "p2") (Some false)
          example_store = (Ret (), s')
        ∧ Lablog.posts s' = Lablog.posts example_store.
Proof.
  destruct (modify_comment_existing example_store "c1" None None None None None (Some "p2")
              (Some false) _ eq_refl) as (s' & c' & Hrun & _ & Hposts & _).
  exists s'. by split.
Defined.

(** ** Posts and comments stay linked *)

Section linked_facts.
Implicit Types (s : Lablog.t).

Lemma posts_setattr_linked post_id f :
  (∀ p, PostMetadata.comments (f p) = PostMetadata.comments p) →
  (∀ p, PostMetadata.post_id (f p) = PostMetadata.post_id p) →
  preserves linked (Lablog.posts_setattr post_id f).
Proof.
  intros Hcomments Hid s [Hinv Hlisted]. split; [by apply posts_setattr_inv|].
  destruct (PyDict.get post_id (Lablog.posts s)) as [p|] eqn:Hp.
  2: { by rewrite posts_setattr_absent. }
  rewrite (posts_setattr_present _ _ _ _ Hp). simpl.
  intros x c Hc. simpl in *. destruct (Hlisted _ _ Hc) as (q & Hq & Hin).
  destruct (decide (post_id = CommentData.post_id c)) as [Heq|Hne].
  - exists (f p). rewrite <- Heq, get_set_eq. split; [done|].
    rewrite Hcomments. congruence.
  - exists q. by rewrite get_set_ne.
Qed.

Lemma comments_setattr_linked comment_id f :
  (∀ c, CommentData.post_id (f c) = CommentData.post_id c) →
  preserves linked (Lablog.comments_setattr comment_id f).
Proof.
  intros Hid s [Hinv Hlisted]. split; [by apply comments_setattr_inv|].
  destruct (PyDict.get comment_id (Lablog.comments s)) as [c|] eqn:Hc.
  2: { by rewrite comments_setattr_absent. }
  rewrite (comments_setattr_present _ _ _ _ Hc). simpl.
  intros x c' Hc'. simpl in *. destruct (decide (comment_id = x)) as [<-|Hne].
  - rewrite get_set_eq in Hc'. simplify_eq. rewrite Hid. by apply Hlisted.
  - rewrite get_set_ne in Hc' by done. by apply Hlisted.
Qed.

Lemma modify_post_linked post_id title abstract link ts cat tags :
  preserves linked (Lablog.modify_post post_id title abstract link ts cat tags).
Proof.
  unfold Lablog.modify_post.
  repeat (apply preserves_bind; [|intros _]);
    apply preserves_if_not_None; intros v; by apply posts_setattr_linked.
Qed.

Lemma modify_comment_linked comment_id name content contact ts ip display :
  preserves linked (Lablog.modify_comment comment_id name content contact ts ip None display).
Proof.
  unfold Lablog.modify_comment.
  repeat (apply preserves_bind; [|intros _]);
    first [ by apply preserves_if_not_None; intros v; apply comments_setattr_linked
          | exact (preserves_ret _ _) ].
Qed.

Lemma add_post_linked uuid4 time_time title abstract link ts cat tags s :
  PyDict.get uuid4 (Lablog.posts s) = None →
  linked s →
  linked (Lablog.add_post uuid4 time_time title abstract link ts cat tags s).2.
Proof.
  intros Hfresh [Hinv Hlisted]. split; [by apply add_post_inv|].
  unfold Lablog.add_post. run. intros x c Hc. simpl in *.
  destruct (Hlisted _ _ Hc) as (q & Hq & Hin). exists q.
  rewrite get_set_ne; [done|]. intros ->. congruence.
Qed.

Lemma add_comment_linked uuid4 time_time name content contact post_id ts ip display s :
  PyDict.get uuid4 (Lablog.comments s) = None →
  linked s →
  linked (Lablog.add_comment uuid4 time_time name content contact post_id ts ip display s).2.
Proof.
  intros Hfresh [Hinv Hlisted]. split; [by apply add_comment_inv|].
  destruct (PyDict.get post_id (Lablog.posts s)) as [p|] eqn:Hp.
  2: { by rewrite add_comment_absent. }
  rewrite (add_comment_present _ _ _ _ _ _ _ _ _ _ _ Hp). simpl.
  intros x c Hc. simpl in *. destruct (decide (uuid4 = x)) as [<-|Hne].
  - rewrite get_set_eq in Hc. simplify_eq. simpl. eexists.
    rewrite get_set_eq. split; [done|]. simpl. apply elem_of_app. right. left.
  - rewrite get_set_ne in Hc by done. destruct (Hlisted _ _ Hc) as (q & Hq & Hin).
    destruct (decide (post_id = CommentData.post_id c)) as [Heq|Hne'].
    + eexists. rewrite <- Heq, get_set_eq. split; [done|]. simpl.
      apply elem_of_app. left. congruence.
    + exists q. by rewrite get_set_ne.
Qed.

Lemma delete_comment_linked comment_id : preserves linked (Lablog.delete_comment comment_id).
Proof.
  intros s [Hinv Hlisted]. split; [by apply delete_comment_inv|].
  pose proof Hinv as (Hri & Hpc & Hwfp & Hwfc).
  destruct (PyDict.get comment_id (Lablog.comments s)) as [c|] eqn:Hc.
  2: { by rewrite delete_comment_absent. }
  destruct (Hlisted _ _ Hc) as (p & Hp & Hin).
  destruct (list_remove_Some_elem _ _ Hin) as [l Hl].
  rewrite (delete_comment_listed _ _ _ _ _ Hc Hp Hl). simpl.
  intros x c' Hc'. simpl in *.
  assert (x ≠ comment_id) as Hx.
  { intros ->. by rewrite get_del_eq in Hc'. }
  rewrite get_del_ne in Hc' by done. destruct (Hlisted _ _ Hc') as (q & Hq & Hinq).
  destruct (decide (CommentData.post_id c = CommentData.post_id c')) as [Heq|Hne].
  - eexists. rewrite <- Heq, get_set_eq. split; [done|]. simpl.
    apply (list_remove_other _ _ _ _ Hl Hx). congruence.
  - exists q. by rewrite get_set_ne.
Qed.

Lemma run_call_linked c s :
  fresh_draw c s → ¬ rewrites_post_id c → linked s → linked (run_call c s).
Proof.
  intros Hfresh Hnot Hl. destruct c; simpl in *.
  - by apply add_post_linked.
  - by apply modify_post_linked.
  - by apply add_comment_linked.
  - destruct post_id; [by destruct Hnot|]. by apply modify_comment_linked.
  - by apply delete_comment_linked.
Qed.

Lemma init_linked : linked Lablog.init.
Proof. split; [apply init_inv | by intros x c Hc]. Qed.

Lemma run_calls_linked cs s : well_behaved cs s → linked s → linked (run_calls cs s).
Proof.
  revert s. induction cs as [|c cs IH]; intros s Hwb Hl; simpl in *; [done|].
  destruct Hwb as (Hfresh & Hnot & Hwb). apply IH; [done|]. by apply run_call_linked.
Qed.

Lemma linked_delete_returns s comment_id c :
  linked s → PyDict.get comment_id (Lablog.comments s) = Some c →
  ∃ p l, PyDict.get (CommentData.post_id c) (Lablog.posts s) = Some p
         ∧ list_remove comment_id (PostMetadata.comments p) = Some l
         ∧ Lablog.delete_comment comment_id s
           = (Ret (),
              Lablog.mk
                (PyDict.set (CommentData.post_id c) (PostMetadata.set_comments l p)
                   (Lablog.posts s))
                (PyDict.del comment_id (Lablog.comments s))).
Proof.
  intros [_ Hlisted] Hc. destruct (Hlisted _ _ Hc) as (p & Hp & Hin).
  destruct (list_remove_Some_elem _ _ Hin) as [l Hl].
  exists p, l. split_and!; [done | done | by apply delete_comment_listed].
Qed.
End linked_facts.

(** X5. Every store reached from the empty store by [add_post],
    [modify_post], [add_comment], [modify_comment] and [delete_comment], with
    fresh uuid4 draws and no [modify_comment] that is handed a [post_id], has
    posts and comments linked in both directions: each id in a post's list is
    a comment that names this post, each comment is listed by the post it
    names, a post is stored under its own id and lists no comment twice, and
    no key occurs twice. *)
Theorem well_behaved_history_linked cs :
  well_behaved cs Lablog.init →
  let s := run_calls cs Lablog.init in
  referential_integrity s ∧ comments_listed s ∧ posts_consistent s ∧ store_wf s.
Proof.
  intros Hwb. destruct (run_calls_linked cs Lablog.init Hwb init_linked)
    as [(Hri & Hpc & Hwf) Hlisted]. by split_and!.
Qed.

Lemma well_behaved_history_linked_witness :
  referential_integrity example_store ∧ comments_listed example_store.
Proof.
  assert (well_behaved example_calls Lablog.init) as Hwb.
  { simpl. split_and!; try done; auto. }
  destruct (well_behaved_history_linked example_calls Hwb) as (Hri & Hlisted & _).
  by split.
Defined.

(** X6. In a store whose posts and comments are linked, [delete_comment] on
    an id that is a key of the comment map never raises: it returns, the id
    is no longer a key of the comment map nor in any post's list, and the
    store is still linked. *)
Theorem delete_comment_on_linked_store s comment_id :
  linked s →
  is_Some (PyDict.get comment_id (Lablog.comments s)) →
  ∃ s', Lablog.delete_comment comment_id s = (Ret (), s')
        ∧ PyDict.get comment_id (Lablog.comments s') = None
        ∧ (∀ k p, PyDict.get k (Lablog.posts s') = Some p →
                  comment_id ∉ PostMetadata.comments p)
        ∧ linked s'.
Proof.
  intros Hl [c Hc]. destruct (linked_delete_returns _ _ _ Hl Hc) as (p & l & Hp & Hrm & Hdel).
  pose proof (delete_comment_linked comment_id s Hl) as Hl'. rewrite Hdel in Hl'. simpl in Hl'.
  eexists. split; [exact Hdel|]. simpl.
  assert (PyDict.get comment_id (PyDict.del comment_id (Lablog.comments s)) = None) as Hgone.
  { apply get_del_eq. by destruct Hl as [(_ & _ & _ & Hwf) _]. }
  split_and!; [done | | done].
  intros k q Hq Hin. destruct Hl' as [(Hri & _) _].
  destruct (Hri _ _ _ Hq Hin) as (c' & Hc' & _). simpl in Hc'. congruence.
Qed.

Lemma delete_comment_on_linked_store_witness :
  ∃ s', Lablog.delete_comment "c1" example_store = (Ret (), s') ∧ linked s'.
Proof.
  assert (linked example_store) as Hl.
  { apply (run_calls_linked example_calls Lablog.init); [|apply init_linked].
    simpl. split_and!; try done; auto. }
  destruct (delete_comment_on_linked_store example_store "c1" Hl (mk_is_Some _ _ eq_refl))
    as (s' & Hdel & _ & _ & Hl').
  exists s'. by split.
Defined.

(** ** add_comment followed by delete_comment *)

Section add_delete.

Lemma del_set_fresh {V} (d : list (string * V)) k v :
  PyDict.get k d = None → PyDict.del k (PyDict.set k v d) = d.
Proof.
  induction d as [|[k' v'] d IH]; simpl.
  - intros _. by rewrite decide_True.
  - case_decide; [done|]. intros Hg. simpl. rewrite decide_False by done. f_equal. auto.
Qed.

Lemma list_remove_last x l : x ∉ l → list_remove x (l ++ [x]) = Some l.
Proof.
  induction l as [|y l IH]; simpl.
  - intros _. by rewrite decide_True.
  - intros [Hne Hnot]%not_elem_of_cons. rewrite decide_False by done. by rewrite IH.
Qed.
End add_delete.

(** X7. Adding a comment under a fresh id to an existing post that does not
    list that id, and deleting it again, gives back exactly the store one
    started from: same posts, same comments, same order. *)
Theorem add_then_delete_comment s uuid4 time_time name content contact post_id ts ip display p :
  PyDict.get uuid4 (Lablog.comments s) = None →
  PyDict.get post_id (Lablog.posts s) = Some p →
  uuid4 ∉ PostMetadata.comments p →
  ∃ s1,
    Lablog.add_comment uuid4 time_time name content contact post_id ts ip display s
    = (Ret uuid4, s1)
    ∧ Lablog.delete_comment uuid4 s1 = (Ret (), s).
Proof.
  intros Hfresh Hp Hnot. eexists. split; [by apply add_comment_present|].
  rewrite (delete_comment_listed _ uuid4
             (new_comment uuid4 time_time name content contact post_id ts ip display)
             (PostMetadata.set_comments (PostMetadata.comments p ++ [uuid4]) p)
             (PostMetadata.comments p)); simpl.
  - rewrite set_set, del_set_fresh by done.
    rewrite set_same; [by destruct s|]. rewrite Hp. by destruct p.
  - apply get_set_eq.
  - apply get_set_eq.
  - by apply list_remove_last.
Qed.

Lemma add_then_delete_comment_witness :
  ∃ s1, Lablog.add_comment "c2" 160 "bob" "hello" "bob@example.org" "p1" None None true
          example_store = (Ret "c2", s1)
        ∧ Lablog.delete_comment "c2" s1 = (Ret (), example_store).
Proof.
  apply (add_then_delete_comment example_store "c2" 160 "bob" "hello" "bob@example.org" "p1"
           None None true _ eq_refl eq_refl).
  by_decide.
Defined.

(** ** get_comments and get_comments_for_display *)

Section comment_queries.
Context `{Runtime}.
Implicit Types (cs : list (string * CommentData.t)) (ids : list string).

Lemma lookup_comments_omap cs ids :
  Lablog.lookup_comments cs ids = omap (λ id, PyDict.get id cs) ids.
Proof.
  induction ids as [|id ids IH]; simpl; [done|].
  destruct (PyDict.get id cs); by rewrite IH.
Qed.

Lemma get_comments_eq s ids :
  Lablog.get_comments s ids
  = sort_by_float CommentData.created_timestamp false
      (omap (λ id, PyDict.get id (Lablog.comments s)) ids).
Proof. unfold Lablog.get_comments. by rewrite lookup_comments_omap. Qed.
End comment_queries.

(** X8. [get_comments] returns, for the ids of the list that are keys of
    the comment map, their comments: an unknown id contributes nothing, an id
    given twice contributes twice, and the result holds full comment records.
    When none of these comments has NaN for its timestamp the result is
    ordered by [created_timestamp] ascending; a result of two or more
    comments that holds a NaN is in no ascending order. *)
Theorem get_comments_spec `{Runtime} s comment_id_list :
  let found := omap (λ id, PyDict.get id (Lablog.comments s)) comment_id_list in
  let result := Lablog.get_comments s comment_id_list in
  result ≡ₚ found
  ∧ (no_nan CommentData.created_timestamp found →
     oldest_first CommentData.created_timestamp result)
  ∧ (oldest_first CommentData.created_timestamp result → (2 ≤ length found)%nat →
     no_nan CommentData.created_timestamp found)
  ∧ (∀ c, c ∈ result
          ↔ ∃ id, id ∈ comment_id_list ∧ PyDict.get id (Lablog.comments s) = Some c).
Proof.
  intros found result. subst found result. rewrite get_comments_eq. split_and!.
  - apply sort_by_float_Permutation.
  - intros Hnn. rewrite sort_by_float_no_nan by done. by apply list_sort_ascending.
  - intros Hs Hlen.
    assert (no_nan CommentData.created_timestamp
              (sort_by_float CommentData.created_timestamp false
                 (omap (λ id, PyDict.get id (Lablog.comments s)) comment_id_list))) as Hnn.
    { apply (sorted_no_nan _ float_le); [apply float_le_not_nan | exact Hs |].
      by rewrite sort_by_float_Permutation. }
    unfold no_nan in *. by rewrite sort_by_float_Permutation in Hnn.
  - intros c. rewrite sort_by_float_Permutation. apply list_elem_of_omap.
Qed.

Lemma get_comments_spec_witness :
  oldest_first CommentData.created_timestamp
    (@Lablog.get_comments Reference.runtime three_comments ["k1"; "k2"; "k3"; "k9"]).
Proof.
  apply (@get_comments_spec Reference.runtime three_comments ["k1"; "k2"; "k3"; "k9"]).
  repeat constructor.
Defined.


(** ** Ties in get_posts *)

Section stable_sort.
Context {A : Type} (precedes : A → A → bool) (same : A → bool).
Hypothesis same_precedes : ∀ x y, same x = true → same y = true → precedes x y = true.

Lemma filter_insert_by x l :
  List.filter same (insert_by precedes x l) = List.filter same (x :: l).
Proof.
  induction l as [|y l IH]; simpl; [done|].
  destruct (precedes x y) eqn:Hxy; simpl; [done|].
  rewrite IH. simpl. destruct (same x) eqn:Hx, (same y) eqn:Hy; try done.
  rewrite same_precedes in Hxy by done. discriminate.
Qed.

Lemma filter_foldr_insert_by l :
  List.filter same (foldr (insert_by precedes) [] l) = List.filter same l.
Proof.
  induction l as [|x l IH]; simpl; [done|].
  rewrite filter_insert_by. simpl. by rewrite IH.
Qed.
End stable_sort.

(** X10. When no post that satisfies the criteria has NaN for its
    timestamp, those among the posts [get_posts] returns that have one and
    the same [created_timestamp] appear in the order in which the posts map
    holds them: the sort is stable, so with the descending order the result
    is fully determined. *)
Theorem get_posts_ties_keep_order `{Runtime} s post_id post_id_list catagory tag tags t0 t1 t :
  let matching :=
    List.filter (satisfies_effective post_id post_id_list catagory tag tags t0 t1)
      (PyDict.values (Lablog.posts s)) in
  no_nan PostMetadata.created_timestamp matching →
  List.filter (λ p, float_eqb (PostMetadata.created_timestamp p) t)
    (Lablog.get_posts s post_id post_id_list catagory tag tags t0 t1)
  = List.filter (λ p, float_eqb (PostMetadata.created_timestamp p) t) matching.
Proof.
  intros matching Hnn. subst matching.
  rewrite get_posts_eq, sort_by_float_no_nan by done.
  unfold list_sort. apply filter_foldr_insert_by.
  intros x y [_ Htx]%float_eqb_le [Hyt _]%float_eqb_le. by eapply float_le_trans.
Qed.

Lemma get_posts_ties_keep_order_witness :
  PostMetadata.post_id
    <$> List.filter (λ p, float_eqb (PostMetadata.created_timestamp p) 300)
          (@Lablog.get_posts Reference.runtime tied_posts None None None None None None None)
  = ["b"; "d"].
Proof.
  rewrite (@get_posts_ties_keep_order Reference.runtime tied_posts None None None None None
             None None 300).
  - reflexivity.
  - repeat constructor.
Defined.

(** ** More on the rate limiter *)

(** X11. A check for one host never touches the entry of another host, and
    always leaves an entry for the checked host, also when it refuses.  A
    host's list that holds at most 5 timestamps holds at most 5 afterwards,
    and every timestamp in it afterwards is less than 30 minutes old or is
    the current time. *)
Theorem is_rate_limited_ledger now client_host data :
  let data' := (is_rate_limited now client_host 5 (minutes 30) data).2 in
  (∀ h, h ≠ client_host → data' !! h = data !! h)
  ∧ (∃ l', data' !! client_host = Some l'
           ∧ ((length (default [] (data !! client_host)) ≤ 5)%nat → (length l' ≤ 5)%nat)
           ∧ (∀ t, t ∈ l' → now - t < minutes 30 ∨ t = now)).
Proof.
  intros data'. subst data'. rewrite is_rate_limited_eq.
  set (kept := List.filter _ _).
  assert (∀ t, t ∈ kept → now - t < minutes 30) as Hkept.
  { intros t Ht. apply list_elem_of_In, filter_In in Ht as [_ Ht].
    by apply bool_decide_eq_true_1 in Ht. }
  assert (length kept ≤ length (default [] (data !! client_host)))%nat as Hlen.
  { apply List.filter_length_le. }
  case_bool_decide as Hfull; simpl.
  - split; [intros h Hh; by apply lookup_insert_ne|].
    exists kept. rewrite lookup_insert_eq. split_and!; [done | lia | auto].
  - split; [intros h Hh; by apply lookup_insert_ne|].
    exists (kept ++ [now])%list. rewrite lookup_insert_eq. split_and!; [done | |].
    + intros _. rewrite length_app. simpl. lia.
    + intros t [Ht| ->%list_elem_of_singleton]%elem_of_app; auto.
Qed.

(** X12. Once every timestamp recorded for a host is 30 minutes old or
    older, the next check for that host passes, however many there were, and
    the host's list starts again with the current time alone. *)
Theorem is_rate_limited_recovers now client_host data l :
  data !! client_host = Some l →
  Forall (λ t, minutes 30 ≤ now - t) l →
  is_rate_limited now client_host 5 (minutes 30) data
  = (Ret false, <[client_host := [now]]> data).
Proof.
  intros Hl Hold. rewrite is_rate_limited_eq, Hl. simpl. clear Hl.
  replace (List.filter _ l) with (@nil Z); [reflexivity|].
  induction Hold as [|t l Ht Hold IH]; simpl; [done|].
  rewrite bool_decide_eq_false_2 by lia. done.
Qed.

Lemma is_rate_limited_recovers_witness :
  is_rate_limited (minutes 34) "10.0.0.1" 5 (minutes 30) boundary_ledger
  = (Ret false, <[ "10.0.0.1" := [minutes 34] ]> boundary_ledger).
Proof.
  apply (is_rate_limited_recovers (minutes 34) "10.0.0.1" boundary_ledger
           [0; minutes 1; minutes 2; minutes 3; minutes 4]); [reflexivity|].
  repeat (apply Forall_cons_2; [unfold minutes; lia|]). apply Forall_nil_2.
Defined.

(** ** The spam filter and the keyword file *)

Section spam_facts.

Lemma str_contains_empty haystack : str_contains "" haystack = true.
Proof. by destruct haystack. Qed.

Lemma split_lines_not_nil text : split_lines text ≠ [].
Proof.
  destruct text as [|c rest]; simpl; [done|].
  case_bool_decide; [done|]. by destruct (split_lines rest).
Qed.

Lemma split_lines_line_feed_end text :
  split_lines (text ++ String line_feed "") = (split_lines text ++ [""])%list.
Proof.
  induction text as [|c rest IH]; simpl.
  - reflexivity.
  - case_bool_decide; simpl; [by rewrite IH|].
    rewrite IH. pose proof (split_lines_not_nil rest).
    by destruct (split_lines rest).
Qed.

Lemma is_spam_empty_keyword `{Runtime} spam_keywords content :
  "" ∈ spam_keywords → is_spam spam_keywords content = true.
Proof.
  intros Hin. apply existsb_exists. exists "". split.
  - by apply list_elem_of_In.
  - apply str_contains_empty.
Qed.
End spam_facts.

(** ** The public comment route *)

(** X13. The keyword file is cut at line feeds, so a file that ends with a
    line feed yields the empty string as its last keyword.  The empty string
    is contained in every text: with such a keyword list [is_spam] flags
    every content, and the public route accepts no comment at all, each
    submission ending in 429 or in 400. *)
Theorem trailing_line_feed_rejects_all `{Runtime} text (a : App.t)
    now uuid4 time_time post_id comment_data client_host :
  App.spam_keywords a = split_lines (text ++ String line_feed "") →
  "" ∈ App.spam_keywords a
  ∧ (∀ content, is_spam (App.spam_keywords a) content = true)
  ∧ ((add_comment_for_post now uuid4 time_time post_id comment_data client_host a).1
     = Raise (HTTPException 429)
     ∨ (add_comment_for_post now uuid4 time_time post_id comment_data client_host a).1
       = Raise (HTTPException 400)).
Proof.
  intros Hkw.
  assert ("" ∈ App.spam_keywords a) as Hin.
  { rewrite Hkw, split_lines_line_feed_end. apply elem_of_app. right. left. }
  split_and!; [done | by intros; apply is_spam_empty_keyword |].
  rewrite add_comment_for_post_cases. case_bool_decide; [by left|].
  rewrite is_spam_empty_keyword by done. by right.
Qed.

Lemma trailing_line_feed_rejects_all_witness :
  (@add_comment_for_post Reference.runtime 0 "c2" 160 "p1" visitor_comment "10.0.0.1"
     (set_spam_keywords (split_lines ("casino" ++ String line_feed "")) visitor_app)).1
  = Raise (HTTPException 400).
Proof.
  destruct (@trailing_line_feed_rejects_all Reference.runtime "casino"
              (set_spam_keywords (split_lines ("casino" ++ String line_feed "")) visitor_app)
              0 "c2" 160 "p1" visitor_comment "10.0.0.1" eq_refl) as (_ & _ & [H429|H400]).
  - vm_compute in H429. discriminate.
  - exact H400.
Defined.

(** X14. A public submission that fails, with 429, with 400 or with the
    ValueError for an unknown post, leaves the store, the disk and the
    recorded hash as they were.  Unless it was refused with 429, it has all
    the same recorded the current time for the host: a submission rejected
    as spam or for an unknown post uses up one of the host's slots.  A
    submission that succeeds has stored the comment under the returned id.
    Its save runs in the background: when the database file can be opened
    for writing it writes the file once, and the file and the recorded hash
    then agree with the store; when it cannot, the client is answered with
    success all the same, and the disk and the recorded hash stay as they
    were. *)
Theorem add_comment_for_post_outcomes `{Runtime}
    now uuid4 time_time post_id comment_data client_host (a : App.t) :
  match add_comment_for_post now uuid4 time_time post_id comment_data client_host a with
  | (Raise e, a') =>
      App.lablog a' = App.lablog a
      ∧ disk_untouched a a'
      ∧ (e = HTTPException 429
         ∨ ((e = HTTPException 400
             ∨ (e = ValueError ∧ PyDict.get post_id (Lablog.posts (App.lablog a)) = None))
            ∧ ∃ l, App.rate_limit_data a' !! client_host = Some (l ++ [now])%list))
  | (Ret r, a') =>
      match write_fault a with
      | None =>
          in_sync a'
          ∧ Disk.writes (App.disk a') = S (Disk.writes (App.disk a))
      | Some _ => disk_untouched a a'
      end
      ∧ is_Some (PyDict.get (AddOrUpdateCommentResult.comment_id r)
                   (Lablog.comments (App.lablog a')))
      ∧ ∃ l, App.rate_limit_data a' !! client_host = Some (l ++ [now])%list
  end.
Proof.
  rewrite add_comment_for_post_cases. case_bool_decide.
  { split_and!; [by destruct a | by destruct a | by left]. }
  destruct (is_spam _ _).
  { split_and!; [by destruct a | by destruct a |]. right. split; [by left|].
    destruct a; simpl. eexists. apply lookup_insert_eq. }
  destruct (PyDict.get post_id (Lablog.posts (App.lablog a))) as [p|] eqn:Hp.
  - rewrite save_database_eq. cbn [andb].
    match goal with |- context [write_fault (App.set_lablog ?s ?a0)] =>
      replace (write_fault (App.set_lablog s a0)) with (write_fault a) by (by destruct a)
    end.
    destruct (write_fault a) as [e|]; cbn [snd AddOrUpdateCommentResult.comment_id].
    + split_and!; [by destruct a | |].
      * destruct a; simpl. rewrite get_set_eq. by eexists.
      * destruct a; simpl. eexists. apply lookup_insert_eq.
    + split_and!.
      * apply after_write_in_sync.
      * rewrite after_write_writes. by destruct a.
      * rewrite after_write_lablog. destruct a; simpl. rewrite get_set_eq. by eexists.
      * destruct a; simpl. eexists. apply lookup_insert_eq.
  - split_and!; [by destruct a | by destruct a |]. right. split; [by right|].
    destruct a; simpl. eexists. apply lookup_insert_eq.
Qed.

(** ** The privileged routes *)

Section privileged_routes.
Context `{Runtime}.
Implicit Types (a : App.t) (s : Lablog.t).

Lemma write_fault_set_lablog s a : write_fault (App.set_lablog s a) = write_fault a.
Proof. reflexivity. Qed.

Lemma set_lablog_lablog a : App.set_lablog (App.lablog a) a = a.
Proof. by destruct a. Qed.

Lemma delete_comment_raise_unchanged comment_id s e s' :
  Lablog.delete_comment comment_id s = (Raise e, s') →
  s' = s ∧ (e = KeyError ∨ e = ValueError).
Proof.
  destruct (PyDict.get comment_id (Lablog.comments s)) as [c|] eqn:Hc.
  2: { rewrite delete_comment_absent by done. discriminate. }
  destruct (PyDict.get (CommentData.post_id c) (Lablog.posts s)) as [p|] eqn:Hp.
  2: { rewrite (delete_comment_dangling _ _ _ Hc Hp). intros [= <- <-]. auto. }
  destruct (list_remove comment_id (PostMetadata.comments p)) as [l|] eqn:Hl.
  - rewrite (delete_comment_listed _ _ _ _ _ Hc Hp Hl). discriminate.
  - apply list_remove_None in Hl.
    rewrite (delete_comment_unlisted _ _ _ _ Hc Hp Hl). intros [= <- <-]. auto.
Qed.

Lemma add_comment_from_request_cases uuid4 time_time upd s :
  add_comment_from_request uuid4 time_time upd s = (Raise ValueError, s)
  ∨ add_comment_from_request uuid4 time_time upd s = (Raise ValidationError, s)
  ∨ ∃ s1, add_comment_from_request uuid4 time_time upd s = (Ret uuid4, s1)
          ∧ is_Some (PyDict.get uuid4 (Lablog.comments s1)).
Proof.
  unfold add_comment_from_request.
  destruct (AddOrUpdateCommentData.post_id upd) as [post_id|]; [|by left].
  destruct (PyDict.get post_id (Lablog.posts s)) as [p|] eqn:Hp.
  - destruct (AddOrUpdateCommentData.name upd), (AddOrUpdateCommentData.content upd),
      (AddOrUpdateCommentData.contact_address upd), (AddOrUpdateCommentData.display upd);
      try (right; left; run; by rewrite (proj2 (contains_true _ _)) by (by rewrite Hp)).
    right. right. eexists. split; [by apply add_comment_present|].
    simpl. rewrite get_set_eq. by eexists.
  - destruct (AddOrUpdateCommentData.name upd), (AddOrUpdateCommentData.content upd),
      (AddOrUpdateCommentData.contact_address upd), (AddOrUpdateCommentData.display upd);
      try (left; run; by rewrite (proj2 (contains_false _ _) Hp)).
    left. by apply add_comment_absent.
Qed.

Lemma add_post_from_request_cases uuid4 time_time post_data s :
  Main.add_post_from_request uuid4 time_time post_data s = (Raise ValidationError, s)
  ∨ ∃ s1, Main.add_post_from_request uuid4 time_time post_data s = (Ret uuid4, s1)
          ∧ PostMetadata.comments <$> PyDict.get uuid4 (Lablog.posts s1) = Some []
          ∧ Lablog.comments s1 = Lablog.comments s.
Proof.
  unfold Main.add_post_from_request.
  destruct (AddOrUpdatePostData.title post_data), (AddOrUpdatePostData.abstract post_data),
    (AddOrUpdatePostData.link post_data); try by left.
  right. eexists. split; [reflexivity|]. simpl. by rewrite get_set_eq.
Qed.

(** A change of the store followed by the save and the answer. *)
Lemma change_save_answer {A B} (change : M Lablog.t A) (answer : A → B) a :
  bind (App.on_lablog change)
    (λ x, bind (save_database false) (λ _, ret (answer x))) a
  = match change (App.lablog a) with
    | (Raise e, s) => (Raise e, App.set_lablog s a)
    | (Ret x, s) =>
        match write_fault a with
        | Some e => (Raise e, App.set_lablog s a)
        | None => (Ret (answer x), after_write (App.set_lablog s a))
        end
    end.
Proof.
  unfold bind at 1, App.on_lablog.
  destruct (change (App.lablog a)) as [[x|e] s]; [|done].
  by rewrite save_and_answer, write_fault_set_lablog.
Qed.

(** POST /comments as one case analysis. *)
Lemma add_or_modify_comment_eq uuid4 time_time upd access_level a :
  add_or_modify_comment uuid4 time_time upd access_level a
  = if bool_decide (standard ≤ access_level) then
      let change :=
        match AddOrUpdateCommentData.comment_id upd with
        | Some comment_id =>
            if PyDict.contains comment_id (Lablog.comments (App.lablog a)) then
              bind
                (Lablog.modify_comment comment_id
                   (AddOrUpdateCommentData.name upd)
                   (AddOrUpdateCommentData.content upd)
                   (AddOrUpdateCommentData.contact_address upd)
                   (AddOrUpdateCommentData.created_timestamp upd)
                   (AddOrUpdateCommentData.ip_address upd)
                   (AddOrUpdateCommentData.post_id upd)
                   (AddOrUpdateCommentData.display upd))
                (λ _, ret comment_id)
            else add_comment_from_request uuid4 time_time upd
        | None => add_comment_from_request uuid4 time_time upd
        end in
      match change (App.lablog a) with
      | (Raise e, s) => (Raise e, App.set_lablog s a)
      | (Ret comment_id, s) =>
          match write_fault a with
          | Some e => (Raise e, App.set_lablog s a)
          | None =>
              (Ret (AddOrUpdateCommentResult.mk "success" comment_id),
               after_write (App.set_lablog s a))
          end
      end
    else (Raise AccessLevelException, a).
Proof.
  unfold add_or_modify_comment, check_access_level. unfold mbind, M_bind, bind at 1.
  case_bool_decide as Hlvl; [unfold ret at 1 | done].
  unfold bind at 1, get_state. cbv beta iota zeta.
  rewrite <- (change_save_answer _ (AddOrUpdateCommentResult.mk "success")).
  destruct (AddOrUpdateCommentData.comment_id upd) as [comment_id|]; [|done].
  destruct (PyDict.contains comment_id _); [|done].
  unfold bind, App.on_lablog.
  by destruct (Lablog.modify_comment _ _ _ _ _ _ _ _ _) as [[[]|e] s].
Qed.
End privileged_routes.

(** X15. POST /comments ends in one of three ways.  It is refused before
    anything changes, and then the process is exactly as before: with
    AccessLevelException for a token below [standard], and otherwise with
    ValueError or ValidationError, which only the creation of a comment can
    raise.  Or the store is changed and the save then fails because the
    database file cannot be opened for writing: the error of [open] reaches
    the client, the comment is in the store, and the disk and the recorded
    hash are as before.  Or it succeeds: the returned id is a key of the
    comment map, and the database file and the recorded hash agree with the
    store.  Hence, with a sufficient token and a database file that can be
    written, the update of an existing comment never fails. *)
Theorem add_or_modify_comment_outcomes `{Runtime} uuid4 time_time upd access_level
    (a : App.t) :
  match add_or_modify_comment uuid4 time_time upd access_level a with
  | (Raise e, a') =>
      (a' = a
       ∧ (access_level < standard → e = AccessLevelException)
       ∧ (standard ≤ access_level →
          (e = ValueError ∨ e = ValidationError)
          ∧ ∀ comment_id, AddOrUpdateCommentData.comment_id upd = Some comment_id →
                          PyDict.get comment_id (Lablog.comments (App.lablog a)) = None))
      ∨ (standard ≤ access_level
         ∧ write_fault a = Some e
         ∧ a' = App.set_lablog (App.lablog a') a
         ∧ ∃ comment_id,
             is_Some (PyDict.get comment_id (Lablog.comments (App.lablog a')))
             ∧ (comment_id = uuid4
                ∨ AddOrUpdateCommentData.comment_id upd = Some comment_id))
  | (Ret r, a') =>
      standard ≤ access_level
      ∧ write_fault a = None
      ∧ is_Some (PyDict.get (AddOrUpdateCommentResult.comment_id r)
                   (Lablog.comments (App.lablog a')))
      ∧ in_sync a'
      ∧ Disk.writes (App.disk a') = S (Disk.writes (App.disk a))
  end
  ∧ (standard ≤ access_level → write_fault a = None →
     ∀ comment_id, AddOrUpdateCommentData.comment_id upd = Some comment_id →
                   is_Some (PyDict.get comment_id (Lablog.comments (App.lablog a))) →
     ∃ a', add_or_modify_comment uuid4 time_time upd access_level a
           = (Ret (AddOrUpdateCommentResult.mk "success" comment_id), a')).
Proof.
  rewrite add_or_modify_comment_eq. case_bool_decide as Hlvl.
  2: { split; [|lia]. left. split_and!; [done | done | lia]. }
  cbv zeta.
  assert (∀ change : M Lablog.t string,
            change = add_comment_from_request uuid4 time_time upd →
            (∀ comment_id, AddOrUpdateCommentData.comment_id upd = Some comment_id →
                           PyDict.get comment_id (Lablog.comments (App.lablog a)) = None) →
            match
              match change (App.lablog a) with
              | (Raise e, s) => (Raise e, App.set_lablog s a)
              | (Ret comment_id, s) =>
                  match write_fault a with
                  | Some e => (Raise e, App.set_lablog s a)
                  | None =>
                      (Ret (AddOrUpdateCommentResult.mk "success" comment_id),
                       after_write (App.set_lablog s a))
                  end
              end
            with
            | (Raise e, a') =>
                (a' = a
                 ∧ (access_level < standard → e = AccessLevelException)
                 ∧ (standard ≤ access_level →
                    (e = ValueError ∨ e = ValidationError)
                    ∧ ∀ comment_id, AddOrUpdateCommentData.comment_id upd = Some comment_id →
                        PyDict.get comment_id (Lablog.comments (App.lablog a)) = None))
                ∨ (standard ≤ access_level
                   ∧ write_fault a = Some e
                   ∧ a' = App.set_lablog (App.lablog a') a
                   ∧ ∃ comment_id,
                       is_Some (PyDict.get comment_id (Lablog.comments (App.lablog a')))
                       ∧ (comment_id = uuid4
                          ∨ AddOrUpdateCommentData.comment_id upd = Some comment_id))
            | (Ret r, a') =>
                standard ≤ access_level
                ∧ write_fault a = None
                ∧ is_Some (PyDict.get (AddOrUpdateCommentResult.comment_id r)
                             (Lablog.comments (App.lablog a')))
                ∧ in_sync a'
                ∧ Disk.writes (App.disk a') = S (Disk.writes (App.disk a))
            end) as Hcreate.
  { intros change -> Hnone.
    destruct (add_comment_from_request_cases uuid4 time_time upd (App.lablog a))
      as [Hr | [Hr | (s1 & Hr & Hs1)]]; rewrite Hr.
    - left. rewrite set_lablog_lablog. split_and!; [done | lia | auto].
    - left. rewrite set_lablog_lablog. split_and!; [done | lia | auto].
    - destruct (write_fault a) as [e|] eqn:Hw.
      + right. split_and!; [done | done | by destruct a |].
        exists uuid4. split; [done | by left].
      + split_and!; [done | done | | apply after_write_in_sync |].
        * by rewrite after_write_lablog.
        * by rewrite after_write_writes. }
  destruct (AddOrUpdateCommentData.comment_id upd) as [comment_id|] eqn:Hid.
  2: { split; [by apply Hcreate | by intros _ _ ? [=]]. }
  destruct (PyDict.get comment_id (Lablog.comments (App.lablog a))) as [c|] eqn:Hc.
  2: { rewrite (proj2 (contains_false _ _) Hc).
       split; [apply Hcreate; [done|]; by intros ? [= <-] |].
       intros _ _ ? [= <-] [? ?]. congruence. }
  rewrite (proj2 (contains_true _ _)) by (by rewrite Hc).
  unfold bind. rewrite (modify_comment_present _ _ _ _ _ _ _ _ _ _ Hc). unfold ret.
  destruct (write_fault a) as [e|] eqn:Hw.
  - split; [|done]. right. split_and!; [done | done | by destruct a |].
    exists comment_id. split; [|by right]. destruct a; simpl. rewrite get_set_eq. by eexists.
  - split.
    + split_and!; [done | done | | apply after_write_in_sync |].
      * rewrite after_write_lablog. destruct a; simpl. rewrite get_set_eq. by eexists.
      * by rewrite after_write_writes.
    + intros _ _ ? [= <-] _. by eexists.
Qed.

Section delete_and_post_routes.
Context `{Runtime}.
Implicit Types (a : App.t) (s : Lablog.t).

(** DELETE /comments/{comment_id} as one case analysis. *)
Lemma delete_comment_route_eq comment_id access_level a :
  Main.delete_comment comment_id access_level a
  = if bool_decide (standard ≤ access_level) then
      if PyDict.contains comment_id (Lablog.comments (App.lablog a)) then
        match Lablog.delete_comment comment_id (App.lablog a) with
        | (Raise e, s) => (Raise e, App.set_lablog s a)
        | (Ret _, s) =>
            match write_fault a with
            | Some e => (Raise e, App.set_lablog s a)
            | None =>
                (Ret (DeleteCommentResult.mk "success" comment_id),
                 after_write (App.set_lablog s a))
            end
        end
      else (Raise (HTTPException 404), a)
    else (Raise AccessLevelException, a).
Proof.
  unfold Main.delete_comment, check_access_level. unfold mbind, M_bind, bind at 1.
  case_bool_decide as Hlvl; [unfold ret at 1 | done].
  unfold bind at 1, get_state. cbv beta iota zeta.
  destruct (PyDict.contains comment_id _); [|done]. cbn [negb].
  by rewrite (change_save_answer _ (λ _, DeleteCommentResult.mk "success" comment_id)).
Qed.

(** POST /posts as one case analysis. *)
Lemma add_or_update_post_eq uuid4 time_time post_data access_level a :
  Main.add_or_update_post uuid4 time_time post_data access_level a
  = if bool_decide (standard ≤ access_level) then
      let change :=
        match AddOrUpdatePostData.post_id post_data with
        | Some post_id =>
            if PyDict.contains post_id (Lablog.posts (App.lablog a)) then
              bind
                (Lablog.modify_post post_id
                   (AddOrUpdatePostData.title post_data)
                   (AddOrUpdatePostData.abstract post_data)
                   (AddOrUpdatePostData.link post_data)
                   (AddOrUpdatePostData.created_timestamp post_data)
                   (AddOrUpdatePostData.catagory post_data)
                   (AddOrUpdatePostData.tags post_data))
                (λ _, ret post_id)
            else Main.add_post_from_request uuid4 time_time post_data
        | None => Main.add_post_from_request uuid4 time_time post_data
        end in
      match change (App.lablog a) with
      | (Raise e, s) => (Raise e, App.set_lablog s a)
      | (Ret post_id, s) =>
          match write_fault a with
          | Some e => (Raise e, App.set_lablog s a)
          | None =>
              (Ret (AddOrUpdatePostResult.mk "success" post_id),
               after_write (App.set_lablog s a))
          end
      end
    else (Raise AccessLevelException, a).
Proof.
  unfold Main.add_or_update_post, check_access_level. unfold mbind, M_bind, bind at 1.
  case_bool_decide as Hlvl; [unfold ret at 1 | done].
  unfold bind at 1, get_state. cbv beta iota zeta.
  rewrite <- (change_save_answer _ (AddOrUpdatePostResult.mk "success")).
  destruct (AddOrUpdatePostData.post_id post_data) as [post_id|]; [|done].
  destruct (PyDict.contains post_id _); [|done].
  unfold bind, App.on_lablog.
  by destruct (Lablog.modify_post _ _ _ _ _ _ _ _) as [[[]|e] s].
Qed.
End delete_and_post_routes.

(** X16. DELETE /comments/{comment_id} ends in one of three ways.  It is
    refused before anything changes, and the process is exactly as before:
    with AccessLevelException for a token below [standard], with 404 for an
    id that is no key of the comment map, and with the KeyError or
    ValueError of [delete_comment] on a store whose posts and comments are
    not linked.  Or the comment is deleted and the save then fails because
    the database file cannot be opened for writing: the error of [open]
    reaches the client, the comment is gone from the store, and the disk and
    the recorded hash are as before.  Or it succeeds, and the database file
    and the recorded hash agree with the store.  Hence, on a linked store
    and with a database file that can be written, the deletion of an existing
    comment with a sufficient token always succeeds. *)
Theorem delete_comment_route_outcomes `{Runtime} comment_id access_level (a : App.t) :
  match Main.delete_comment comment_id access_level a with
  | (Raise e, a') =>
      (a' = a
       ∧ (access_level < standard → e = AccessLevelException)
       ∧ (standard ≤ access_level →
          match PyDict.get comment_id (Lablog.comments (App.lablog a)) with
          | None => e = HTTPException 404
          | Some _ => (e = KeyError ∨ e = ValueError) ∧ ¬ linked (App.lablog a)
          end))
      ∨ (standard ≤ access_level
         ∧ write_fault a = Some e
         ∧ a' = App.set_lablog (App.lablog a') a
         ∧ is_Some (PyDict.get comment_id (Lablog.comments (App.lablog a)))
         ∧ (PyDict.wf (Lablog.comments (App.lablog a)) →
            PyDict.get comment_id (Lablog.comments (App.lablog a')) = None))
  | (Ret r, a') =>
      standard ≤ access_level
      ∧ write_fault a = None
      ∧ DeleteCommentResult.comment_id r = comment_id
      ∧ is_Some (PyDict.get comment_id (Lablog.comments (App.lablog a)))
      ∧ (PyDict.wf (Lablog.comments (App.lablog a)) →
         PyDict.get comment_id (Lablog.comments (App.lablog a')) = None)
      ∧ in_sync a'
      ∧ Disk.writes (App.disk a') = S (Disk.writes (App.disk a))
  end
  ∧ (standard ≤ access_level → write_fault a = None → linked (App.lablog a) →
     is_Some (PyDict.get comment_id (Lablog.comments (App.lablog a))) →
     ∃ a', Main.delete_comment comment_id access_level a
           = (Ret (DeleteCommentResult.mk "success" comment_id), a')).
Proof.
  rewrite delete_comment_route_eq. case_bool_decide as Hlvl.
  2: { split; [|lia]. left. split_and!; [done | done | lia]. }
  destruct (PyDict.get comment_id (Lablog.comments (App.lablog a))) as [c|] eqn:Hc.
  2: { rewrite (proj2 (contains_false _ _) Hc). split.
       - left. split_and!; [done | lia | done].
       - by intros _ _ _ [? ?]. }
  rewrite (proj2 (contains_true _ _)) by (by rewrite Hc).
  assert (∀ s', Lablog.delete_comment comment_id (App.lablog a) = (Ret (), s') →
                PyDict.wf (Lablog.comments (App.lablog a)) →
                PyDict.get comment_id (Lablog.comments s') = None) as Hgone.
  { intros s' Hdel Hwf.
    destruct (PyDict.get (CommentData.post_id c) (Lablog.posts (App.lablog a)))
      as [p|] eqn:Hp.
    2: { rewrite (delete_comment_dangling _ _ _ Hc Hp) in Hdel. discriminate. }
    destruct (list_remove comment_id (PostMetadata.comments p)) as [l|] eqn:Hl.
    - rewrite (delete_comment_listed _ _ _ _ _ Hc Hp Hl) in Hdel.
      injection Hdel as <-. simpl. by apply get_del_eq.
    - apply list_remove_None in Hl.
      rewrite (delete_comment_unlisted _ _ _ _ Hc Hp Hl) in Hdel. discriminate. }
  destruct (Lablog.delete_comment comment_id (App.lablog a)) as [[[]|e] s'] eqn:Hdel.
  - destruct (write_fault a) as [e|] eqn:Hw.
    + split; [|done]. right. split_and!; [done | done | by destruct a | by eexists |].
      intros Hwf. destruct a; simpl. by apply Hgone.
    + split.
      * split_and!; [done | done | done | by eexists | | apply after_write_in_sync |].
        -- intros Hwf. rewrite after_write_lablog. destruct a; simpl. by apply Hgone.
        -- by rewrite after_write_writes.
      * intros _ _ _ _. by eexists.
  - destruct (delete_comment_raise_unchanged _ _ _ _ Hdel) as [-> He].
    rewrite set_lablog_lablog. split.
    + left. split_and!; [done | lia |]. intros _. split; [done|].
      intros Hl. destruct (linked_delete_returns _ _ _ Hl Hc) as (p & l & _ & _ & Hret).
      rewrite Hret in Hdel. discriminate.
    + intros _ _ Hl _. destruct (linked_delete_returns _ _ _ Hl Hc) as (p & l & _ & _ & Hret).
      rewrite Hret in Hdel. discriminate.
Qed.

Lemma delete_comment_route_outcomes_witness :
  ∃ a', @Main.delete_comment Reference.runtime "c1" standard visitor_app
        = (Ret (DeleteCommentResult.mk "success" "c1"), a').
Proof.
  apply (@delete_comment_route_outcomes Reference.runtime "c1" standard visitor_app).
  - done.
  - reflexivity.
  - apply (run_calls_linked example_calls Lablog.init); [|apply init_linked].
    simpl. split_and!; try done; auto.
  - by eexists.
Defined.

(** X17. POST /posts ends in one of three ways.  It is refused before
    anything changes, and the process is exactly as before: with
    AccessLevelException for a token below [standard], and otherwise with
    ValidationError, when the request names no existing post and [title],
    [abstract] or [link] is missing.  Or the store is changed and the save
    then fails because the database file cannot be opened for writing: the
    error of [open] reaches the client, the post is in the store, and the
    disk and the recorded hash are as before.  Or it succeeds, and the
    database file and the recorded hash agree with the store.  The comment
    map is never touched.  A request that names an existing post changes
    that post, which keeps its comment list and its place, and returns its
    id; any other request creates a post under the drawn id, also when the
    request names an id.  Hence, with a sufficient token and a database file
    that can be written, a request that names an existing post never
    fails. *)
Theorem add_or_update_post_outcomes `{Runtime} uuid4 time_time post_data access_level
    (a : App.t) :
  let existing :=
    match AddOrUpdatePostData.post_id post_data with
    | Some post_id => PyDict.get post_id (Lablog.posts (App.lablog a))
    | None => None
    end in
  let changed (a' : App.t) (returned : string) :=
    Lablog.comments (App.lablog a') = Lablog.comments (App.lablog a)
    ∧ match existing with
      | Some p =>
          AddOrUpdatePostData.post_id post_data = Some returned
          ∧ PostMetadata.comments <$> PyDict.get returned (Lablog.posts (App.lablog a'))
            = Some (PostMetadata.comments p)
          ∧ PyDict.keys (Lablog.posts (App.lablog a'))
            = PyDict.keys (Lablog.posts (App.lablog a))
      | None =>
          returned = uuid4
          ∧ PostMetadata.comments <$> PyDict.get uuid4 (Lablog.posts (App.lablog a'))
            = Some []
      end in
  match Main.add_or_update_post uuid4 time_time post_data access_level a with
  | (Raise e, a') =>
      (a' = a
       ∧ (access_level < standard → e = AccessLevelException)
       ∧ (standard ≤ access_level → e = ValidationError ∧ existing = None))
      ∨ (standard ≤ access_level
         ∧ write_fault a = Some e
         ∧ a' = App.set_lablog (App.lablog a') a
         ∧ ∃ returned, changed a' returned)
  | (Ret r, a') =>
      standard ≤ access_level
      ∧ write_fault a = None
      ∧ in_sync a'
      ∧ Disk.writes (App.disk a') = S (Disk.writes (App.disk a))
      ∧ changed a' (AddOrUpdatePostResult.post_id r)
  end
  ∧ (standard ≤ access_level → write_fault a = None → is_Some existing →
     ∃ r a', Main.add_or_update_post uuid4 time_time post_data access_level a
             = (Ret r, a')).
Proof.
  intros existing changed. rewrite add_or_update_post_eq. case_bool_decide as Hlvl.
  2: { split; [|lia]. left. split_and!; [done | done | lia]. }
  cbv zeta.
  assert (∀ change : M Lablog.t string,
            change = Main.add_post_from_request uuid4 time_time post_data →
            existing = None →
            match
              match change (App.lablog a) with
              | (Raise e, s) => (Raise e, App.set_lablog s a)
              | (Ret post_id, s) =>
                  match write_fault a with
                  | Some e => (Raise e, App.set_lablog s a)
                  | None =>
                      (Ret (AddOrUpdatePostResult.mk "success" post_id),
                       after_write (App.set_lablog s a))
                  end
              end
            with
            | (Raise e, a') =>
                (a' = a
                 ∧ (access_level < standard → e = AccessLevelException)
                 ∧ (standard ≤ access_level → e = ValidationError ∧ existing = None))
                ∨ (standard ≤ access_level
                   ∧ write_fault a = Some e
                   ∧ a' = App.set_lablog (App.lablog a') a
                   ∧ ∃ returned, changed a' returned)
            | (Ret r, a') =>
                standard ≤ access_level
                ∧ write_fault a = None
                ∧ in_sync a'
                ∧ Disk.writes (App.disk a') = S (Disk.writes (App.disk a))
                ∧ changed a' (AddOrUpdatePostResult.post_id r)
            end) as Hcreate.
  { intros change -> Hnone. unfold changed. rewrite Hnone.
    destruct (add_post_from_request_cases uuid4 time_time post_data (App.lablog a))
      as [Hr | (s1 & Hr & Hs1 & Hcs)]; rewrite Hr.
    - left. rewrite set_lablog_lablog. split_and!; [done | lia | done].
    - destruct (write_fault a) as [e|] eqn:Hw.
      + right. split_and!; [done | done | by destruct a |].
        exists uuid4. by destruct a.
      + split_and!; [done | done | apply after_write_in_sync | | | |].
        * by rewrite after_write_writes.
        * rewrite after_write_lablog. by destruct a.
        * done.
        * rewrite after_write_lablog. by destruct a. }
  subst existing.
  destruct (AddOrUpdatePostData.post_id post_data) as [post_id|] eqn:Hid.
  2: { split; [by apply Hcreate | by intros _ _ [? ?]]. }
  destruct (PyDict.get post_id (Lablog.posts (App.lablog a))) as [p|] eqn:Hp.
  2: { rewrite (proj2 (contains_false _ _) Hp).
       split; [by apply Hcreate | by intros _ _ [? ?]]. }
  rewrite (proj2 (contains_true _ _)) by (by rewrite Hp).
  unfold bind. rewrite (modify_post_present _ _ _ _ _ _ _ _ _ Hp). unfold ret.
  assert (changed
            (App.set_lablog
               (with_post post_id
                  (updated_post (AddOrUpdatePostData.title post_data)
                     (AddOrUpdatePostData.abstract post_data)
                     (AddOrUpdatePostData.link post_data)
                     (AddOrUpdatePostData.created_timestamp post_data)
                     (AddOrUpdatePostData.catagory post_data)
                     (AddOrUpdatePostData.tags post_data) p)
                  (App.lablog a)) a) post_id) as Hchanged.
  { unfold changed. destruct a; simpl in *. split_and!; [done | done | |].
    - rewrite get_set_eq. simpl. f_equal. apply updated_post_fields.
    - apply keys_set_present. by rewrite Hp. }
  destruct (write_fault a) as [e|] eqn:Hw.
  - split; [|done]. right. split_and!; [done | done | by destruct a |].
    by exists post_id.
  - split.
    + split_and!; [done | done | apply after_write_in_sync | by rewrite after_write_writes |].
      unfold changed in *. rewrite after_write_lablog. exact Hchanged.
    + intros _ _ _. by do 2 eexists.
Qed.

Lemma add_or_update_post_outcomes_witness :
  ∃ a', @Main.add_or_update_post Reference.runtime "p3" 300 new_post_request standard
          no_directory_app
        = (Raise FileNotFoundError, a')
        ∧ PostMetadata.comments <$> PyDict.get "p3" (Lablog.posts (App.lablog a')) = Some []
        ∧ a' = App.set_lablog (App.lablog a') no_directory_app.
Proof.
  pose proof (@add_or_update_post_outcomes Reference.runtime "p3" 300 new_post_request
                standard no_directory_app) as [Hcases _].
  destruct (@Main.add_or_update_post Reference.runtime "p3" 300 new_post_request standard
              no_directory_app) as [[r|e] a'] eqn:Hrun.
  - vm_compute in Hrun. discriminate.
  - assert (e = FileNotFoundError) as -> by (vm_compute in Hrun; congruence).
    exists a'. split; [done|].
    destruct Hcases as [(_ & _ & Hrefused) | (_ & _ & Hstate & returned & _ & -> & Hpost)].
    + by destruct Hrefused.
    + by split.
Defined.

(** ** Loading *)

Lemma load_from_file_raise_unchanged `{Runtime} (d : Disk.t) (path : string)
    (s0 s' : Lablog.t) (e : exn) :
  Lablog.load_from_file d path s0 = (Raise e, s') → s' = s0.
Proof.
  unfold Lablog.load_from_file, Disk.read.
  destruct (Disk.read_error d !! path); [by intros [= _ <-]|].
  destruct (Disk.files d !! path) as [content|]; [|by intros [= _ <-]].
  destruct (bytes_decode content) as [text|]; [|by intros [= _ <-]].
  destruct (json_loads text) as [[]|]; try (by intros [= _ <-]).
  destruct (validate_BlogData _); [done | by intros [= _ <-]].
Qed.

(** X18. [load_from_file] either fails and leaves the store as it was, or
    succeeds and replaces the store wholesale.  It fails with the error of
    [open] when the file cannot be opened, which is FileNotFoundError when
    there is no file at the path; with UnicodeDecodeError when the content
    is not UTF-8; with the error [json.loads] raises when the text is no
    JSON document; with TypeError when the document is not an object; and
    with ValidationError when the object is not accepted as [BlogData].
    When it succeeds, the new posts and comments are those of the validated
    document and do not depend on the store before the load. *)
Theorem load_from_file_outcomes `{Runtime} (d : Disk.t) (path : string) (s0 : Lablog.t) :
  match Lablog.load_from_file d path s0 with
  | (Raise e, s') =>
      s' = s0
      ∧ match Disk.read_error d !! path, Disk.files d !! path with
        | Some e', _ => e = e'
        | None, None => e = FileNotFoundError
        | None, Some content =>
            match bytes_decode content with
            | None => e = UnicodeDecodeError
            | Some text =>
                match json_loads text with
                | Raise e' => e = e'
                | Ret (JObject r) => e = ValidationError ∧ validate_BlogData r = None
                | Ret _ => e = TypeError
                end
            end
        end
  | (Ret _, s') =>
      (∃ content text r data,
         Disk.read_error d !! path = None
         ∧ Disk.files d !! path = Some content
         ∧ bytes_decode content = Some text
         ∧ json_loads text = Ret (JObject r)
         ∧ validate_BlogData r = Some data
         ∧ Lablog.posts s' = BlogData.posts data
         ∧ Lablog.comments s' = BlogData.comments data)
      ∧ ∀ s0', Lablog.load_from_file d path s0' = (Ret (), s')
  end.
Proof.
  unfold Lablog.load_from_file, Disk.read.
  destruct (Disk.read_error d !! path) as [e'|] eqn:He; [done|].
  destruct (Disk.files d !! path) as [content|] eqn:Hf; [|done].
  destruct (bytes_decode content) as [text|] eqn:Hd; [|done].
  destruct (json_loads text) as [[]|] eqn:Hj; try done.
  destruct (validate_BlogData _) as [data|] eqn:Hv; [|done].
  simpl. split; [|done]. by exists content, text, members, data.
Qed.

Section load_database_facts.
Context `{Runtime}.
Implicit Types (a : App.t).

Lemma load_database_missing a :
  Disk.files (App.disk a) !! (App.root_path a ++ "blogdata.json") = None →
  load_database a = save_database false a.
Proof.
  intros Hf. unfold load_database. run. unfold Disk.exists_. rewrite Hf.
  by rewrite bool_decide_eq_false_2 by (by intros [? ?]).
Qed.

Lemma load_database_existing a content :
  Disk.files (App.disk a) !! (App.root_path a ++ "blogdata.json") = Some content →
  load_database a
  = App.on_lablog
      (Lablog.load_from_file (App.disk a) (App.root_path a ++ "blogdata.json")) a.
Proof.
  intros Hf. unfold load_database. run. unfold Disk.exists_. rewrite Hf.
  by rewrite bool_decide_eq_true_2 by (by eexists).
Qed.
End load_database_facts.

(** X19. [load_database] with no database file saves: when the file can be
    opened for writing, it writes the current store to a new file, records
    its hash and leaves the store as it was; when it cannot, the error of
    [open] is raised and nothing changes.  With a database file it writes
    nothing and leaves the recorded hash as it was, whether the load
    succeeds or fails, and a failed load leaves the store as it was too.
    Hence, in a process whose recorded hash is still the empty string, the
    first save with the hash check after a load goes on to write the file,
    since no digest is empty: one write when the file can be opened. *)
Theorem load_database_outcomes `{Runtime} (a : App.t) :
  match Disk.files (App.disk a) !! (App.root_path a ++ "blogdata.json") with
  | None =>
      match write_fault a with
      | None => load_database a = (Ret (), after_write a)
      | Some e => load_database a = (Raise e, a)
      end
  | Some content =>
      disk_untouched a (load_database a).2
      ∧ (∀ e, (load_database a).1 = Raise e → (load_database a).2 = a)
      ∧ ((∀ x, sha256_hexdigest x ≠ "") → App.data_hash a = "" →
         writes_during (save_database true) (load_database a).2
         = match write_fault a with None => 1%nat | Some _ => 0%nat end
         ∧ (save_database true (load_database a).2).1
           = match write_fault a with None => Ret () | Some e => Raise e end)
  end.
Proof.
  destruct (Disk.files (App.disk a) !! (App.root_path a ++ "blogdata.json"))
    as [content|] eqn:Hf.
  2: { rewrite (load_database_missing _ Hf), save_database_eq. simpl.
       by destruct (write_fault a). }
  rewrite (load_database_existing _ _ Hf). unfold App.on_lablog.
  assert (∀ s', (∀ x, sha256_hexdigest x ≠ "") → App.data_hash a = "" →
            writes_during (save_database true) (App.set_lablog s' a)
            = match write_fault a with None => 1%nat | Some _ => 0%nat end
            ∧ (save_database true (App.set_lablog s' a)).1
              = match write_fault a with None => Ret () | Some e => Raise e end) as Hsave.
  { intros s' Hdigest Hempty. unfold writes_during.
    rewrite save_database_writes, save_database_eq, write_fault_set_lablog. simpl.
    rewrite bool_decide_eq_false_2.
    2: { destruct a; simpl in *. subst. apply Hdigest. }
    destruct (write_fault a); simpl; split; [lia | done | lia | done]. }
  destruct (Lablog.load_from_file _ _ _) as [[[]|e] s'] eqn:Hrun; cbn [fst snd].
  - split_and!; [by destruct a | done | apply Hsave].
  - apply load_from_file_raise_unchanged in Hrun as ->.
    split_and!; [by destruct a | by destruct a | apply Hsave].
Qed.

Lemma load_database_outcomes_witness :
  writes_during (@save_database Reference.runtime true)
    (@load_database Reference.runtime
       (App.start "data/" (App.disk saved_app) [])).2 = 1%nat.
Proof.
  assert (∀ x, @sha256_hexdigest Reference.runtime x ≠ "") as Hdigest
    by (intros x; discriminate).
  pose proof (@load_database_outcomes Reference.runtime
                (App.start "data/" (App.disk saved_app) [])) as H.
  assert (Disk.files (App.disk (App.start "data/" (App.disk saved_app) []))
            !! (App.root_path (App.start "data/" (App.disk saved_app) []) ++ "blogdata.json")
          = Some (@str_encode Reference.runtime
                    (@Lablog.serialize Reference.runtime example_store))) as Hf
    by (vm_compute; reflexivity).
  rewrite Hf in H. destruct H as (_ & _ & Hwrites).
  exact (proj1 (Hwrites Hdigest eq_refl)).
Defined.

(** ** Shutdown and startup *)

Section lifespan_facts.
Context `{Runtime}.

Lemma lifespan_shutdown_eq (sv : Server.t) :
  Main.lifespan_shutdown sv
  = match write_fault (Server.app sv) with
    | None => (Ret (), Server.mk (after_write (Server.app sv)) false)
    | Some e => (Raise e, Server.mk (Server.app sv) false)
    end.
Proof.
  unfold Main.lifespan_shutdown, stop_scheduler.
  unfold mbind, M_bind, bind, get_state, put_state, Server.on_app.
  cbn [Server.app Server.manager_running]. rewrite save_database_eq. simpl.
  by destruct (write_fault (Server.app sv)).
Qed.

Lemma lifespan_startup_eq (sv : Server.t) (content : bytes) (text : string)
    (s : Lablog.t) :
  let a := Server.app sv in
  let doc := dump_BlogData (BlogData.mk (Lablog.posts s) (Lablog.comments s)) in
  finite_timestamps s →
  bytes_decode (str_encode (json_render doc)) = Some (json_render doc) →
  json_loads (json_render doc) = Ret doc →
  Disk.read_error (App.disk a) !! "./backend/spam_keywords.txt" = None →
  Disk.files (App.disk a) !! "./backend/spam_keywords.txt" = Some content →
  bytes_decode content = Some text →
  Disk.read_error (App.disk a) !! (App.root_path a ++ "blogdata.json") = None →
  Disk.files (App.disk a) !! (App.root_path a ++ "blogdata.json")
  = Some (str_encode (Lablog.serialize s)) →
  Main.lifespan_startup sv
  = (Ret (), Server.mk (App.set_lablog s (set_spam_keywords (split_lines text) a)) true).
Proof.
  intros a doc Hfin Hdecode Hloads Hspam_ok Hspam Htext Hdb_ok Hdb. subst a.
  destruct sv as [a running]. cbn [Server.app] in *.
  unfold Main.lifespan_startup. unfold mbind, M_bind, bind at 1.
  unfold Server.on_app at 1, App.on_disk, Disk.read. cbn [Server.app].
  rewrite Hspam_ok, Hspam. cbn [fst snd Server.manager_running].
  replace (App.set_disk (App.disk a) a) with a by (by destruct a).
  unfold bind at 1, Main.decode. rewrite Htext. unfold ret at 1.
  unfold bind at 1. unfold Server.on_app at 1. unfold bind at 1, get_state, put_state.
  cbn [Server.app Server.manager_running].
  unfold bind at 1. unfold Server.on_app at 1. cbn [Server.app Server.manager_running].
  erewrite load_database_existing by (destruct a; exact Hdb).
  unfold App.on_lablog.
  by rewrite (load_from_file_dump s); try done; try (by destruct a).
Qed.
End lifespan_facts.

(** X20. A process that shuts down and a fresh process that starts up on
    the disk it left behind end with the same store: the shutdown clears the
    scheduler flag and writes the store, the startup reads the keyword file,
    loads the store, sets the flag and writes nothing.  This holds when
    every stored timestamp is finite, the JSON library reads back the
    document it rendered, UTF-8 decodes what it encoded, the database file
    can be opened for writing and for reading, and the keyword file is
    present, can be opened and is UTF-8. *)
Theorem restart_restores_store `{Runtime} (sv : Server.t) (content : bytes)
    (text : string) :
  let a := Server.app sv in
  let doc := dump_BlogData (BlogData.mk (Lablog.posts (App.lablog a))
                              (Lablog.comments (App.lablog a))) in
  finite_timestamps (App.lablog a) →
  bytes_decode (str_encode (json_render doc)) = Some (json_render doc) →
  json_loads (json_render doc) = Ret doc →
  write_fault a = None →
  Disk.read_error (App.disk a) !! (App.root_path a ++ "blogdata.json") = None →
  Disk.read_error (App.disk a) !! "./backend/spam_keywords.txt" = None →
  Disk.files (App.disk (Server.app (Main.lifespan_shutdown sv).2))
    !! "./backend/spam_keywords.txt" = Some content →
  bytes_decode content = Some text →
  let sv1 := (Main.lifespan_shutdown sv).2 in
  let fresh := Server.mk (App.start (App.root_path a) (App.disk (Server.app sv1)) [])
                 false in
  ∃ sv2,
    (Main.lifespan_shutdown sv).1 = Ret ()
    ∧ Server.manager_running sv1 = false
    ∧ Main.lifespan_startup fresh = (Ret (), sv2)
    ∧ App.lablog (Server.app sv2) = App.lablog a
    ∧ App.spam_keywords (Server.app sv2) = split_lines text
    ∧ Server.manager_running sv2 = true
    ∧ App.disk (Server.app sv2) = App.disk (Server.app sv1).
Proof.
  intros a doc Hfin Hdecode Hloads Hwrite Hdb_ok Hspam_ok Hspam Htext sv1 fresh.
  subst sv1 fresh. rewrite lifespan_shutdown_eq in *. fold a in Hspam |- *.
  rewrite Hwrite in *. cbn [fst snd Server.app Server.manager_running] in *.
  eexists. split_and!; [done | done | | | | |].
  - apply (lifespan_startup_eq _ content text (App.lablog a)); cbn [Server.app]; try done.
    unfold a. destruct (Server.app sv); simpl. apply lookup_insert_eq.
  - reflexivity.
  - reflexivity.
  - reflexivity.
  - reflexivity.
Qed.

Lemma restart_restores_store_witness :
  ∃ sv2,
    @Main.lifespan_startup Reference.runtime
      (Server.mk
         (App.start "data/"
            (App.disk (Server.app (@Main.lifespan_shutdown Reference.runtime running_server).2))
            [])
         false)
    = (Ret (), sv2)
    ∧ App.lablog (Server.app sv2) = example_store
    ∧ App.spam_keywords (Server.app sv2) = ["casino"; "lottery"].
Proof.
  destruct (@restart_restores_store Reference.runtime running_server
              ("casino" ++ String line_feed "lottery")
              ("casino" ++ String line_feed "lottery"))
    as (sv2 & _ & _ & Hstart & Hstore & Hkw & _).
  - split; repeat constructor.
  - reflexivity.
  - vm_compute. reflexivity.
  - reflexivity.
  - reflexivity.
  - reflexivity.
  - vm_compute. reflexivity.
  - reflexivity.
  - exists sv2. split_and!; [exact Hstart | exact Hstore | exact Hkw].
Defined.

(** ** The autosave loop *)

Section periodic_check_facts.
Context `{Runtime}.
Implicit Types (a : App.t).




End periodic_check_facts.


(** ** The read routes *)

(** X22. The routes that only read never change the process state.
    GET /posts returns all posts and GET /posts/catagory/{catagory} exactly
    the posts of that category, newest first when none of the posts returned
    has NaN for its timestamp.  GET /comments/{post_id} fails with 404
    exactly when the post is unknown.  GET /management/data fails with
    AccessLevelException for a token below [standard] and otherwise returns
    both maps as they are. *)
Theorem read_routes_leave_state `{Runtime} (a : App.t) (catagory post_id : string)
    (access_level : Z) :
  (∃ l, Main.get_posts a = (Ret l, a)
        ∧ l ≡ₚ PyDict.values (Lablog.posts (App.lablog a))
        ∧ (no_nan PostMetadata.created_timestamp l → newest_first l))
  ∧ (∃ l, Main.get_posts_by_catagory catagory a = (Ret l, a)
          ∧ (∀ p, p ∈ l ↔ p ∈ PyDict.values (Lablog.posts (App.lablog a))
                          ∧ PostMetadata.catagory p = catagory)
          ∧ (no_nan PostMetadata.created_timestamp l → newest_first l))
  ∧ (get_comments_for_post post_id a).2 = a
  ∧ ((get_comments_for_post post_id a).1 = Raise (HTTPException 404)
     ↔ PyDict.get post_id (Lablog.posts (App.lablog a)) = None)
  ∧ Main.get_management_data access_level a
    = (if bool_decide (standard ≤ access_level)
       then Ret (BlogData.mk (Lablog.posts (App.lablog a)) (Lablog.comments (App.lablog a)))
       else Raise AccessLevelException,
       a).
Proof.
  assert (∀ post_id post_id_list catagory tag tags t0 t1,
            no_nan PostMetadata.created_timestamp
              (Lablog.get_posts (App.lablog a) post_id post_id_list catagory tag tags t0 t1) →
            newest_first
              (Lablog.get_posts (App.lablog a) post_id post_id_list catagory tag tags t0 t1))
    as Hsorted.
  { intros ? ? ? ? ? ? ? Hnn. apply get_posts_sorted.
    unfold no_nan in *. rewrite get_posts_eq, sort_by_float_Permutation in Hnn. exact Hnn. }
  split_and!.
  - eexists. split; [reflexivity|]. split; [|apply Hsorted].
    rewrite get_posts_eq, sort_by_float_Permutation.
    unfold satisfies_effective, satisfies_supplied. simpl. by rewrite filter_all.
  - eexists. split; [reflexivity|]. split; [|apply Hsorted].
    intros p. rewrite get_posts_elem_of.
    unfold satisfies_effective, satisfies_supplied, meets. simpl.
    rewrite !andb_true_r. by rewrite bool_decide_eq_true.
  - destruct (PyDict.get post_id (Lablog.posts (App.lablog a))) as [p|] eqn:Hp.
    + by rewrite (get_comments_for_post_present _ _ _ Hp).
    + by rewrite (get_comments_for_post_absent _ _ Hp).
  - destruct (PyDict.get post_id (Lablog.posts (App.lablog a))) as [p|] eqn:Hp.
    + rewrite (get_comments_for_post_present _ _ _ Hp). cbn [fst]. split; [|done].
      intros Hraise.
      destruct (proj1 (get_comments_for_display_raises _ _ _ Hraise)) as [|]; discriminate.
    + by rewrite (get_comments_for_post_absent _ _ Hp).
  - unfold Main.get_management_data, check_access_level. run.
    case_bool_decide; [|done]. by destruct a.
Qed.
